(** * atlite/preparation.py: the cutout preparation pipeline

    A shallow embedding of [cutout_do_task], [cutout_prepare],
    [cutout_produce_specific_dataseries], [cutout_get_meta] and
    [_prepare_gebco_height], over an explicit Python store (dict objects
    addressed by location), a file system, dataset handles and a trace of
    observable events.  Exceptions are values of an error monad. *)

From stdpp Require Import base option list gmap strings pretty.
From Stdlib Require Import ZArith Lia Ascii.
From Stdlib Require String.

Local Open Scope string_scope.
Local Open Scope Z_scope.
Local Open Scope list_scope.

(** ** Python values *)

(** A compound (year, month) label, as in the cutout's [year-month] index. *)
Definition yearmonth : Type := Z * Z.

(** Locations of dict objects in the store, and dataset handles. *)
Definition loc : Type := nat.
Definition handle : Type := nat.

(** The values that occur in task and series descriptors.  A function
    object is identified by its [__name__]; coordinate axes are kept as
    opaque grid labels. *)
Inductive value : Type :=
  | VNone
  | VInt (z : Z)
  | VStr (s : string)
  | VFunc (name : string)
  | VAxis (a : list Z)
  | VYearmonths (l : list yearmonth)
  | VFns (m : gmap yearmonth string)
  | VDs (h : handle)
  | VRef (l : loc).

Global Instance value_eq_dec : EqDecision value.
Proof. solve_decision. Defined.

(** A dict with string keys: task descriptors, series descriptors and
    keyword arguments. *)
Abbreviation pydict := (gmap string value).

(** ** Exceptions *)

(** The classes below are all subclasses of [Exception], the class named by
    the handlers of the module. *)
Inductive exn_class : Type :=
  | NameError
  | KeyError
  | IndexError
  | AssertionError
  | OSError
  | TypeError
  | ValueError
  | AttributeError
  | UserError (name : string).

Global Instance exn_class_eq_dec : EqDecision exn_class.
Proof. solve_decision. Defined.

(** An exception object: its class and its [args] tuple. *)
Record exn : Type := Exn { exc_class : exn_class; exc_args : list value }.

Global Instance exn_eq_dec : EqDecision exn.
Proof. solve_decision. Defined.

(** ** Datasets *)

(** An [xarray.Dataset]: named data variables (the payload is an opaque
    token), named coordinates, stacked compound indexes, attributes, and
    the handle that lazily backs the data when it is not in memory. *)
Record dataset : Type := Dataset {
  data_vars : gmap string Z;
  coords : gmap string (list Z);
  stacked : gmap string (list yearmonth);
  attrs : pydict;
  backing : option handle
}.

Global Instance dataset_eq_dec : EqDecision dataset.
Proof. solve_decision. Defined.

Definition empty_dataset : dataset :=
  Dataset ∅ ∅ ∅ ∅ None.

(** [ds.load()]: the data is brought into memory. *)
Definition ds_load (ds : dataset) : dataset :=
  Dataset (data_vars ds) (coords ds) (stacked ds) (attrs ds) None.

(** ** Observable events *)

Inductive level : Type := DEBUG | INFO | WARNING | ERROR.

Global Instance level_eq_dec : EqDecision level.
Proof. solve_decision. Defined.

Inductive event : Type :=
  | EvLog (lvl : level) (template : string) (args : list value)
  | EvOpen (h : handle) (path : string)
  | EvClose (h : handle)
  | EvCall (func : string) (kwargs : pydict)
  | EvWrite (path : string)
  | EvUnlink (path : string)
  | EvMkdir (path : string)
  | EvRmtree (path : string)
  | EvSubprocess (argv : list string)
  | EvPoolCreate (processes : option nat)
  | EvPoolTerminate
  | EvPoolClose.

Global Instance event_eq_dec : EqDecision event.
Proof. solve_decision. Defined.

(** ** The cutout object *)

(** The attributes of [Cutout] that the module reads or assigns.  The class
    itself is outside the module: [datasetfn] is its method (no argument
    gives the primary metadata file, a year-month the canonical monthly
    file), [weather_data_config] is listed in iteration order. *)
Record cutout : Type := Cutout {
  name : string;
  cutout_dir : string;
  prepared : bool;
  coords_x : list Z;
  coords_y : list Z;
  coords_yearmonth : list yearmonth;
  meta : dataset;
  meta_attrs : loc;
  weather_data_config : list (string * pydict);
  meta_data_config : pydict;
  datasetfn : option yearmonth → string
}.

Definition set_prepared (b : bool) (c : cutout) : cutout :=
  Cutout (name c) (cutout_dir c) b (coords_x c) (coords_y c)
         (coords_yearmonth c) (meta c) (meta_attrs c)
         (weather_data_config c) (meta_data_config c) (datasetfn c).

Definition set_meta (m : dataset) (c : cutout) : cutout :=
  Cutout (name c) (cutout_dir c) (prepared c) (coords_x c) (coords_y c)
         (coords_yearmonth c) m (meta_attrs c)
         (weather_data_config c) (meta_data_config c) (datasetfn c).

(** ** The state of the world *)

Inductive pool_status : Type := PoolAbsent | PoolRunning | PoolTerminated | PoolClosed.

Global Instance pool_status_eq_dec : EqDecision pool_status.
Proof. solve_decision. Defined.

Record state : Type := State {
  st_cutout : cutout;
  st_heap : gmap loc pydict;
  st_dirs : gset string;
  st_files : gmap string dataset;
  st_handles : gmap handle (dataset * bool);
  st_pool : pool_status;
  st_trace : list event
}.

Definition with_cutout (c : cutout) (s : state) : state :=
  State c (st_heap s) (st_dirs s) (st_files s) (st_handles s) (st_pool s) (st_trace s).
Definition with_heap (h : gmap loc pydict) (s : state) : state :=
  State (st_cutout s) h (st_dirs s) (st_files s) (st_handles s) (st_pool s) (st_trace s).
Definition with_dirs (d : gset string) (s : state) : state :=
  State (st_cutout s) (st_heap s) d (st_files s) (st_handles s) (st_pool s) (st_trace s).
Definition with_files (f : gmap string dataset) (s : state) : state :=
  State (st_cutout s) (st_heap s) (st_dirs s) f (st_handles s) (st_pool s) (st_trace s).
Definition with_handles (h : gmap handle (dataset * bool)) (s : state) : state :=
  State (st_cutout s) (st_heap s) (st_dirs s) (st_files s) h (st_pool s) (st_trace s).
Definition with_pool (p : pool_status) (s : state) : state :=
  State (st_cutout s) (st_heap s) (st_dirs s) (st_files s) (st_handles s) p (st_trace s).
Definition emit (e : event) (s : state) : state :=
  State (st_cutout s) (st_heap s) (st_dirs s) (st_files s) (st_handles s) (st_pool s)
        (st_trace s ++ [e]).

(** ** The state-and-exception monad *)

Definition M (A : Type) : Type := state → state * (exn + A).

Global Instance M_ret : MRet M := λ A x s, (s, inr x).
Global Instance M_bind : MBind M := λ A B f m s,
  match m s with
  | (s', inl e) => (s', inl e)
  | (s', inr x) => f x s'
  end.

Global Instance M_fmap : FMap M := λ A B f m s,
  match m s with
  | (s', inl e) => (s', inl e)
  | (s', inr x) => (s', inr (f x))
  end.

Definition raise {A} (e : exn) : M A := λ s, (s, inl e).
Definition get_state : M state := λ s, (s, inr s).
Definition modify (f : state → state) : M unit := λ s, (f s, inr tt).

(** [try: body except Exception as e: handler e]. *)
Definition try_except {A} (body : M A) (handler : exn → M A) : M A := λ s,
  match body s with
  | (s', inl e) => handler e s'
  | r => r
  end.

(** [try: body finally: fin]: the clean-up runs on every exit path; an
    exception of the clean-up replaces the outcome of the body. *)
Definition try_finally {A} (body : M A) (fin : M unit) : M A := λ s,
  match body s with
  | (s', r) =>
      match fin s' with
      | (s'', inl e) => (s'', inl e)
      | (s'', inr _) => (s'', r)
      end
  end.

(** A [for] loop whose body may raise. *)
Fixpoint for_each {A} (l : list A) (body : A → M unit) : M unit :=
  match l with
  | [] => mret tt
  | x :: l' => body x ;; for_each l' body
  end.

Fixpoint map_M {A B} (f : A → M B) (l : list A) : M (list B) :=
  match l with
  | [] => mret []
  | x :: l' => y ← f x; ys ← map_M f l'; mret (y :: ys)
  end.

(** ** Dict objects in the store *)

(** The content of the dict at a location.  Python has no dangling
    references; a location outside the store reads as the empty dict. *)
Definition dict_at (l : loc) (s : state) : pydict := default ∅ (st_heap s !! l).

Definition fresh_loc (s : state) : loc := fresh (dom (st_heap s)).

(** [dict(d)] / a dict display: a new object holding the given entries. *)
Definition dict_new (d : pydict) : M loc := λ s,
  let l := fresh_loc s in (with_heap (<[l := d]> (st_heap s)) s, inr l).

(** [d.copy()]: a new dict object with the same entries (shallow). *)
Definition dict_copy (l : loc) : M loc := λ s, dict_new (dict_at l s) s.

(** [d.pop(k)]: removes and returns the entry, [KeyError(k)] when absent. *)
Definition dict_pop (l : loc) (k : string) : M value := λ s,
  match dict_at l s !! k with
  | Some v => (with_heap (<[l := delete k (dict_at l s)]> (st_heap s)) s, inr v)
  | None => (s, inl (Exn KeyError [VStr k]))
  end.

(** [d[k] = v]. *)
Definition dict_set (l : loc) (k : string) (v : value) : M unit :=
  modify (λ s, with_heap (<[l := <[k := v]> (dict_at l s)]> (st_heap s)) s).

(** [d[k]]. *)
Definition dict_get (l : loc) (k : string) : M value := λ s,
  match dict_at l s !! k with
  | Some v => (s, inr v)
  | None => (s, inl (Exn KeyError [VStr k]))
  end.

(** [k in d]. *)
Definition dict_contains (l : loc) (k : string) : M bool := λ s,
  (s, inr (bool_decide (is_Some (dict_at l s !! k)))).

(** The entries of a dict, as unpacked by [**d] at a call. *)
Definition dict_items (l : loc) : M pydict := λ s, (s, inr (dict_at l s)).

(** ** Paths *)

Definition chars (s : string) : list ascii := String.list_ascii_of_string s.
Definition str (l : list ascii) : string := String.string_of_list_ascii l.

(** [s.rfind(c)]: the last index of [c], or [-1]. *)
Fixpoint rfind_from (c : ascii) (l : list ascii) (i : Z) : Z :=
  match l with
  | [] => -1
  | x :: l' =>
      let r := rfind_from c l' (i + 1) in
      if decide (r = -1) then (if decide (x = c) then i else -1) else r
  end.
Definition rfind (c : ascii) (l : list ascii) : Z := rfind_from c l 0.

(** [os.path.splitext] (posixpath): the extension starts at the last dot of
    the last component, leading dots of that component not counting. *)
Definition splitext (p : string) : string * string :=
  let l := chars p in
  let sepIndex := rfind "/"%char l in
  let dotIndex := rfind "."%char l in
  if decide (dotIndex > sepIndex) then
    let name_before_dot :=
      take (Z.to_nat (dotIndex - (sepIndex + 1))) (drop (Z.to_nat (sepIndex + 1)) l) in
    if existsb (λ c, bool_decide (c ≠ "."%char)) name_before_dot
    then (str (take (Z.to_nat dotIndex) l), str (drop (Z.to_nat dotIndex) l))
    else (p, "")
  else (p, "").

(** [os.path.basename] (posixpath). *)
Definition basename (p : string) : string :=
  let l := chars p in str (drop (Z.to_nat (rfind "/"%char l + 1)) l).

(** [os.path.dirname] (posixpath): the head up to the last slash, trailing
    slashes stripped unless the head consists of slashes only. *)
Fixpoint rstrip_slash (rev_l : list ascii) : list ascii :=
  match rev_l with
  | c :: l' => if decide (c = "/"%char) then rstrip_slash l' else rev_l
  | [] => []
  end.
Definition dirname (p : string) : string :=
  let l := chars p in
  let head := take (Z.to_nat (rfind "/"%char l + 1)) l in
  if forallb (λ c, bool_decide (c = "/"%char)) head then str head
  else str (reverse (rstrip_slash (reverse head))).

(** [str(i)] / ["{}".format(i)] on a non-negative integer. *)
Definition format_nat (i : nat) : string := pretty i.

(** ** The file system *)

(** A directory that exists: one recorded in the state; the current
    directory (the empty head of a relative name) and the root are always
    there. *)
Definition isdir (d : string) (s : state) : bool :=
  bool_decide (d = "" ∨ d = "/" ∨ d ∈ st_dirs s).

Definition exists_path (p : string) (s : state) : bool :=
  isdir p s || bool_decide (is_Some (st_files s !! p)).

(** [p] lies strictly below directory [d]. *)
Definition below (d p : string) : bool := String.prefix (d +:+ "/") p.

(** [os.mkdir(d)]. *)
Definition mkdir (d : string) : M unit := λ s,
  if exists_path d s then (s, inl (Exn OSError [VInt 17; VStr "File exists"]))
  else if isdir (dirname d) s
  then (emit (EvMkdir d) (with_dirs ({[d]} ∪ st_dirs s) s), inr tt)
  else (s, inl (Exn OSError [VInt 2; VStr "No such file or directory"])).

(** [shutil.rmtree(d)]: removes the directory and everything below it. *)
Definition rmtree (d : string) : M unit := λ s,
  if bool_decide (d ∈ st_dirs s) then
    (emit (EvRmtree d)
       (with_files (filter (λ kv, ¬ below d kv.1) (st_files s))
          (with_dirs (filter (λ p, p ≠ d ∧ ¬ below d p) (st_dirs s)) s)), inr tt)
  else (s, inl (Exn OSError [VInt 2; VStr "No such file or directory"])).

(** [os.unlink(p)]. *)
Definition unlink (p : string) : M unit := λ s,
  match st_files s !! p with
  | Some _ => (emit (EvUnlink p) (with_files (delete p (st_files s)) s), inr tt)
  | None => (s, inl (Exn OSError [VInt 2; VStr "No such file or directory"]))
  end.

(** [ds.to_netcdf(p)]: the file holds the dataset, in memory form. *)
Definition to_netcdf (ds : dataset) (p : string) : M unit := λ s,
  if isdir (dirname p) s && negb (isdir p s)
  then (emit (EvWrite p) (with_files (<[p := ds_load ds]> (st_files s)) s), inr tt)
  else (s, inl (Exn OSError [VInt 2; VStr "No such file or directory"])).

(** ** Dataset handles *)

Definition fresh_handle (s : state) : handle := fresh (dom (st_handles s)).

Definition is_open (h : handle) (s : state) : bool :=
  match st_handles s !! h with Some (_, true) => true | _ => false end.

(** Opening the file at [p]: a new handle onto its content. *)
Definition open_file (p : string) : M handle := λ s,
  match st_files s !! p with
  | Some ds =>
      let h := fresh_handle s in
      (emit (EvOpen h p) (with_handles (<[h := (ds, true)]> (st_handles s)) s), inr h)
  | None => (s, inl (Exn OSError [VInt 2; VStr "No such file or directory"]))
  end.

(** [ds.close()]. *)
Definition ds_close (h : handle) : M unit :=
  modify (λ s, emit (EvClose h)
                 (with_handles (alter (λ x, (x.1, false)) h (st_handles s)) s)).

(** [logger.<level>(template, *args)]. *)
Definition log (lvl : level) (template : string) (args : list value) : M unit :=
  modify (emit (EvLog lvl template args)).

(** ** The collaborators: extraction, task-generating and metadata functions *)

(** What an extraction function gives when called: it raises, returns
    [None], or returns an iterable of (year-month, dataset) pairs; a
    generator may raise after it has yielded some pairs ([tail]). *)
Inductive presult : Type :=
  | PRaise (e : exn)
  | PNone
  | PIter (items : list (yearmonth * dataset)) (tail : option exn).

(** The functions a configuration refers to, by name.  An extraction
    function reads its keyword arguments and the datasets behind the open
    handles; a task-generating function builds dict objects in the store; a
    metadata function returns a dataset.  The external resampling tool is
    either absent or exits with a code, and the numerical reindexing is a
    function of the raster and the target axes. *)
Record env : Type := Env {
  prepare_sem : string → pydict → state → presult;
  tasks_sem : string → pydict → gmap loc pydict → exn + (gmap loc pydict * list loc);
  meta_sem : string → pydict → exn + dataset;
  gebco_path : string;
  warp_args : list Z → list Z → list string;
  gdalwarp : list string → option Z;
  resampled : dataset;
  reindex_nearest : Z → list Z → list Z → Z
}.

Section Pipeline.

Context (E : env).

(** [f.__name__]. *)
Definition func_name (f : value) : M string :=
  match f with
  | VFunc n => mret n
  | _ => raise (Exn AttributeError [VStr "object has no attribute '__name__'"])
  end.

(** [e.args[0]]. *)
Definition exn_arg0 (e : exn) : M value :=
  match exc_args e with
  | a :: _ => mret a
  | [] => raise (Exn IndexError [VStr "tuple index out of range"])
  end.

(** The call of [prepare_func] with the dict unpacked as keyword arguments. *)
Definition call_prepare (f : value) (kwargs : pydict) : M presult :=
  match f with
  | VFunc n => modify (emit (EvCall n kwargs)) ;; s ← get_state; mret (prepare_sem E n kwargs s)
  | _ => raise (Exn TypeError [VStr "object is not callable"])
  end.

(** [xr.open_dataset(fn, engine=engine)]. *)
Definition open_dataset (fn engine : value) : M handle :=
  match fn with
  | VStr p => open_file p
  | _ => raise (Exn TypeError [VStr "invalid file name"])
  end.

(** [datasetfns[yearmonth]]. *)
Definition fns_lookup (datasetfns : value) (ym : yearmonth) : M string :=
  match datasetfns with
  | VFns m =>
      match m !! ym with
      | Some fn => mret fn
      | None => raise (Exn KeyError [VYearmonths [ym]])
      end
  | _ => raise (Exn TypeError [VStr "object is not subscriptable"])
  end.

(** [task['ds'].close()]. *)
Definition close_value (v : value) : M unit :=
  match v with
  | VDs h => ds_close h
  | _ => raise (Exn AttributeError [VStr "object has no attribute 'close'"])
  end.

Definition var_names (ds : dataset) : string :=
  String.concat ", " ((map_to_list (data_vars ds)).*1).

(** The body of the [try] block of [cutout_do_task]. *)
Definition do_task_body (task : loc) (prepare_func : value) (datasetfns : option value)
    : M (option (list (yearmonth * dataset))) :=
  has_fn ← dict_contains task "fn";
  (if has_fn : bool then
     fn ← dict_pop task "fn";
     engine ← dict_pop task "engine";
     ds ← open_dataset fn engine;
     dict_set task "ds" (VDs ds)
   else mret tt) ;;
  kwargs ← dict_items task;
  r ← call_prepare prepare_func kwargs;
  data ← match r with
         | PRaise e => raise e
         | PNone => mret ([], None)
         | PIter items tail => mret (items, tail)
         end;
  match datasetfns with
  | Some fns =>
      for_each data.1 (λ '(yearmonth, ds),
        fn ← fns_lookup fns yearmonth;
        to_netcdf ds fn ;;
        nm ← func_name prepare_func;
        log DEBUG "Write variable(s) %s to %s generated by %s"
            [VStr (var_names ds); VStr (basename fn); VStr nm]) ;;
      match data.2 with
      | Some e => raise e
      | None => mret None
      end
  | None =>
      let loaded := (λ '(ym, ds), (ym, ds_load ds)) <$> data.1 in
      match data.2 with
      | Some e => raise e
      | None => mret (Some loaded)
      end
  end.

(** The [except Exception as e] handler of [cutout_do_task]. *)
Definition do_task_handler {A} (prepare_func : value) (e : exn) : M A :=
  nm ← func_name prepare_func;
  a ← exn_arg0 e;
  log ERROR "Exception occured in the task with prepare_func `%s`: %s" [VStr nm; a] ;;
  raise e.

(** The [finally] block of [cutout_do_task]. *)
Definition do_task_finally (task : loc) : M unit :=
  has_ds ← dict_contains task "ds";
  if has_ds : bool then v ← dict_get task "ds"; close_value v else mret tt.

(** [cutout_do_task(task, write_to_file=True)].  The result is [None] when
    writing to file and the list of loaded results otherwise. *)
Definition cutout_do_task (task : loc) (write_to_file : bool)
    : M (option (list (yearmonth * dataset))) :=
  task ← dict_copy task;
  prepare_func ← dict_pop task "prepare_func";
  datasetfns ← (if write_to_file then Some <$> dict_pop task "datasetfns" else mret None);
  try_finally
    (try_except (do_task_body task prepare_func datasetfns)
                (do_task_handler prepare_func))
    (do_task_finally task).

(** ** Glob patterns *)

(** The pieces of an [fnmatch] pattern. *)
Inductive tok : Type :=
  | TStar
  | TAny
  | TClass (neg : bool) (items : list (ascii * ascii))
  | TLit (c : ascii).

(** The members of a bracket expression: [a-b] is a range, anything else
    stands for itself. *)
Fixpoint class_items (l : list ascii) : list (ascii * ascii) :=
  match l with
  | a :: l1 =>
      match l1 with
      | "-"%char :: b :: rest => (a, b) :: class_items rest
      | _ => (a, a) :: class_items l1
      end
  | [] => []
  end.

(** Splits at the first closing bracket. *)
Fixpoint find_close (l : list ascii) : option (list ascii * list ascii) :=
  match l with
  | [] => None
  | c :: l' =>
      if decide (c = "]"%char) then Some ([], l')
      else '(stuff, rest) ← find_close l'; Some (c :: stuff, rest)
  end.

(** After an opening bracket: an optional [!], an optional leading [[]]
    that is a member, then everything up to the closing bracket. *)
Definition split_class (l : list ascii) : option (bool * list ascii * list ascii) :=
  let '(neg, l1) := match l with
                    | "!"%char :: l' => (true, l')
                    | _ => (false, l)
                    end in
  let '(lead, l2) := match l1 with
                     | "]"%char :: l' => (["]"%char], l')
                     | _ => ([], l1)
                     end in
  '(stuff, rest) ← find_close l2; Some (neg, (lead ++ stuff)%list, rest).

(** [fnmatch.translate]; [fuel] bounds the number of pieces, the length of
    the pattern is enough. *)
Fixpoint translate (fuel : nat) (pat : list ascii) : list tok :=
  match fuel, pat with
  | S fuel', c :: pat' =>
      if decide (c = "*"%char) then TStar :: translate fuel' pat'
      else if decide (c = "?"%char) then TAny :: translate fuel' pat'
      else if decide (c = "["%char) then
        match split_class pat' with
        | Some (neg, stuff, rest) => TClass neg (class_items stuff) :: translate fuel' rest
        | None => TLit c :: translate fuel' pat'
        end
      else TLit c :: translate fuel' pat'
  | _, _ => []
  end.

Definition in_range (c : ascii) (r : ascii * ascii) : bool :=
  (nat_of_ascii r.1 <=? nat_of_ascii c)%nat && (nat_of_ascii c <=? nat_of_ascii r.2)%nat.

Definition tok_ok (t : tok) (c : ascii) : bool :=
  match t with
  | TStar => true
  | TAny => true
  | TClass neg items => xorb neg (existsb (in_range c) items)
  | TLit c' => bool_decide (c = c')
  end.

Fixpoint match_toks (ts : list tok) (s : list ascii) : bool :=
  match ts with
  | [] => match s with [] => true | _ => false end
  | TStar :: ts' =>
      (fix star (s : list ascii) : bool :=
         match_toks ts' s || match s with
                             | [] => false
                             | _ :: s' => star s'
                             end) s
  | t :: ts' =>
      match s with
      | c :: s' => tok_ok t c && match_toks ts' s'
      | [] => false
      end
  end.

(** [fnmatch.fnmatchcase(name, pat)]. *)
Definition fnmatch (pat name : list ascii) : bool :=
  match_toks (translate (length pat) pat) name.

(** [glob.has_magic] and [glob._ishidden]. *)
Definition has_magic (l : list ascii) : bool :=
  existsb (λ c, bool_decide (c = "*"%char ∨ c = "?"%char ∨ c = "["%char)) l.
Definition ishidden (l : list ascii) : bool :=
  match l with
  | c :: _ => bool_decide (c = "."%char)
  | [] => false
  end.

(** The components of a path between slashes. *)
Fixpoint split_slash (l : list ascii) : list (list ascii) :=
  match l with
  | [] => [[]]
  | c :: l' =>
      if decide (c = "/"%char) then [] :: split_slash l'
      else match split_slash l' with
           | comp :: comps => (c :: comp) :: comps
           | [] => [[c]]
           end
  end.

(** One path component against one pattern component: a component without
    wildcard is a name, one with wildcards is matched by [fnmatch] and does
    not list hidden names unless it is itself hidden. *)
Definition comp_match (pat name : list ascii) : bool :=
  if has_magic pat
  then (ishidden pat || negb (ishidden name)) && fnmatch pat name
  else bool_decide (pat = name).

Fixpoint comps_match (ps ns : list (list ascii)) : bool :=
  match ps, ns with
  | [], [] => true
  | p :: ps', n :: ns' => comp_match p n && comps_match ps' ns'
  | _, _ => false
  end.

Definition glob_match (pattern path : string) : bool :=
  comps_match (split_slash (chars pattern)) (split_slash (chars path)).

(** [glob(pattern)]: the files and directories of the state that the
    pattern matches, component by component. *)
Definition glob (pattern : string) : M (list string) := λ s,
  (s, inr (filter (λ p, glob_match pattern p = true)
             (elements (dom (st_files s) ∪ st_dirs s)))).

(** ** Combining datasets *)

(** Two datasets can be merged when the variables they share agree. *)
Definition ds_compatible (a b : dataset) : bool :=
  bool_decide (map_Forall (λ k v, default v (data_vars b !! k) = v) (data_vars a)).

Definition ds_merge (a b : dataset) : dataset :=
  Dataset (data_vars a ∪ data_vars b) (coords a ∪ coords b)
          (stacked a ∪ stacked b) (attrs a) None.

Fixpoint ds_merge_all (acc : dataset) (l : list dataset) : exn + dataset :=
  match l with
  | [] => inr acc
  | d :: l' =>
      if ds_compatible acc d then ds_merge_all (ds_merge acc d) l'
      else inl (Exn ValueError [VStr "conflicting values for variable"])
  end.

Definition lift_result {A} (r : exn + A) : M A := λ s, (s, r).

Definition handle_content (h : handle) (s : state) : dataset :=
  match st_handles s !! h with
  | Some (d, _) => d
  | None => empty_dataset
  end.

(** [xr.open_mfdataset(fns)]: every file is opened and the contents are
    merged into one dataset backed by the open files. *)
Definition open_mfdataset (fns : list string) : M (list handle * dataset) :=
  match fns with
  | [] => raise (Exn OSError [VStr "no files to open"])
  | _ =>
      hs ← map_M open_file fns;
      s ← get_state;
      ds ← lift_result (ds_merge_all empty_dataset ((λ h, handle_content h s) <$> hs));
      mret (hs, ds)
  end.

(** [ds[k] = v] on a dataset. *)
Definition ds_set_var (k : string) (v : Z) (ds : dataset) : dataset :=
  Dataset (<[k := v]> (data_vars ds)) (coords ds) (stacked ds) (attrs ds) (backing ds).

Definition ds_set_coord (k : string) (v : list Z) (ds : dataset) : dataset :=
  Dataset (data_vars ds) (<[k := v]> (coords ds)) (stacked ds) (attrs ds) (backing ds).

(** [ds[k]] on a dataset. *)
Definition ds_get_var (k : string) (ds : dataset) : M Z :=
  match data_vars ds !! k with
  | Some v => mret v
  | None => raise (Exn KeyError [VStr k])
  end.

(** ** Height from the GEBCO raster *)

(** [tempfile.mkdtemp()]: a new directory, under a name that nothing in
    the file system bears. *)
Definition tmp_name (n : nat) : string := "/tmp/tmp" +:+ pretty n.

Global Instance tmp_name_inj : Inj (=) (=) tmp_name.
Proof. intros n m H. by apply (inj pretty), (inj (String.app "/tmp/tmp")). Qed.

Definition paths (s : state) : list string :=
  elements (dom (st_files s) ∪ st_dirs s).

Definition mkdtemp_name (s : state) : string :=
  @infinite_fresh _ (search_infinite tmp_name) (paths s).

Definition mkdtemp : M string := λ s,
  let d := mkdtemp_name s in
  (emit (EvMkdir d) (with_dirs ({[d]} ∪ st_dirs s) s), inr d).

(** [try: body except cls: handler]: only exceptions of class [cls] are
    handled. *)
Definition try_except_class {A} (cls : exn_class) (body : M A) (handler : M A) : M A := λ s,
  match body s with
  | (s', inl e) => if decide (exc_class e = cls) then handler s' else (s', inl e)
  | r => r
  end.

(** [assert cond, msg]. *)
Definition assert (cond : bool) (args : list value) : M unit :=
  if cond then mret tt else raise (Exn AssertionError args).

(** [subprocess.call(argv)] for the resampling tool: [OSError] when the
    tool cannot be started; otherwise its exit code, and on exit code 0 the
    resampled raster is in the output file, the last argument. *)
Definition subprocess_call (argv : list string) : M Z := λ s,
  let s1 := emit (EvSubprocess argv) s in
  match gdalwarp E argv with
  | None => (s1, inl (Exn OSError [VInt 2; VStr "No such file or directory"]))
  | Some ret =>
      if decide (ret = 0)
      then (with_files (<[default "" (last argv) := resampled E]> (st_files s1)) s1, inr ret)
      else (s1, inr ret)
  end.

(** [ds.rename({'lon': 'x', 'lat': 'y', 'Band1': 'height'})]. *)
Definition rename_gebco (ds : dataset) : M dataset :=
  match coords ds !! "lon", coords ds !! "lat", data_vars ds !! "Band1" with
  | Some lon, Some lat, Some band =>
      mret (Dataset (<["height" := band]> (delete "Band1" (data_vars ds)))
                    (<["y" := lat]> (<["x" := lon]> (delete "lat" (delete "lon" (coords ds)))))
                    (stacked ds) (attrs ds) (backing ds))
  | _, _, _ => raise (Exn ValueError [VStr "cannot rename: not a variable in this dataset"])
  end.

(** [ds.reindex(x=xs, y=ys, method='nearest')]. *)
Definition reindex (xs ys : list Z) (ds : dataset) : dataset :=
  Dataset ((λ v, reindex_nearest E v xs ys) <$> data_vars ds)
          (<["y" := ys]> (<["x" := xs]> (coords ds)))
          (stacked ds) (attrs ds) (backing ds).

(** [_prepare_gebco_height(xs, ys)].  The corner arithmetic only feeds the
    command line, which [warp_args] stands for; indexing an empty axis
    raises. *)
Definition _prepare_gebco_height (xs ys : list Z) : M Z :=
  tmpdir ← mkdtemp;
  (if bool_decide (xs = [] ∨ ys = [])
   then raise (Exn IndexError [VStr "index 0 is out of bounds for axis 0 with size 0"])
   else mret tt) ;;
  let tmpfn := tmpdir +:+ "/" +:+ "resampled.nc" in
  tmpfn ← try_except_class OSError
    (ret ← subprocess_call (["gdalwarp"; "-of"; "NETCDF"] ++ warp_args E xs ys
                             ++ ["-r"; "average"; gebco_path E; tmpfn])%list;
     assert (bool_decide (ret = 0)) [VStr "gdalwarp was not able to resample gebco"] ;;
     mret tmpfn)
    (log WARNING ("gdalwarp was not found for resampling gebco. "
                  +:+ "Next-neighbour interpolation will be used instead!") [] ;;
     mret (gebco_path E));
  ds_gebco ← open_file tmpfn;
  height ← try_finally
    (s ← get_state;
     renamed ← rename_gebco (handle_content ds_gebco s);
     ds_get_var "height" (ds_load (reindex xs ys renamed)))
    (ds_close ds_gebco);
  rmtree tmpdir ;;
  mret height.

(** ** The scheduler *)

Definition get_cutout : M cutout := λ s, (s, inr (st_cutout s)).
Definition set_cutout (f : cutout → cutout) : M unit :=
  modify (λ s, with_cutout (f (st_cutout s)) s).

(** A call [f(k1=v1, ..., **d)]: a keyword given twice is a [TypeError]. *)
Definition kwargs_with (explicit : list (string * value)) (d : pydict) : M pydict :=
  if bool_decide (Exists (λ kv, is_Some (d !! kv.1)) explicit)
  then raise (Exn TypeError [VStr "got multiple values for keyword argument"])
  else mret (list_to_map explicit ∪ d).

(** The call of a task-generating function. *)
Definition run_tasks_func (n : string) (kwargs : pydict) : M (list loc) := λ s,
  match tasks_sem E n kwargs (st_heap s) with
  | inl e => (s, inl e)
  | inr (h, tasks) => (with_heap h s, inr tasks)
  end.

Definition call_tasks (f : value) (kwargs : pydict) : M (list loc) :=
  match f with
  | VFunc n => modify (emit (EvCall n kwargs)) ;; run_tasks_func n kwargs
  | _ => raise (Exn TypeError [VStr "object is not callable"])
  end.

(** [d.pop(k)] on a local dict. *)
Definition pop_local (k : string) (d : pydict) : M (value * pydict) :=
  match d !! k with
  | Some v => mret (v, delete k d)
  | None => raise (Exn KeyError [VStr k])
  end.

(** The tasks of one series: the body of the first loop of
    [cutout_prepare], also used by [cutout_produce_specific_dataseries]. *)
Definition series_tasks (series : pydict) (yearmonths : list yearmonth) : M (list loc) :=
  c ← get_cutout;
  let series := <["meta_attrs" := VRef (meta_attrs c)]> series in
  '(tasks_func, series) ← pop_local "tasks_func" series;
  kwargs ← kwargs_with [("xs", VAxis (coords_x c)); ("ys", VAxis (coords_y c));
                        ("yearmonths", VYearmonths yearmonths)] series;
  call_tasks tasks_func kwargs.

Fixpoint collect_tasks (config : list (string * pydict)) (yearmonths : list yearmonth)
    : M (list loc) :=
  match config with
  | [] => mret []
  | (_, series) :: config' =>
      ts ← series_tasks series yearmonths;
      rest ← collect_tasks config' yearmonths;
      mret (ts ++ rest)%list
  end.

(** The closure [datasetfn_with_id] of [cutout_prepare], for task [i]. *)
Definition datasetfn_with_id (c : cutout) (i : nat) (ym : yearmonth) : string :=
  let '(base, ext) := splitext (datasetfn c (Some ym)) in
  base +:+ "-" +:+ format_nat i +:+ ext.

(** The dict comprehension over the year-months of the index (a year-month
    listed twice is given the same name both times). *)
Definition datasetfns_for (c : cutout) (i : nat) : gmap yearmonth string :=
  list_to_map ((λ ym, (ym, datasetfn_with_id c i ym)) <$> coords_yearmonth c).

(** The second loop of [cutout_prepare]: task [i] is given its output
    names. *)
Fixpoint inject_datasetfns (c : cutout) (i : nat) (tasks : list loc) : M unit :=
  match tasks with
  | [] => mret tt
  | t :: tasks' =>
      dict_set t "datasetfns" (VFns (datasetfns_for c i)) ;;
      inject_datasetfns c (S i) tasks'
  end.

(** [Pool(processes=nprocesses)], [pool.terminate()], [pool.close()]. *)
Definition pool_create (nprocesses : option nat) : M unit :=
  modify (λ s, emit (EvPoolCreate nprocesses) (with_pool PoolRunning s)).
Definition pool_terminate : M unit :=
  modify (λ s, emit EvPoolTerminate (with_pool PoolTerminated s)).
Definition pool_close : M unit :=
  modify (λ s, emit EvPoolClose (with_pool PoolClosed s)).

(** Runs a computation and hands back how it ended. *)
Definition attempt {A} (m : M A) : M (exn + A) := λ s,
  match m s with
  | (s', r) => (s', inr r)
  end.

(** The workers: the jobs listed in [order] are completed, in that order;
    the first exception on the way is kept. *)
Fixpoint pool_run (order : list nat) (tasks : list loc) (first : option exn)
    : M (option exn) :=
  match order with
  | [] => mret first
  | i :: order' =>
      match tasks !! i with
      | None => pool_run order' tasks first
      | Some t =>
          r ← attempt (cutout_do_task t true);
          pool_run order' tasks
            (match first, r with
             | None, inl e => Some e
             | _, _ => first
             end)
      end
  end.

(** [pool.map(cutout_do_task, tasks)]: [order] lists the jobs in the order
    in which the workers complete them; a job that is not listed has not
    completed when the call ends.  The call raises the first exception that
    a job raised. *)
Definition pool_map (order : list nat) (tasks : list loc) : M unit :=
  r ← pool_run order tasks None;
  match r with
  | Some e => raise e
  | None => mret tt
  end.

(** ** The merge stage *)

(** [ds.unstack('year-month')]. *)
Definition ds_unstack (k : string) (ds : dataset) : M dataset :=
  match stacked ds !! k with
  | Some idx =>
      mret (Dataset (data_vars ds)
                    (<["month" := remove_dups (idx.*2)]> (<["year" := remove_dups (idx.*1)]> (coords ds)))
                    (delete k (stacked ds)) (attrs ds) (backing ds))
  | None => raise (Exn ValueError [VStr "not a stacked coordinate"])
  end.

(** The body of the merge loop of [cutout_prepare], for the canonical file
    [fn] of one year-month. *)
Definition merge_month (gebco_height : bool) (fn : string) : M unit :=
  let '(base, ext) := splitext fn in
  fns ← glob (base +:+ "-*" +:+ ext);
  '(hs, ds) ← open_mfdataset fns;
  try_finally
    (ds ← (if gebco_height
           then c ← get_cutout; h ← ds_get_var "height" (meta c); mret (ds_set_var "height" h ds)
           else mret ds);
     to_netcdf ds fn)
    (for_each hs ds_close) ;;
  for_each fns unlink ;;
  log DEBUG "Completed file %s" [VStr (basename (default fn (last fns)))].

(** The [except Exception as e] handler around [pool.map]. *)
Definition abort_handler {A} (c : cutout) (e : exn) : M A :=
  pool_terminate ;;
  log INFO ("Preparation of cutout '%s' has been interrupted by an exception. "
            +:+ "Purging the incomplete cutout_dir.") [VStr (name c)] ;;
  rmtree (cutout_dir c) ;;
  raise e.

(** The statements of [cutout_prepare] up to the creation of the pool;
    the result is the flat task list. *)
Definition prepare_setup (overwrite : bool) (nprocesses : option nat) (gebco_height : bool)
    : M (list loc) :=
  c ← get_cutout;
  (if prepared c && negb overwrite
   then raise (Exn NameError [VStr "name 'ArgumentError' is not defined"])
   else mret tt) ;;
  log INFO "Starting preparation of cutout '%s'" [VStr (name c)] ;;
  (if gebco_height
   then log INFO "Interpolating gebco to the dataset grid" [] ;;
        h ← _prepare_gebco_height (coords_x c) (coords_y c);
        set_cutout (λ c, set_meta (ds_set_var "height" h (meta c)) c)
   else mret tt) ;;
  s ← get_state;
  (if isdir (cutout_dir c) s
   then log DEBUG "Deleting cutout_dir '%s'" [VStr (cutout_dir c)] ;; rmtree (cutout_dir c)
   else mret tt) ;;
  mkdir (cutout_dir c) ;;
  c' ← get_cutout;
  m ← ds_unstack "year-month" (meta c');
  to_netcdf m (datasetfn c None) ;;
  tasks ← collect_tasks (weather_data_config c) (coords_yearmonth c);
  inject_datasetfns c 0 tasks ;;
  log INFO "%d tasks have been collected. Starting running them on %s."
      [VInt (Z.of_nat (length tasks));
       VStr (match nprocesses with
             | Some n => pretty n +:+ " processes"
             | None => "all processors"
             end)] ;;
  pool_create nprocesses ;;
  mret tasks.

(** [cutout_prepare(cutout, overwrite, nprocesses, gebco_height)]; the
    cutout is the one of the state, [order] is the completion order of the
    pool. *)
Definition cutout_prepare (overwrite : bool) (nprocesses : option nat) (gebco_height : bool)
    (order : list nat) : M unit :=
  tasks ← prepare_setup overwrite nprocesses gebco_height;
  c ← get_cutout;
  try_except (pool_map order tasks) (abort_handler c) ;;
  pool_close ;;
  log INFO "Merging variables into monthly compound files" [] ;;
  for_each ((λ ym, datasetfn c (Some ym)) <$> coords_yearmonth c) (merge_month gebco_height) ;;
  log INFO "Cutout '%s' has been successfully prepared" [VStr (name c)] ;;
  set_cutout (set_prepared true).

(** [cutout_produce_specific_dataseries(cutout, yearmonth, series_name)]. *)
Definition cutout_produce_specific_dataseries (yearmonth : yearmonth) (series_name : string)
    : M dataset :=
  c ← get_cutout;
  series ← match (list_to_map (weather_data_config c) : gmap string pydict) !! series_name with
           | Some series => mret series
           | None => raise (Exn KeyError [VStr series_name])
           end;
  tasks ← series_tasks series [yearmonth];
  assert (bool_decide (length tasks = 1%nat)) [] ;;
  task ← match head tasks with
         | Some t => mret t
         | None => raise (Exn IndexError [VStr "list index out of range"])
         end;
  data ← cutout_do_task task false;
  match data with
  | Some [(ym, ds)] => assert (bool_decide (ym = yearmonth)) [] ;; mret ds
  | Some _ => raise (Exn AssertionError [])
  | None => raise (Exn TypeError [VStr "object of type 'NoneType' has no len()"])
  end.

(** ** The metadata materializer *)

(** A [slice(start, stop)] of integers. *)
Record pyslice : Type := Slice { start : Z; stop : Z }.

(** Timestamps and time differences are counted in nanoseconds, as
    [pandas] does. *)
Definition ns_per_hour : Z := 3600 * 1000000000.
Definition ns_per_day : Z := 24 * ns_per_hour.

(** Days from 1970-01-01 to the given day of the proleptic Gregorian
    calendar. *)
Definition days_from_civil (y m d : Z) : Z :=
  let y' := if decide (m ≤ 2) then y - 1 else y in
  let era := y' `div` 400 in
  let yoe := y' - era * 400 in
  let mp := if decide (m ≤ 2) then m + 9 else m - 3 in
  let doy := (153 * mp + 2) `div` 5 + d - 1 in
  let doe := yoe * 365 + yoe `div` 4 - yoe `div` 100 + doy in
  era * 146097 + doe - 719468.

(** The first instant of a month. *)
Definition month_start_ns (y m : Z) : Z := days_from_civil y m 1 * ns_per_day.

(** [pd.Timestamp("{}-{}".format(y, m))], for the years that lie wholly in
    the range of nanosecond timestamps; other strings are rejected. *)
Definition Timestamp_ym (y m : Z) : M Z :=
  if bool_decide (1678 ≤ y ≤ 2261 ∧ 1 ≤ m ≤ 12) then mret (month_start_ns y m)
  else raise (Exn ValueError [VStr "could not convert string to Timestamp"]).

(** [t + pd.offsets.MonthBegin()] for [t] the first instant of month
    [(y, m)]: the first instant of the next month. *)
Definition add_MonthBegin (y m : Z) : Z :=
  if decide (m = 12) then month_start_ns (y + 1) 1 else month_start_ns y (m + 1).

(** [td.components.hours]: the hours left after the whole days. *)
Definition components_hours (td : Z) : Z := (td `mod` ns_per_day) `div` ns_per_hour.

(** [pd.date_range(start, end, freq='<step>h')]. *)
Definition date_range (first last : Z) (step_hours : Z) : M (list Z) :=
  if decide (step_hours ≤ 0)
  then raise (Exn ValueError [VStr "Offset did not increment date"])
  else mret ((λ i : nat, first + Z.of_nat i * (step_hours * ns_per_hour))
               <$> seq 0 (Z.to_nat ((last - first) `div` (step_hours * ns_per_hour) + 1))).

(** [range(a, b + 1)]. *)
Definition range_incl (a b : Z) : list Z :=
  (λ i : nat, a + Z.of_nat i) <$> seq 0 (Z.to_nat (b + 1 - a)).

(** [values[[0, 1, -1]]] on the values of a coordinate. *)
Definition first_second_last (l : list Z) : M (Z * Z * Z) :=
  match l with
  | a :: b :: _ => mret (a, b, default b (last l))
  | _ => raise (Exn IndexError [VStr "index 1 is out of bounds"])
  end.

(** The call of a metadata-preparation function. *)
Definition call_meta (f : value) (kwargs : pydict) : M dataset :=
  match f with
  | VFunc n => modify (emit (EvCall n kwargs)) ;; lift_result (meta_sem E n kwargs)
  | _ => raise (Exn TypeError [VStr "object is not callable"])
  end.

Definition ds_get_coord (k : string) (ds : dataset) : M (list Z) :=
  match coords ds !! k with
  | Some v => mret v
  | None => raise (Exn KeyError [VStr k])
  end.

(** [ds.stack] of ['year'] and ['month'] into ['year-month']: the product of the
    two coordinates, the year varying slowest. *)
Definition ds_stack_yearmonth (ds : dataset) : M dataset :=
  match coords ds !! "year", coords ds !! "month" with
  | Some ys, Some ms =>
      mret (Dataset (data_vars ds) (delete "month" (delete "year" (coords ds)))
                    (<["year-month" := y ← ys; m ← ms; [(y, m)]]> (stacked ds))
                    (attrs ds) (backing ds))
  | _, _ => raise (Exn ValueError [VStr "invalid existing dimensions"])
  end.

Definition ds_update_attrs (params : pydict) (ds : dataset) : dataset :=
  Dataset (data_vars ds) (coords ds) (stacked ds) (params ∪ attrs ds) (backing ds).

(** [cutout_get_meta(cutout, xs, ys, years, months=None)], with the further
    keyword arguments [dataset_params]. *)
Definition cutout_get_meta (xs ys : list Z) (years : pyslice) (months : option pyslice)
    (dataset_params : pydict) : M dataset :=
  let months := default (Slice 1 12) months in
  c ← get_cutout;
  let meta_kwds := dataset_params ∪ meta_data_config c in
  '(prepare_func, meta_kwds) ← pop_local "prepare_func" meta_kwds;
  kwargs ← kwargs_with [("xs", VAxis xs); ("ys", VAxis ys);
                        ("year", VInt (stop years)); ("month", VInt (stop months))] meta_kwds;
  ds ← call_meta prepare_func kwargs;
  let ds := ds_update_attrs dataset_params ds in
  time ← ds_get_coord "time" ds;
  '(start_, second, end_) ← first_second_last time;
  month_start ← Timestamp_ym (stop years) (stop months);
  let offset_start := start_ - month_start in
  let offset_end := end_ - add_MonthBegin (stop years) (stop months) in
  let step := components_hours (second - start_) in
  first_month ← Timestamp_ym (start years) (start months);
  time' ← date_range (first_month + offset_start)
                     (add_MonthBegin (stop years) (stop months) + offset_end) step;
  let ds := ds_set_coord "time" time' ds in
  let ds := ds_set_coord "year" (range_incl (start years) (stop years)) ds in
  let ds := ds_set_coord "month" (range_incl (start months) (stop months)) ds in
  ds_stack_yearmonth ds.

End Pipeline.

(** ** A small configuration, for running the definitions *)

Module Sample.

(** One month, with files [out/201101.nc], [out/201102.nc], ... *)
Definition fn (o : option yearmonth) : string :=
  match o with
  | None => "out/meta.nc"
  | Some (y, m) => "out/" +:+ pretty y +:+ (if decide (m < 10) then "0" else "") +:+ pretty m +:+ ".nc"
  end.

Definition meta_ds : dataset :=
  Dataset ∅ ∅ {[ "year-month" := [(2011, 1)] ]} ∅ None.

Definition wind : dataset := Dataset {[ "wnd" := 1 ]} ∅ ∅ ∅ None.
Definition influx : dataset := Dataset {[ "influx" := 2 ]} ∅ ∅ ∅ None.
Definition raster : dataset :=
  Dataset {[ "Band1" := 7 ]} {[ "lon" := [1]; "lat" := [2] ]} ∅ ∅ None.

Definition c : cutout :=
  Cutout "europe" "out" false [1; 2] [3; 4] [(2011, 1)] meta_ds 0%nat
         [("wind", {[ "tasks_func" := VFunc "tasks_wind" ]});
          ("influx", {[ "tasks_func" := VFunc "tasks_influx" ]})]
         {[ "prepare_func" := VFunc "prepare_meta" ]} fn.

(** Extraction functions: one that yields a month of wind, one that yields
    a month of influx, one that fails on a bare [assert], one that raises
    with a message, one that returns [None]. *)
Definition prepare (n : string) (kwargs : pydict) (s : state) : presult :=
  if decide (n = "prepare_wind") then PIter [((2011, 1), wind)] None
  else if decide (n = "prepare_influx") then PIter [((2011, 1), influx)] None
  else if decide (n = "prepare_asserting") then PRaise (Exn AssertionError [])
  else if decide (n = "prepare_failing") then PRaise (Exn ValueError [VStr "no data"])
  else PNone.

(** Task-generating functions: each returns one new descriptor, except
    [tasks_twice], which returns the same new descriptor twice, and
    [tasks_none], which returns no task. *)
Definition tasks (n : string) (kwargs : pydict) (h : gmap loc pydict)
    : exn + (gmap loc pydict * list loc) :=
  let l := fresh (dom h) in
  let new (f : string) : gmap loc pydict := <[l := {[ "prepare_func" := VFunc f ]}]> h in
  if decide (n = "tasks_wind") then inr (new "prepare_wind", [l])
  else if decide (n = "tasks_influx") then inr (new "prepare_influx", [l])
  else if decide (n = "tasks_failing") then inr (new "prepare_failing", [l])
  else if decide (n = "tasks_twice") then inr (new "prepare_wind", [l; l])
  else inr (h, []).

(** A metadata function giving three-hourly values over the month asked
    for. *)
Definition three_hourly (y m : Z) : list Z :=
  (λ i : nat, month_start_ns y m + Z.of_nat i * (3 * ns_per_hour))
    <$> seq 0 (Z.to_nat ((add_MonthBegin y m - month_start_ns y m) `div` (3 * ns_per_hour))).

Definition meta_func (n : string) (kwargs : pydict) : exn + dataset :=
  match kwargs !! "year", kwargs !! "month" with
  | Some (VInt y), Some (VInt m) =>
      inr (Dataset ∅ {[ "time" := three_hourly y m ]} ∅ ∅ None)
  | _, _ => inl (Exn TypeError [VStr "missing keyword argument"])
  end.

Definition E (tool : option Z) : env :=
  Env prepare tasks meta_func "gebco.nc" (λ _ _, ["-ts"; "2"; "2"; "-te"])
      (λ _, tool) raster (λ v _ _, v + 100).

(** A store with the cutout's attributes dict and a task descriptor, and a
    file system with the raster and an input file. *)
Definition task (f : string) : pydict :=
  {[ "prepare_func" := VFunc f; "datasetfns" := VFns {[ (2011, 1) := "out/201101-0.nc" ]};
     "fn" := VStr "in.nc"; "engine" := VStr "netcdf4"; "xs" := VAxis [1; 2] ]}.

Definition s (c : cutout) (f : string) : state :=
  State c {[ 0%nat := ∅; 1%nat := task f ]} {[ "out" ]}
        {[ "gebco.nc" := raster; "in.nc" := wind ]} ∅ PoolAbsent [].

(** A descriptor without input file, whose extraction function fails on a
    bare [assert]. *)
Definition bare_task : pydict :=
  {[ "prepare_func" := VFunc "prepare_asserting";
     "datasetfns" := VFns {[ (2011, 1) := "out/201101-0.nc" ]} ]}.
Definition bare_state : state :=
  State c {[ 1%nat := bare_task ]} {[ "out" ]} ∅ ∅ PoolAbsent [].

(** A cutout whose second series fails, and one whose series returns the
    same descriptor twice. *)
Definition failing_cutout : cutout :=
  Cutout "europe" "out" false [1; 2] [3; 4] [(2011, 1)] meta_ds 0%nat
         [("wind", {[ "tasks_func" := VFunc "tasks_wind" ]});
          ("broken", {[ "tasks_func" := VFunc "tasks_failing" ]})]
         ∅ fn.

Definition aliased_cutout : cutout :=
  Cutout "europe" "out" false [1; 2] [3; 4] [(2011, 1)] meta_ds 0%nat
         [("wind", {[ "tasks_func" := VFunc "tasks_twice" ]})]
         ∅ fn.

(** The state before the merge of January 2011: two partial files, and the
    height in the metadata of the cutout. *)
Definition merge_state : state :=
  State (set_meta (ds_set_var "height" 107 meta_ds) c) {[ 0%nat := ∅ ]} {[ "out" ]}
        {[ "out/meta.nc" := meta_ds;
           "out/201101-0.nc" := wind; "out/201101-1.nc" := influx ]}
        ∅ PoolClosed [].

(** Descriptors and states for the edge cases of the executor. *)
Definition no_input_task (f : string) : pydict :=
  {[ "prepare_func" := VFunc f;
     "datasetfns" := VFns {[ (2011, 1) := "out/201101-0.nc" ]} ]}.
Definition no_input_state (f : string) : state :=
  State c {[ 1%nat := no_input_task f ]} {[ "out" ]} ∅ ∅ PoolAbsent [].
Definition other_month_state : state :=
  State c {[ 1%nat := {[ "prepare_func" := VFunc "prepare_wind";
                                "datasetfns" := VFns {[ (2011, 2) := "out/201102-0.nc" ]} ]} ]}
        {[ "out" ]} ∅ ∅ PoolAbsent [].
Definition given_ds_state : state :=
  State c {[ 1%nat := {[ "prepare_func" := VFunc "prepare_wind"; "ds" := VDs 5%nat ]} ]}
        {[ "out" ]} ∅ {[ 5%nat := (wind, true) ]} PoolAbsent [].
Definition keyless_state : state :=
  State c {[ 1%nat := {[ "xs" := VAxis [1; 2] ]} ]} {[ "out" ]} ∅ ∅ PoolAbsent [].
Definition missing_input_state : state :=
  State c {[ 1%nat := task "prepare_wind" ]} {[ "out" ]} ∅ ∅ PoolAbsent [].
Definition open_handle_state : state :=
  State c {[ 1%nat := no_input_task "prepare_wind" ]} {[ "out" ]} ∅
        {[ 5%nat := (wind, true) ]} PoolAbsent [].

(** A cutout whose only series has no task, and a state where the output
    directory holds a file of an earlier run. *)
Definition idle_cutout : cutout :=
  Cutout "europe" "out" false [1; 2] [3; 4] [(2011, 1)] meta_ds 0%nat
         [("idle", {[ "tasks_func" := VFunc "tasks_none" ]})]
         ∅ fn.
Definition stale_state : state :=
  State c {[ 0%nat := ∅ ]} {[ "out"; "out/old" ]}
        {[ "gebco.nc" := raster; "out/201001.nc" := wind ]} ∅ PoolAbsent [].

(** A series with a parameter of its own. *)
Definition described_series : pydict :=
  {[ "tasks_func" := VFunc "tasks_wind"; "module" := VStr "era5" ]}.

(** A metadata function that gives one instant only. *)
Definition short_meta (n : string) (kwargs : pydict) : exn + dataset :=
  inr (Dataset ∅ {[ "time" := [0] ]} ∅ ∅ None).
Definition E_short : env :=
  Env prepare tasks short_meta "gebco.nc" (λ _ _, ["-ts"; "2"; "2"; "-te"])
      (λ _, None) raster (λ v _ _, v + 100).

(** Before the merge of January 2011, with a dataset of the caller open,
    and with a directory in the place of the canonical file. *)
Definition merge_open_state : state :=
  State c {[ 0%nat := ∅ ]} {[ "out" ]}
        {[ "out/201101-0.nc" := wind; "out/201101-1.nc" := influx ]}
        {[ 5%nat := (wind, true) ]} PoolClosed [].
Definition blocked_state : state :=
  State c {[ 0%nat := ∅ ]} {[ "out"; "out/201101.nc" ]}
        {[ "out/201101-0.nc" := wind; "out/201101-1.nc" := influx ]}
        ∅ PoolClosed [].

End Sample.
(** * Reasoning about computations *)

Lemma bind_run {A B} (m : M A) (f : A → M B) (s : state) :
  (m ≫= f) s = match m s with
                | (s', inl e) => (s', inl e)
                | (s', inr x) => f x s'
                end.
Proof. reflexivity. Qed.

(** A computation preserves a relation between its initial and its final
    state, on every exit path. *)
Definition preserves {A} (R : relation state) (m : M A) : Prop :=
  ∀ s, R s (m s).1.

Section Preserves.

Context (R : relation state) `{!PreOrder R}.

Lemma preserves_ret {A} (x : A) : preserves R (mret x).
Proof. intros s. reflexivity. Qed.

Lemma preserves_raise {A} (e : exn) : preserves R (@raise A e).
Proof. intros s. reflexivity. Qed.

Lemma preserves_get_state : preserves R get_state.
Proof. intros s. reflexivity. Qed.

Lemma preserves_modify (f : state → state) :
  (∀ s, R s (f s)) → preserves R (modify f).
Proof. intros H s. apply H. Qed.

Lemma preserves_bind {A B} (m : M A) (f : A → M B) :
  preserves R m → (∀ x, preserves R (f x)) → preserves R (m ≫= f).
Proof.
  intros Hm Hf s. rewrite bind_run. specialize (Hm s).
  destruct (m s) as [s' [e|x]]; simpl in *; [done|].
  etrans; [exact Hm | apply Hf].
Qed.

Lemma preserves_fmap {A B} (g : A → B) (m : M A) :
  preserves R m → preserves R (g <$> m).
Proof.
  intros Hm s. specialize (Hm s). unfold fmap, M_fmap.
  by destruct (m s) as [s' [e|x]].
Qed.

Lemma preserves_try_except {A} (body : M A) (handler : exn → M A) :
  preserves R body → (∀ e, preserves R (handler e)) →
  preserves R (try_except body handler).
Proof.
  intros Hb Hh s. unfold try_except. specialize (Hb s).
  destruct (body s) as [s' [e|x]]; simpl in *; [|done].
  etrans; [exact Hb | apply Hh].
Qed.

Lemma preserves_try_finally {A} (body : M A) (fin : M unit) :
  preserves R body → preserves R fin → preserves R (try_finally body fin).
Proof.
  intros Hb Hf s. unfold try_finally. specialize (Hb s).
  destruct (body s) as [s' r]; simpl in *. specialize (Hf s').
  destruct (fin s') as [s'' [e|[]]]; simpl in *; by etrans.
Qed.

Lemma preserves_try_except_class {A} cls (body handler : M A) :
  preserves R body → preserves R handler →
  preserves R (try_except_class cls body handler).
Proof.
  intros Hb Hh s. unfold try_except_class. specialize (Hb s).
  destruct (body s) as [s' [e|x]]; simpl in *; [|done].
  destruct (decide _); [|done]. etrans; [exact Hb | apply Hh].
Qed.

Lemma preserves_for_each {A} (l : list A) (body : A → M unit) :
  (∀ x, preserves R (body x)) → preserves R (for_each l body).
Proof.
  intros Hb. induction l as [|x l IH]; simpl.
  - apply preserves_ret.
  - apply preserves_bind; [apply Hb | intros _; apply IH].
Qed.

End Preserves.

(** Decomposes a goal [preserves R m] along the structure of [m]. *)
Ltac preserves_step :=
  match goal with
  | |- preserves _ (mret _) => apply preserves_ret; try apply _
  | |- preserves _ (raise _) => apply preserves_raise; try apply _
  | |- preserves _ get_state => apply preserves_get_state; try apply _
  | |- preserves _ (_ ≫= _) => apply preserves_bind; [try apply _ | | intros ?]
  | |- preserves _ (_ <$> _) => apply preserves_fmap
  | |- preserves _ (try_except _ _) => apply preserves_try_except; [try apply _ | | intros ?]
  | |- preserves _ (try_finally _ _) => apply preserves_try_finally; [try apply _ | |]
  | |- preserves _ (try_except_class _ _ _) =>
      apply preserves_try_except_class; [try apply _ | |]
  | |- preserves _ (for_each _ _) => apply preserves_for_each; [try apply _ | intros ?]
  | |- preserves _ (match ?x with _ => _ end) => destruct x
  | |- preserves _ (if ?b then _ else _) => destruct b
  | |- preserves _ (let '(_, _) := ?x in _) => destruct x
  end.

(** ** Frame conditions *)

Lemma preserves_weaken {A} (R R' : relation state) (m : M A) :
  subrelation R R' → preserves R m → preserves R' m.
Proof. intros HR Hm s. apply HR, Hm. Qed.

(** Only the dict at [t] may differ in the store. *)
Definition heap_frame (t : loc) : relation state :=
  λ s s', ∀ l, l ≠ t → st_heap s' !! l = st_heap s !! l.

Global Instance heap_frame_preorder t : PreOrder (heap_frame t).
Proof.
  split; [by intros s l|].
  intros s1 s2 s3 H12 H23 l Hl. rewrite H23, H12; done.
Qed.

(** The store and the dataset handles are left as they are, and the trace
    is only extended. *)
Definition quiet : relation state := λ s s',
  st_heap s' = st_heap s ∧ st_handles s' = st_handles s ∧
  ∃ tr, st_trace s' = st_trace s ++ tr.

Global Instance quiet_preorder : PreOrder quiet.
Proof.
  split.
  - intros s. repeat split. exists []. by rewrite app_nil_r.
  - intros s1 s2 s3 (Hh1 & Hd1 & tr1 & Ht1) (Hh2 & Hd2 & tr2 & Ht2).
    repeat split; [congruence..|]. exists (tr1 ++ tr2). by rewrite Ht2, Ht1, <- app_assoc.
Qed.

Lemma quiet_emit e s : quiet s (emit e s).
Proof. repeat split. by exists [e]. Qed.

(** The file system is left as it is. *)
Definition same_fs : relation state :=
  λ s s', st_files s' = st_files s ∧ st_dirs s' = st_dirs s.

Global Instance same_fs_preorder : PreOrder same_fs.
Proof.
  split; [done|]. intros s1 s2 s3 [? ?] [? ?]. split; congruence.
Qed.

(** A directory that exists, and is not a file, stays so. *)
Definition dir_kept (d : string) : relation state := λ s s',
  d ∈ st_dirs s ∧ st_files s !! d = None → d ∈ st_dirs s' ∧ st_files s' !! d = None.

Global Instance dir_kept_preorder d : PreOrder (dir_kept d).
Proof. split; [by intros s H|]. intros s1 s2 s3 H12 H23 H. by apply H23, H12. Qed.

Global Instance same_fs_dir_kept d : subrelation same_fs (dir_kept d).
Proof. intros s s' [Hf Hd] H. by rewrite Hf, Hd. Qed.

(** The attributes of the cutout that are not assigned before the
    preparation has succeeded. *)
Definition cutout_kept : relation state := λ s s',
  prepared (st_cutout s') = prepared (st_cutout s) ∧
  name (st_cutout s') = name (st_cutout s) ∧
  cutout_dir (st_cutout s') = cutout_dir (st_cutout s) ∧
  coords_x (st_cutout s') = coords_x (st_cutout s) ∧
  coords_y (st_cutout s') = coords_y (st_cutout s) ∧
  coords_yearmonth (st_cutout s') = coords_yearmonth (st_cutout s) ∧
  weather_data_config (st_cutout s') = weather_data_config (st_cutout s) ∧
  datasetfn (st_cutout s') = datasetfn (st_cutout s).

Global Instance cutout_kept_preorder : PreOrder cutout_kept.
Proof.
  split; [by intros s|].
  intros s1 s2 s3 (?&?&?&?&?&?&?&?) (?&?&?&?&?&?&?&?). unfold cutout_kept.
  split_and!; congruence.
Qed.

(** The cutout object is left as it is. *)
Definition same_cutout : relation state := λ s s', st_cutout s' = st_cutout s.

Global Instance same_cutout_preorder : PreOrder same_cutout.
Proof. split; [done|]. intros s1 s2 s3 H12 H23. unfold same_cutout in *. congruence. Qed.

Global Instance same_cutout_kept : subrelation same_cutout cutout_kept.
Proof. intros s s' H. unfold cutout_kept. by rewrite H. Qed.

(** ** The primitive operations *)

(** Runs a primitive operation on a state: the definition is unfolded and
    the tests it makes are split. *)
Ltac prim_run :=
  intros ?;
  repeat match goal with
         | |- context [match ?v with VNone => _ | _ => _ end] => is_var v; destruct v
         end;
  unfold dict_copy, dict_new, dict_pop, dict_set, dict_get, dict_contains, dict_items,
    log, open_dataset, open_file, ds_close, close_value, to_netcdf, unlink, mkdir, rmtree,
    glob, func_name, exn_arg0, fns_lookup, lift_result, ds_get_var, ds_get_coord, assert,
    get_cutout, set_cutout, pop_local, kwargs_with, run_tasks_func, subprocess_call,
    pool_create, pool_terminate, pool_close, mkdtemp, ds_unstack, rename_gebco,
    modify, get_state, raise, mret, M_ret;
  simpl; repeat (case_match; simpl).

Ltac prim_fin :=
  lazymatch goal with
  | |- heap_frame _ _ _ =>
      unfold heap_frame; simpl; intros; try rewrite lookup_insert_ne by done; done
  | |- quiet _ _ =>
      unfold quiet; simpl; split_and!; try done;
      first [ by (exists []; rewrite app_nil_r) | by eexists [_] ]
  | |- same_fs _ _ => unfold same_fs; simpl; done
  | |- same_cutout _ _ => unfold same_cutout; simpl; done
  | |- cutout_kept _ _ => unfold cutout_kept; simpl; done
  end.

Ltac solve_prim := solve [ prim_run; prim_fin ].

Create HintDb frame discriminated.

Global Hint Extern 1 (preserves _ (dict_copy _)) => solve_prim : frame.
Global Hint Extern 1 (preserves _ (dict_new _)) => solve_prim : frame.
Global Hint Extern 1 (preserves _ (dict_pop _ _)) => solve_prim : frame.
Global Hint Extern 1 (preserves _ (dict_set _ _ _)) => solve_prim : frame.
Global Hint Extern 1 (preserves _ (dict_get _ _)) => solve_prim : frame.
Global Hint Extern 1 (preserves _ (dict_contains _ _)) => solve_prim : frame.
Global Hint Extern 1 (preserves _ (dict_items _)) => solve_prim : frame.
Global Hint Extern 1 (preserves _ (log _ _ _)) => solve_prim : frame.
Global Hint Extern 1 (preserves _ (open_dataset _ _)) => solve_prim : frame.
Global Hint Extern 1 (preserves _ (open_file _)) => solve_prim : frame.
Global Hint Extern 1 (preserves _ (ds_close _)) => solve_prim : frame.
Global Hint Extern 1 (preserves _ (close_value _)) => solve_prim : frame.
Global Hint Extern 1 (preserves _ (to_netcdf _ _)) => solve_prim : frame.
Global Hint Extern 1 (preserves _ (unlink _)) => solve_prim : frame.
Global Hint Extern 1 (preserves _ (mkdir _)) => solve_prim : frame.
Global Hint Extern 1 (preserves _ (rmtree _)) => solve_prim : frame.
Global Hint Extern 1 (preserves _ (glob _)) => solve_prim : frame.
Global Hint Extern 1 (preserves _ (func_name _)) => solve_prim : frame.
Global Hint Extern 1 (preserves _ (exn_arg0 _)) => solve_prim : frame.
Global Hint Extern 1 (preserves _ (fns_lookup _ _)) => solve_prim : frame.
Global Hint Extern 1 (preserves _ (lift_result _)) => solve_prim : frame.
Global Hint Extern 1 (preserves _ (ds_get_var _ _)) => solve_prim : frame.
Global Hint Extern 1 (preserves _ (ds_get_coord _ _)) => solve_prim : frame.
Global Hint Extern 1 (preserves _ (assert _ _)) => solve_prim : frame.
Global Hint Extern 1 (preserves _ get_cutout) => solve_prim : frame.
Global Hint Extern 1 (preserves _ (set_cutout _)) => solve_prim : frame.
Global Hint Extern 1 (preserves _ (pop_local _ _)) => solve_prim : frame.
Global Hint Extern 1 (preserves _ (kwargs_with _ _)) => solve_prim : frame.
Global Hint Extern 1 (preserves _ (run_tasks_func _ _ _)) => solve_prim : frame.
Global Hint Extern 1 (preserves _ (pool_create _)) => solve_prim : frame.
Global Hint Extern 1 (preserves _ pool_terminate) => solve_prim : frame.
Global Hint Extern 1 (preserves _ pool_close) => solve_prim : frame.
Global Hint Extern 1 (preserves _ mkdtemp) => solve_prim : frame.
Global Hint Extern 1 (preserves _ (ds_unstack _ _)) => solve_prim : frame.
Global Hint Extern 1 (preserves _ (rename_gebco _)) => solve_prim : frame.
Global Hint Extern 1 (preserves _ (modify _)) => solve_prim : frame.
Global Hint Extern 1 (preserves _ (subprocess_call _ _)) => solve_prim : frame.
Global Hint Extern 8 (preserves (dir_kept _) _) =>
  eapply (preserves_weaken same_fs); [apply _ |] : frame.
Global Hint Extern 8 (preserves cutout_kept _) =>
  eapply (preserves_weaken same_cutout); [apply _ |] : frame.

Ltac preserves_tac := repeat first [ progress eauto with frame | preserves_step ].

(** The calls of the collaborators: an event, then a pure result. *)
Ltac solve_call :=
  solve [ unfold call_prepare, call_tasks, call_meta; preserves_tac ].

Global Hint Extern 2 (preserves _ (call_prepare _ _ _)) => solve_call : frame.
Global Hint Extern 2 (preserves _ (call_tasks _ _ _)) => solve_call : frame.
Global Hint Extern 2 (preserves _ (call_meta _ _ _)) => solve_call : frame.

(** * The task executor *)

Section Executor.

Context (E : env).

(** What [cutout_do_task] does once it has copied the descriptor. *)
Definition after_copy (t : loc) (write_to_file : bool)
    : M (option (list (yearmonth * dataset))) :=
  prepare_func ← dict_pop t "prepare_func";
  datasetfns ← (if write_to_file then Some <$> dict_pop t "datasetfns" else mret None);
  try_finally
    (try_except (do_task_body E t prepare_func datasetfns)
                (do_task_handler prepare_func))
    (do_task_finally t).

Lemma cutout_do_task_eq task w :
  cutout_do_task E task w = dict_copy task ≫= λ t, after_copy t w.
Proof. reflexivity. Qed.

Lemma cutout_do_task_run task w s :
  cutout_do_task E task w s =
  after_copy (fresh_loc s) w (with_heap (<[fresh_loc s := dict_at task s]> (st_heap s)) s).
Proof. reflexivity. Qed.

Lemma do_task_body_frame t f fns : preserves (heap_frame t) (do_task_body E t f fns).
Proof. unfold do_task_body. preserves_tac. Qed.

Lemma do_task_handler_frame {A} t f e : preserves (heap_frame t) (@do_task_handler A f e).
Proof. unfold do_task_handler. preserves_tac. Qed.

Lemma do_task_finally_frame t : preserves (heap_frame t) (do_task_finally t).
Proof. unfold do_task_finally. preserves_tac. Qed.

Local Hint Resolve do_task_body_frame do_task_handler_frame do_task_finally_frame : frame.

Lemma after_copy_frame t w : preserves (heap_frame t) (after_copy t w).
Proof. unfold after_copy. preserves_tac. Qed.

Lemma fresh_loc_fresh s : st_heap s !! fresh_loc s = None.
Proof. unfold fresh_loc. apply (not_elem_of_dom (D := gset loc)). apply is_fresh. Qed.

(** Every dict that the store holds before the call is the same after it. *)
Lemma cutout_do_task_store task w s l :
  is_Some (st_heap s !! l) →
  st_heap (cutout_do_task E task w s).1 !! l = st_heap s !! l.
Proof.
  intros Hl. rewrite cutout_do_task_run.
  assert (l ≠ fresh_loc s) as Hne.
  { intros ->. rewrite fresh_loc_fresh in Hl. by destruct Hl. }
  rewrite (after_copy_frame _ w _ l Hne). simpl. by rewrite lookup_insert_ne.
Qed.

(** C10: [cutout_do_task] works on a shallow copy: whether the call returns
    or raises, the caller's task descriptor holds exactly the entries it
    held before. *)
Theorem cutout_do_task_leaves_task_unchanged task write_to_file s s' r (d : pydict) :
  st_heap s !! task = Some d →
  cutout_do_task E task write_to_file s = (s', r) →
  st_heap s' !! task = Some d.
Proof.
  intros Hd Hrun. rewrite <- Hd.
  change s' with (s', r).1. rewrite <- Hrun.
  apply cutout_do_task_store. by rewrite Hd.
Qed.

End Executor.

Section Scoped.

Context (E : env).

(** The part of the [try] block that follows the opening of the input. *)
Definition after_call (prepare_func : value) (datasetfns : option value) (r : presult)
    : M (option (list (yearmonth * dataset))) :=
  data ← match r with
         | PRaise e => raise e
         | PNone => mret ([], None)
         | PIter items tail => mret (items, tail)
         end;
  match datasetfns with
  | Some fns =>
      for_each data.1 (λ '(yearmonth, ds),
        fn ← fns_lookup fns yearmonth;
        to_netcdf ds fn ;;
        nm ← func_name prepare_func;
        log DEBUG "Write variable(s) %s to %s generated by %s"
            [VStr (var_names ds); VStr (basename fn); VStr nm]) ;;
      match data.2 with
      | Some e => raise e
      | None => mret None
      end
  | None =>
      let loaded := (λ '(ym, ds), (ym, ds_load ds)) <$> data.1 in
      match data.2 with
      | Some e => raise e
      | None => mret (Some loaded)
      end
  end.

Definition body_rest (t : loc) (prepare_func : value) (datasetfns : option value)
    : M (option (list (yearmonth * dataset))) :=
  kwargs ← dict_items t;
  r ← call_prepare E prepare_func kwargs;
  after_call prepare_func datasetfns r.

Lemma after_call_quiet f fns r : preserves quiet (after_call f fns r).
Proof. unfold after_call. preserves_tac. Qed.

Local Hint Resolve after_call_quiet : frame.

Lemma body_rest_quiet t f fns : preserves quiet (body_rest t f fns).
Proof. unfold body_rest. preserves_tac. Qed.

Lemma do_task_handler_quiet {A} f e : preserves quiet (@do_task_handler A f e).
Proof. unfold do_task_handler. preserves_tac. Qed.

(** When the extraction function is a function, the call is the first thing
    that the rest of the block records. *)
Lemma body_rest_calls t n fns s :
  ∃ tr, st_trace (body_rest t (VFunc n) fns s).1
        = st_trace s ++ EvCall n (dict_at t s) :: tr.
Proof.
  unfold body_rest, dict_items. rewrite bind_run. simpl.
  rewrite bind_run. simpl.
  destruct (after_call_quiet (VFunc n) fns
              (prepare_sem E n (dict_at t s) (emit (EvCall n (dict_at t s)) s))
              (emit (EvCall n (dict_at t s)) s)) as (_ & _ & tr & Htr).
  exists tr. rewrite Htr. simpl. by rewrite <- app_assoc.
Qed.

Lemma dict_at_insert t d h s : dict_at t (with_heap (<[t := d]> h) s) = d.
Proof. unfold dict_at. simpl. by rewrite lookup_insert_eq. Qed.

Lemma do_task_body_opens t f fns s (p : string) g d :
  dict_at t s !! "fn" = Some (VStr p) →
  dict_at t s !! "engine" = Some g →
  st_files s !! p = Some d →
  ∃ s1, do_task_body E t f fns s = body_rest t f fns s1 ∧
        st_trace s1 = st_trace s ++ [EvOpen (fresh_handle s) p] ∧
        st_handles s1 = <[fresh_handle s := (d, true)]> (st_handles s) ∧
        dict_at t s1 !! "ds" = Some (VDs (fresh_handle s)).
Proof.
  intros Hfn Heng Hfile.
  unfold do_task_body. rewrite bind_run. unfold dict_contains at 1.
  rewrite bool_decide_true by (by rewrite Hfn).
  rewrite bind_run. rewrite bind_run. unfold dict_pop at 1. rewrite Hfn.
  rewrite bind_run. unfold dict_pop at 1. rewrite dict_at_insert.
  rewrite lookup_delete_ne, Heng by done.
  rewrite bind_run. unfold open_dataset, open_file. simpl. rewrite Hfile.
  eexists. split; [reflexivity|]. simpl. split_and!; [done..|].
  unfold dict_at. simpl. rewrite lookup_insert_eq. simpl. by rewrite lookup_insert_eq.
Qed.

Lemma scoped_block t f fns s (p : string) g d :
  dict_at t s !! "fn" = Some (VStr p) →
  dict_at t s !! "engine" = Some g →
  st_files s !! p = Some d →
  let h := fresh_handle s in
  let s' := (try_finally (try_except (do_task_body E t f fns) (do_task_handler f))
                         (do_task_finally t) s).1 in
  (∃ tr, st_trace s' = st_trace s ++ EvOpen h p :: tr ++ [EvClose h] ∧
         ∀ n, f = VFunc n →
              ∃ kwargs tr', tr = EvCall n kwargs :: tr' ∧ kwargs !! "ds" = Some (VDs h)) ∧
  st_handles s' = <[h := (d, false)]> (st_handles s).
Proof.
  intros Hfn Heng Hfile h s'.
  destruct (do_task_body_opens t f fns s p g d Hfn Heng Hfile)
    as (s1 & Hbody & Htr1 & Hh1 & Hds1).
  subst s'. unfold try_finally, try_except. rewrite Hbody.
  pose proof (body_rest_quiet t f fns s1) as Hq.
  pose proof (body_rest_calls t) as Hcall.
  destruct (body_rest t f fns s1) as [s2 r2] eqn:Hrest. simpl in Hq.
  assert (∃ s3 r3, match r2 with
                   | inl e => do_task_handler f e s2
                   | inr a => (s2, inr a)
                   end = (s3, r3) ∧ quiet s2 s3) as (s3 & r3 & -> & Hq3).
  { destruct r2 as [e|a].
    - pose proof (do_task_handler_quiet (A := option (list (yearmonth * dataset))) f e s2).
      destruct (do_task_handler f e s2) as [s3 r3]. by exists s3, r3.
    - exists s2, (inr a). split; [done | reflexivity]. }
  assert (quiet s1 s3) as (Hheap & Hhandles & tr & Htr) by (by etrans).
  assert (do_task_finally t s3
          = (emit (EvClose h) (with_handles (alter (λ x, (x.1, false)) h (st_handles s3)) s3),
             inr tt)) as ->.
  { assert (dict_at t s3 !! "ds" = Some (VDs h)) as Hds3.
    { unfold dict_at. rewrite Hheap. exact Hds1. }
    unfold do_task_finally. rewrite bind_run. unfold dict_contains.
    rewrite Hds3, bool_decide_true by done. rewrite bind_run.
    unfold dict_get. by rewrite Hds3. }
  simpl. split.
  - exists tr. split.
    + rewrite Htr, Htr1. by rewrite <- !app_assoc.
    + intros n ->. destruct (Hcall n fns s1) as [trc Hc]. rewrite Hrest in Hc. simpl in Hc.
      destruct Hq as (_ & _ & tr12 & H12), Hq3 as (_ & _ & tr23 & H23).
      rewrite H23, H12, <- app_assoc in Htr. apply app_inv_head in Htr. subst tr.
      rewrite H12 in Hc. apply app_inv_head in Hc. subst tr12.
      eexists _, _. split; [reflexivity | exact Hds1].
  - rewrite Hhandles, Hh1. apply map_eq. intros h'.
    rewrite lookup_alter. destruct (decide (h = h')) as [<-|Hne].
    + by rewrite !lookup_insert_eq.
    + by rewrite !lookup_insert_ne.
Qed.

(** C3: when the descriptor names an input file and an engine, the dataset
    is opened, handed to the extraction function under the key ['ds'], and
    closed on every exit path: the trace of the call starts with the opening
    and ends with the closing of the handle, whatever the extraction
    function does, and no handle is left open that was not open before. *)
Theorem cutout_do_task_closes_dataset task write_to_file s s' r
    (prepare_func engine : value) (fn : string) (d : dataset) :
  dict_at task s !! "prepare_func" = Some prepare_func →
  (write_to_file = true → is_Some (dict_at task s !! "datasetfns")) →
  dict_at task s !! "fn" = Some (VStr fn) →
  dict_at task s !! "engine" = Some engine →
  st_files s !! fn = Some d →
  cutout_do_task E task write_to_file s = (s', r) →
  let h := fresh_handle s in
  (∃ tr, st_trace s' = st_trace s ++ EvOpen h fn :: tr ++ [EvClose h] ∧
         ∀ n, prepare_func = VFunc n →
              ∃ kwargs tr', tr = EvCall n kwargs :: tr' ∧ kwargs !! "ds" = Some (VDs h)) ∧
  st_handles s' !! h = Some (d, false) ∧
  (∀ h', is_open h' s' = true → is_open h' s = true).
Proof.
  intros Hf Hfns Hfn Heng Hfile Hrun h.
  rewrite cutout_do_task_run in Hrun. unfold after_copy in Hrun.
  rewrite bind_run in Hrun. unfold dict_pop at 1 in Hrun.
  rewrite dict_at_insert, Hf in Hrun.
  rewrite bind_run in Hrun.
  set (t := fresh_loc s) in *.
  assert (∃ s2 fns,
    (if write_to_file then Some <$> dict_pop t "datasetfns" else mret None)
      (with_heap (<[t := delete "prepare_func" (dict_at task s)]>
                    (st_heap (with_heap (<[t := dict_at task s]> (st_heap s)) s)))
                 (with_heap (<[t := dict_at task s]> (st_heap s)) s)) = (s2, inr fns) ∧
    dict_at t s2 !! "fn" = Some (VStr fn) ∧ dict_at t s2 !! "engine" = Some engine ∧
    st_files s2 = st_files s ∧ st_handles s2 = st_handles s ∧ st_trace s2 = st_trace s)
    as (s2 & fns & Hpop & Hfn2 & Heng2 & Hfiles2 & Hh2 & Htr2).
  { destruct write_to_file.
    - destruct (Hfns eq_refl) as [v Hv].
      unfold fmap, M_fmap, dict_pop. rewrite dict_at_insert.
      rewrite lookup_delete_ne, Hv by done.
      eexists _, _. split; [reflexivity|]. rewrite dict_at_insert.
      by rewrite !lookup_delete_ne.
    - eexists _, _. split; [reflexivity|]. rewrite dict_at_insert.
      by rewrite !lookup_delete_ne. }
  rewrite Hpop in Hrun.
  rewrite <- Hfiles2 in Hfile.
  pose proof (scoped_block t prepare_func fns s2 fn engine d Hfn2 Heng2 Hfile) as Hblock.
  simpl in Hblock. rewrite Hrun in Hblock. simpl in Hblock.
  unfold fresh_handle in Hblock. rewrite Hh2, Htr2 in Hblock. fold (fresh_handle s) in Hblock.
  fold h in Hblock. destruct Hblock as [Htrace Hhandles].
  split; [exact Htrace|]. split.
  - by rewrite Hhandles, lookup_insert_eq.
  - intros h'. unfold is_open. rewrite Hhandles.
    destruct (decide (h = h')) as [<-|Hne].
    + by rewrite lookup_insert_eq.
    + by rewrite lookup_insert_ne.
Qed.


Definition handler_template : string :=
  "Exception occured in the task with prepare_func `%s`: %s".

(** The outcome of [cutout_do_task] when the extraction function raises
    [e]: the exception is logged and raised again when it has a first
    argument; when its [args] are empty, evaluating [e.args[0]] for the log
    record raises [IndexError] in its place and nothing is logged. *)
Lemma cutout_do_task_raise_run task w s n e :
  dict_at task s !! "prepare_func" = Some (VFunc n) →
  (w = true → is_Some (dict_at task s !! "datasetfns")) →
  dict_at task s !! "fn" = None →
  dict_at task s !! "ds" = None →
  (∀ kwargs s', prepare_sem E n kwargs s' = PRaise e) →
  ∃ s' kwargs,
    cutout_do_task E task w s
    = (s', inl (match exc_args e with
                | [] => Exn IndexError [VStr "tuple index out of range"]
                | _ :: _ => e
                end)) ∧
    st_trace s' = st_trace s ++ EvCall n kwargs ::
                  match exc_args e with
                  | [] => []
                  | a :: _ => [EvLog ERROR handler_template [VStr n; a]]
                  end.
Proof.
  intros Hf Hfns Hfn Hds Hraise.
  rewrite cutout_do_task_run. unfold after_copy.
  rewrite bind_run. unfold dict_pop at 1. rewrite dict_at_insert, Hf.
  rewrite bind_run.
  set (t := fresh_loc s).
  assert (∃ s2 fns,
    (if w then Some <$> dict_pop t "datasetfns" else mret None)
      (with_heap (<[t := delete "prepare_func" (dict_at task s)]>
                    (st_heap (with_heap (<[t := dict_at task s]> (st_heap s)) s)))
                 (with_heap (<[t := dict_at task s]> (st_heap s)) s)) = (s2, inr fns) ∧
    dict_at t s2 !! "fn" = None ∧ dict_at t s2 !! "ds" = None ∧
    st_trace s2 = st_trace s)
    as (s2 & fns & -> & Hfn2 & Hds2 & Htr2).
  { destruct w.
    - destruct (Hfns eq_refl) as [v Hv].
      unfold fmap, M_fmap, dict_pop. rewrite dict_at_insert.
      rewrite lookup_delete_ne, Hv by done.
      eexists _, _. split; [reflexivity|]. rewrite dict_at_insert.
      by rewrite !lookup_delete_ne.
    - eexists _, _. split; [reflexivity|]. rewrite dict_at_insert.
      by rewrite !lookup_delete_ne. }
  unfold try_finally, try_except, do_task_body.
  rewrite bind_run. unfold dict_contains at 1. rewrite Hfn2.
  rewrite bool_decide_false by (by intros [? ?]).
  rewrite !bind_run. simpl.
  cbv [mbind M_bind dict_items call_prepare modify get_state mret M_ret raise].
  rewrite Hraise. simpl.
  assert (∀ s3, dict_at t s3 !! "ds" = None → do_task_finally t s3 = (s3, inr tt)) as Hfin.
  { intros s3 H3. unfold do_task_finally. rewrite bind_run. unfold dict_contains.
    by rewrite H3, bool_decide_false by (by intros [? ?]). }
  unfold do_task_handler.
  cbv [mbind M_bind func_name exn_arg0 mret M_ret raise log modify].
  destruct (exc_args e) as [|a args]; rewrite Hfin by done;
    (eexists _, _; split; [reflexivity|]); simpl; rewrite Htr2.
  - done.
  - by rewrite <- app_assoc.
Qed.

(** C4, at an exception without arguments (a bare [assert] that fails, a
    [raise ValueError()]): the handler of [cutout_do_task] evaluates
    [e.args[0]] for the log record, which raises [IndexError]; the caller
    receives that [IndexError] in place of the exception of the extraction
    function, and no record of the failure is logged. *)
Theorem cutout_do_task_empty_args_replaced task w s n e :
  dict_at task s !! "prepare_func" = Some (VFunc n) →
  (w = true → is_Some (dict_at task s !! "datasetfns")) →
  dict_at task s !! "fn" = None →
  dict_at task s !! "ds" = None →
  (∀ kwargs s', prepare_sem E n kwargs s' = PRaise e) →
  exc_args e = [] →
  ∃ s' kwargs,
    cutout_do_task E task w s = (s', inl (Exn IndexError [VStr "tuple index out of range"])) ∧
    Exn IndexError [VStr "tuple index out of range"] ≠ e ∧
    st_trace s' = st_trace s ++ [EvCall n kwargs].
Proof.
  intros Hf Hfns Hfn Hds Hraise Hargs.
  destruct (cutout_do_task_raise_run task w s n e Hf Hfns Hfn Hds Hraise)
    as (s' & kwargs & Hrun & Htr).
  rewrite Hargs in Hrun, Htr. exists s', kwargs. split_and!; [done| |done].
  intros <-. discriminate Hargs.
Qed.

(** For an exception with a first argument the handler does what the
    specification says: one record with the name of the function and that
    argument, and the same exception raised again. *)
Lemma cutout_do_task_logs_and_reraises task w s n e a args :
  dict_at task s !! "prepare_func" = Some (VFunc n) →
  (w = true → is_Some (dict_at task s !! "datasetfns")) →
  dict_at task s !! "fn" = None →
  dict_at task s !! "ds" = None →
  (∀ kwargs s', prepare_sem E n kwargs s' = PRaise e) →
  exc_args e = a :: args →
  ∃ s' kwargs,
    cutout_do_task E task w s = (s', inl e) ∧
    st_trace s' = st_trace s ++ [EvCall n kwargs; EvLog ERROR handler_template [VStr n; a]].
Proof.
  intros Hf Hfns Hfn Hds Hraise Hargs.
  destruct (cutout_do_task_raise_run task w s n e Hf Hfns Hfn Hds Hraise)
    as (s' & kwargs & Hrun & Htr).
  rewrite Hargs in Hrun, Htr. by exists s', kwargs.
Qed.
End Scoped.

Lemma cutout_do_task_leaves_task_unchanged_witness :
  let s := Sample.s Sample.c "prepare_failing" in
  st_heap s !! 1%nat = Some (Sample.task "prepare_failing") ∧
  st_heap (cutout_do_task (Sample.E None) 1%nat true s).1 !! 1%nat
  = Some (Sample.task "prepare_failing").
Proof.
  intros s. split; [reflexivity|].
  apply (cutout_do_task_leaves_task_unchanged (Sample.E None) 1%nat true s _
           (cutout_do_task (Sample.E None) 1%nat true s).2).
  - reflexivity.
  - apply surjective_pairing.
Defined.

Lemma cutout_do_task_closes_dataset_witness :
  let s := Sample.s Sample.c "prepare_failing" in
  ∃ s' r, cutout_do_task (Sample.E None) 1%nat true s = (s', r) ∧
          st_handles s' !! 0%nat = Some (Sample.wind, false).
Proof.
  intros s.
  exists (cutout_do_task (Sample.E None) 1%nat true s).1,
         (cutout_do_task (Sample.E None) 1%nat true s).2.
  split; [apply surjective_pairing|].
  apply (cutout_do_task_closes_dataset (Sample.E None) 1%nat true s _
           (cutout_do_task (Sample.E None) 1%nat true s).2
           (VFunc "prepare_failing") (VStr "netcdf4") "in.nc" Sample.wind).
  - reflexivity.
  - intros _. vm_compute. eauto.
  - reflexivity.
  - reflexivity.
  - reflexivity.
  - apply surjective_pairing.
Defined.

Lemma cutout_do_task_empty_args_replaced_witness :
  ∃ s' kwargs,
    cutout_do_task (Sample.E None) 1%nat true Sample.bare_state
    = (s', inl (Exn IndexError [VStr "tuple index out of range"])) ∧
    Exn IndexError [VStr "tuple index out of range"] ≠ Exn AssertionError [] ∧
    st_trace s' = [EvCall "prepare_asserting" kwargs].
Proof.
  apply (cutout_do_task_empty_args_replaced (Sample.E None) 1%nat true Sample.bare_state
           "prepare_asserting" (Exn AssertionError [])).
  - reflexivity.
  - intros _. vm_compute. eauto.
  - reflexivity.
  - reflexivity.
  - reflexivity.
  - reflexivity.
Defined.

(** * The scheduler *)

(** ** Strings *)

Lemma string_length_app (s1 s2 : string) :
  String.length (s1 +:+ s2) = (String.length s1 + String.length s2)%nat.
Proof. induction s1 as [|a s1 IH]; simpl; [done | by rewrite IH]. Qed.

Lemma string_app_inv_tail (s1 s2 e : string) : s1 +:+ e = s2 +:+ e → s1 = s2.
Proof.
  revert s2. induction s1 as [|a s1 IH]; intros [|b s2] H; simpl in H.
  - done.
  - apply (f_equal String.length) in H. rewrite !string_length_app in H. simpl in H. lia.
  - apply (f_equal String.length) in H. rewrite !string_length_app in H. simpl in H. lia.
  - injection H as -> H. f_equal. by apply IH.
Qed.

Section Scheduler.
Context (E : env).

Lemma datasetfn_with_id_inj c ym : Inj (=) (=) (λ i, datasetfn_with_id c i ym).
Proof.
  intros i j. unfold datasetfn_with_id.
  destruct (splitext (datasetfn c (Some ym))) as [base ext].
  intros H. apply (inj (String.app base)), (inj (String.app "-")) in H.
  apply string_app_inv_tail in H. by apply (inj pretty) in H.
Qed.

Lemma datasetfns_for_lookup c i ym :
  datasetfns_for c i !! ym =
  if decide (ym ∈ coords_yearmonth c) then Some (datasetfn_with_id c i ym) else None.
Proof.
  unfold datasetfns_for. induction (coords_yearmonth c) as [|y l IH].
  - rewrite fmap_nil, list_to_map_nil, lookup_empty. by rewrite decide_False by apply not_elem_of_nil.
  - rewrite fmap_cons, list_to_map_cons. destruct (decide (y = ym)) as [->|Hne].
    + rewrite lookup_insert_eq. rewrite decide_True; [done | left].
    + rewrite lookup_insert_ne, IH by done.
      destruct (decide (ym ∈ l)) as [Hin|Hin].
      * rewrite decide_True; [done | by right].
      * rewrite decide_False; [done|]. by intros [?|?]%elem_of_cons.
Qed.

(** What the naming loop leaves in the store when no descriptor occurs
    twice in the list. *)
Lemma inject_datasetfns_spec c tasks : ∀ i0 s,
  NoDup tasks →
  ∃ s', inject_datasetfns c i0 tasks s = (s', inr tt) ∧
        st_files s' = st_files s ∧ st_dirs s' = st_dirs s ∧ st_trace s' = st_trace s ∧
        st_pool s' = st_pool s ∧ st_cutout s' = st_cutout s ∧ st_handles s' = st_handles s ∧
        (∀ l, l ∉ tasks → st_heap s' !! l = st_heap s !! l) ∧
        (∀ i t, tasks !! i = Some t →
                st_heap s' !! t
                = Some (<["datasetfns" := VFns (datasetfns_for c (i0 + i))]> (dict_at t s))).
Proof.
  induction tasks as [|t tasks IH]; intros i0 s Hnd.
  - exists s. split_and!; try done.
  - apply NoDup_cons in Hnd as [Hnotin Hnd]. simpl. rewrite bind_run. simpl.
    destruct (IH (S i0) (with_heap
                (<[t := <["datasetfns" := VFns (datasetfns_for c i0)]> (dict_at t s)]>
                   (st_heap s)) s) Hnd)
      as (s' & -> & Hf & Hd & Htr & Hp & Hc & Hh & Hother & Hin).
    exists s'. split_and!; try done.
    + intros l Hl. rewrite Hother by (intros ?; apply Hl; by right). simpl.
      rewrite lookup_insert_ne; [done|]. intros ->. apply Hl. left.
    + intros [|i] t' Hi; simpl in Hi.
      * injection Hi as <-. rewrite Hother by done. simpl.
        by rewrite lookup_insert_eq, Nat.add_0_r.
      * rewrite (Hin i t' Hi). unfold dict_at at 1. simpl.
        rewrite lookup_insert_ne.
        { unfold dict_at. by rewrite Nat.add_succ_r. }
        intros ->. apply Hnotin. by eapply list_elem_of_lookup_2.
Qed.

Lemma bind_inr_inv {A B} (m : M A) (f : A → M B) s s' y :
  (m ≫= f) s = (s', inr y) → ∃ s1 x, m s = (s1, inr x) ∧ f x s1 = (s', inr y).
Proof.
  rewrite bind_run. destruct (m s) as [s1 [e|x]]; [done|]. intros H. by exists s1, x.
Qed.

Lemma to_netcdf_dir_kept d ds p : preserves (dir_kept d) (to_netcdf ds p).
Proof.
  intros s [Hd Hf]. unfold to_netcdf.
  destruct (isdir (dirname p) s && negb (isdir p s)) eqn:Hok; simpl; [|done].
  split; [done|]. rewrite lookup_insert_ne; [done|]. intros ->.
  apply andb_prop in Hok as [_ Hp]. apply negb_true_iff, bool_decide_eq_false in Hp.
  apply Hp. by right; right.
Qed.

Local Hint Resolve to_netcdf_dir_kept : frame.

Lemma cutout_do_task_dir_kept d task w : preserves (dir_kept d) (cutout_do_task E task w).
Proof.
  unfold cutout_do_task, do_task_body, do_task_handler, do_task_finally. preserves_tac.
Qed.

Lemma cutout_do_task_same_cutout task w : preserves same_cutout (cutout_do_task E task w).
Proof.
  unfold cutout_do_task, do_task_body, do_task_handler, do_task_finally. preserves_tac.
Qed.

(** A computation that returns normally leaves a state in [Q]. *)
Definition ensures {A} (m : M A) (Q : state → Prop) : Prop :=
  ∀ s s' x, m s = (s', inr x) → Q s'.

Lemma ensures_bind_r {A B} (m : M A) (f : A → M B) Q :
  (∀ x, ensures (f x) Q) → ensures (m ≫= f) Q.
Proof.
  intros Hf s s' y Hrun. apply bind_inr_inv in Hrun as (s1 & x & _ & Hrun).
  by eapply Hf.
Qed.

Lemma ensures_bind_l {A B} (m : M A) (f : A → M B) Q (R : relation state) :
  ensures m Q → (∀ x, preserves R (f x)) → (∀ s s', Q s → R s s' → Q s') →
  ensures (m ≫= f) Q.
Proof.
  intros Hm Hf Hstable s s' y Hrun. apply bind_inr_inv in Hrun as (s1 & x & Hm1 & Hrun).
  apply (Hstable s1); [by eapply Hm|]. specialize (Hf x s1). by rewrite Hrun in Hf.
Qed.

Lemma preserves_run {A} R (m : M A) s s' r : preserves R m → m s = (s', r) → R s s'.
Proof. intros Hm Hrun. specialize (Hm s). by rewrite Hrun in Hm. Qed.

(** The output directory right after [os.mkdir]: a directory, with a name
    of its own, and no file. *)
Definition fresh_dir (d : string) (s : state) : Prop :=
  d ≠ "" ∧ d ≠ "/" ∧ d ∈ st_dirs s ∧ st_files s !! d = None.

Lemma mkdir_ensures d : ensures (mkdir d) (fresh_dir d).
Proof.
  intros s s' [] Hrun. unfold mkdir in Hrun.
  destruct (exists_path d s) eqn:Hex; [done|].
  destruct (isdir (dirname d) s); [|done]. injection Hrun as <-.
  unfold exists_path in Hex. apply orb_false_elim in Hex as [Hdir Hfile].
  apply bool_decide_eq_false in Hdir, Hfile. unfold fresh_dir. simpl. split_and!.
  - intros ->. apply Hdir. by left.
  - intros ->. apply Hdir. by right; left.
  - set_solver.
  - by apply eq_None_not_Some.
Qed.

Lemma fresh_dir_kept d s s' : fresh_dir d s → dir_kept d s s' → fresh_dir d s'.
Proof. intros (? & ? & Hd & Hf) Hk. destruct (Hk (conj Hd Hf)). by split_and!. Qed.

Lemma series_tasks_same_fs series yms : preserves same_fs (series_tasks E series yms).
Proof. unfold series_tasks. preserves_tac. Qed.

Lemma series_tasks_same_cutout series yms : preserves same_cutout (series_tasks E series yms).
Proof. unfold series_tasks. preserves_tac. Qed.

Local Hint Resolve series_tasks_same_fs series_tasks_same_cutout : frame.

Lemma collect_tasks_same_fs config yms : preserves same_fs (collect_tasks E config yms).
Proof. induction config as [|[k series] config IH]; simpl; preserves_tac. Qed.

Lemma collect_tasks_same_cutout config yms : preserves same_cutout (collect_tasks E config yms).
Proof. induction config as [|[k series] config IH]; simpl; preserves_tac. Qed.

Lemma inject_datasetfns_same_fs c tasks : ∀ i, preserves same_fs (inject_datasetfns c i tasks).
Proof. induction tasks as [|t tasks IH]; intros i; simpl; preserves_tac. Qed.

Lemma inject_datasetfns_same_cutout c tasks :
  ∀ i, preserves same_cutout (inject_datasetfns c i tasks).
Proof. induction tasks as [|t tasks IH]; intros i; simpl; preserves_tac. Qed.

Local Hint Resolve collect_tasks_same_fs collect_tasks_same_cutout
  inject_datasetfns_same_fs inject_datasetfns_same_cutout : frame.

Lemma _prepare_gebco_height_same_cutout xs ys :
  preserves same_cutout (_prepare_gebco_height E xs ys).
Proof. unfold _prepare_gebco_height. preserves_tac. Qed.

Local Hint Resolve _prepare_gebco_height_same_cutout : frame.

Lemma prepare_setup_cutout_kept ow np gh : preserves cutout_kept (prepare_setup E ow np gh).
Proof. unfold prepare_setup. preserves_tac. Qed.

(** When the set-up returns the task list, the output directory has just
    been created and holds at most what the set-up wrote. *)
Lemma prepare_setup_post ow np gh s s1 tasks :
  prepare_setup E ow np gh s = (s1, inr tasks) →
  fresh_dir (cutout_dir (st_cutout s)) s1 ∧ cutout_kept s s1.
Proof.
  intros H. split; [|by eapply preserves_run, H; apply prepare_setup_cutout_kept].
  unfold prepare_setup in H.
  apply bind_inr_inv in H as (? & c & Hc & H). injection Hc as <- <-.
  do 5 (apply bind_inr_inv in H as (? & ? & _ & H)).
  set (d := cutout_dir (st_cutout s)) in *.
  refine (ensures_bind_l _ _ _ (dir_kept d) (mkdir_ensures d) _ (fresh_dir_kept d) _ _ _ H).
  intros _. preserves_tac.
Qed.

Lemma preserves_attempt {A} R (m : M A) : preserves R m → preserves R (attempt m).
Proof. intros Hm s. specialize (Hm s). unfold attempt. by destruct (m s). Qed.

Lemma pool_run_preserves R `{!PreOrder R} tasks :
  (∀ t, preserves R (cutout_do_task E t true)) →
  ∀ order first, preserves R (pool_run E order tasks first).
Proof.
  intros Htask order. induction order as [|i order IH]; intros first; simpl.
  - by apply preserves_ret.
  - destruct (tasks !! i); [|apply IH].
    apply preserves_bind; [done | by apply preserves_attempt | intros r; apply IH].
Qed.

Lemma pool_map_preserves R `{!PreOrder R} order tasks :
  (∀ t, preserves R (cutout_do_task E t true)) →
  preserves R (pool_map E order tasks).
Proof.
  intros Htask. unfold pool_map. apply preserves_bind; [done | by apply pool_run_preserves |].
  intros [e|]; [by apply preserves_raise | by apply preserves_ret].
Qed.

Definition abort_template : string :=
  "Preparation of cutout '%s' has been interrupted by an exception. "
  +:+ "Purging the incomplete cutout_dir.".

Lemma rmtree_below d p (ds : gset string) (fs : gmap string dataset) :
  below d p = true →
  filter (λ kv, ¬ below d kv.1) fs !! p = None ∧
  p ∉ filter (λ q, q ≠ d ∧ ¬ below d q) ds.
Proof.
  intros Hp. split.
  - apply map_lookup_filter_None. right. intros x _ Hn. simpl in Hn. by rewrite Hp in Hn.
  - intros [[_ Hn] _]%elem_of_filter. by rewrite Hp in Hn.
Qed.

Lemma abort_handler_run {A} c e s :
  cutout_dir c ∈ st_dirs s →
  @abort_handler A c e s =
  (let s1 := emit (EvLog INFO abort_template [VStr (name c)])
               (emit EvPoolTerminate (with_pool PoolTerminated s)) in
   emit (EvRmtree (cutout_dir c))
     (with_files (filter (λ kv, ¬ below (cutout_dir c) kv.1) (st_files s1))
        (with_dirs (filter (λ p, p ≠ cutout_dir c ∧ ¬ below (cutout_dir c) p) (st_dirs s1)) s1)),
   inl e).
Proof.
  intros Hd. unfold abort_handler, pool_terminate, log, modify, rmtree, raise, mbind, M_bind.
  simpl. by rewrite bool_decide_true.
Qed.

(** C1: when [pool.map] raises, the pool is terminated at once, the output
    directory is removed with everything below it, and the exception that
    the pool raised is the one the caller receives; the cutout is not
    marked prepared. *)
Theorem cutout_prepare_abort overwrite nprocesses gebco_height order s s1 tasks s2 e :
  prepare_setup E overwrite nprocesses gebco_height s = (s1, inr tasks) →
  pool_map E order tasks s1 = (s2, inl e) →
  let d := cutout_dir (st_cutout s) in
  ∃ s', cutout_prepare E overwrite nprocesses gebco_height order s = (s', inl e) ∧
        st_trace s' = st_trace s2 ++ [EvPoolTerminate;
                                      EvLog INFO abort_template [VStr (name (st_cutout s))];
                                      EvRmtree d] ∧
        st_pool s' = PoolTerminated ∧
        exists_path d s' = false ∧
        (∀ p, below d p = true → st_files s' !! p = None ∧ p ∉ st_dirs s') ∧
        prepared (st_cutout s') = prepared (st_cutout s).
Proof.
  intros Hsetup Hmap d.
  destruct (prepare_setup_post _ _ _ _ _ _ Hsetup) as [Hfresh Hkept].
  assert (dir_kept d s1 s2) as Hdir.
  { eapply preserves_run, Hmap. apply pool_map_preserves; [apply _|].
    intros t. apply cutout_do_task_dir_kept. }
  assert (same_cutout s1 s2) as Hcut.
  { eapply preserves_run, Hmap. apply pool_map_preserves; [apply _|].
    intros t. apply cutout_do_task_same_cutout. }
  apply (fresh_dir_kept d s1 s2) in Hdir as (Hne1 & Hne2 & Hd2 & Hf2); [|done].
  destruct Hkept as (Hprep & Hname & Hcd & _). fold d in Hcd.
  unfold cutout_prepare. rewrite bind_run, Hsetup. rewrite bind_run. simpl.
  rewrite bind_run. unfold try_except. rewrite Hmap.
  rewrite abort_handler_run by (by rewrite Hcd). rewrite Hcd, Hname.
  eexists. split; [reflexivity|]. simpl. split_and!.
  - by rewrite <- !app_assoc.
  - done.
  - unfold exists_path, isdir. simpl. apply orb_false_intro.
    + apply bool_decide_eq_false. intros [?|[?|Hin]]; [done..|].
      apply elem_of_filter in Hin as [[? _] _]. done.
    + apply bool_decide_eq_false. intros [x Hx].
      apply map_lookup_filter_Some in Hx as [Hx _]. by rewrite Hf2 in Hx.
  - intros p Hp. by apply rmtree_below.
  - unfold same_cutout in Hcut. by rewrite Hcut.
Qed.

(** The pool raises as soon as one of the completed jobs raises. *)
Lemma pool_run_raises order tasks : ∀ first s,
  (is_Some first ∨
   ∃ i t, i ∈ order ∧ tasks !! i = Some t ∧
          ∀ s', ∃ e, (cutout_do_task E t true s').2 = inl e) →
  ∃ e, (pool_run E order tasks first s).2 = inr (Some e).
Proof.
  induction order as [|i order IH]; intros first s H; simpl.
  - destruct H as [[e ->]|(i & t & Hin & _)]; [by exists e|]. by apply elem_of_nil in Hin.
  - destruct (tasks !! i) as [t|] eqn:Ht.
    + rewrite bind_run. unfold attempt.
      destruct (cutout_do_task E t true s) as [s' r] eqn:Hrun.
      apply IH. destruct H as [[e ->]|(j & t' & Hin & Ht' & Hraise)].
      * left. by destruct r.
      * apply elem_of_cons in Hin as [->|Hin]; [|right; by exists j, t'].
        left. rewrite Ht in Ht'. injection Ht' as <-.
        destruct (Hraise s) as [e He]. rewrite Hrun in He. simpl in He. subst r.
        by destruct first.
    + apply IH. destruct H as [?|(j & t' & Hin & Ht' & Hraise)]; [by left|].
      apply elem_of_cons in Hin as [->|Hin]; [congruence|]. right. by exists j, t'.
Qed.

Lemma pool_map_raises order tasks s i t :
  i ∈ order → tasks !! i = Some t →
  (∀ s', ∃ e, (cutout_do_task E t true s').2 = inl e) →
  ∃ s2 e, pool_map E order tasks s = (s2, inl e).
Proof.
  intros Hin Ht Hraise. unfold pool_map. rewrite bind_run.
  destruct (pool_run_raises order tasks None s) as [e He]; [right; by exists i, t|].
  destruct (pool_run E order tasks None s) as [s2 r]. simpl in He. subst r.
  by exists s2, e.
Qed.

(** The claim on output names, read for every task list: the descriptor at
    position [i] holds the names with suffix [-i]. *)
Definition output_names_claim overwrite nprocesses gebco_height (s : state) : Prop :=
  ∀ s1 tasks i t,
    prepare_setup E overwrite nprocesses gebco_height s = (s1, inr tasks) →
    tasks !! i = Some t →
    dict_at t s1 !! "datasetfns" = Some (VFns (datasetfns_for (st_cutout s) i)).

Lemma prepare_setup_inject ow np gh s s1 tasks :
  prepare_setup E ow np gh s = (s1, inr tasks) →
  ∃ sa sb, inject_datasetfns (st_cutout s) 0 tasks sa = (sb, inr tt) ∧
           st_heap s1 = st_heap sb.
Proof.
  intros H. unfold prepare_setup in H.
  apply bind_inr_inv in H as (? & c & Hc & H). injection Hc as <- <-.
  do 9 (apply bind_inr_inv in H as (? & ? & _ & H)).
  apply bind_inr_inv in H as (sa & tasks' & _ & H).
  apply bind_inr_inv in H as (sb & [] & Hinj & H).
  apply bind_inr_inv in H as (? & [] & Hlog & H).
  apply bind_inr_inv in H as (? & [] & Hpool & H).
  injection H as <- <-. injection Hpool as <-. injection Hlog as <-.
  by exists sa, sb.
Qed.

(** C2, for task lists in which no descriptor occurs twice: the descriptor
    at position [i] receives, for every year-month of the index, the
    canonical file name with [-i] before the extension; two positions never
    share a name for a year-month. *)
Theorem prepare_setup_output_names overwrite nprocesses gebco_height s s1 tasks :
  prepare_setup E overwrite nprocesses gebco_height s = (s1, inr tasks) →
  NoDup tasks →
  let c := st_cutout s in
  (∀ i t, tasks !! i = Some t →
          dict_at t s1 !! "datasetfns" = Some (VFns (datasetfns_for c i))) ∧
  (∀ i ym, ym ∈ coords_yearmonth c →
           datasetfns_for c i !! ym
           = Some (let '(base, ext) := splitext (datasetfn c (Some ym)) in
                   base +:+ "-" +:+ format_nat i +:+ ext)) ∧
  (∀ i j ym fi fj, i ≠ j →
                   datasetfns_for c i !! ym = Some fi →
                   datasetfns_for c j !! ym = Some fj → fi ≠ fj).
Proof.
  intros Hsetup Hnd c. split_and!.
  - intros i t Hi.
    destruct (prepare_setup_inject _ _ _ _ _ _ Hsetup) as (sa & sb & Hinj & Hheap).
    destruct (inject_datasetfns_spec c tasks 0 sa Hnd)
      as (sb' & Hinj' & _ & _ & _ & _ & _ & _ & _ & Hin).
    unfold c in *. rewrite Hinj in Hinj'. injection Hinj' as <-.
    unfold dict_at. rewrite Hheap, (Hin i t Hi). simpl. by rewrite lookup_insert_eq.
  - intros i ym Hym. rewrite datasetfns_for_lookup, decide_True by done. done.
  - intros i j ym fi fj Hij Hi Hj ->. rewrite datasetfns_for_lookup in Hi, Hj.
    destruct (decide (ym ∈ coords_yearmonth c)); [|done].
    injection Hi as Hi. injection Hj as Hj. rewrite <- Hj in Hi.
    by apply (datasetfn_with_id_inj c ym) in Hi.
Qed.
(** C5, as the code runs: with the cutout prepared and [overwrite] false,
    the first statement of [cutout_prepare] raises at once and nothing has
    happened (the state is the initial one: no log record, no height, no
    directory touched, no file written, no task run).  The exception is the
    [NameError] of the undefined name [ArgumentError], not the
    configuration error that the statement means to raise. *)
Theorem cutout_prepare_already_prepared nprocesses gebco_height order s :
  prepared (st_cutout s) = true →
  cutout_prepare E false nprocesses gebco_height order s
  = (s, inl (Exn NameError [VStr "name 'ArgumentError' is not defined"])).
Proof.
  intros Hp. unfold cutout_prepare, prepare_setup.
  rewrite !bind_run. unfold get_cutout. simpl. by rewrite Hp.
Qed.
End Scheduler.

Lemma cutout_prepare_already_prepared_witness :
  let s := Sample.s (set_prepared true Sample.c) "prepare_wind" in
  cutout_prepare (Sample.E None) false None true [0%nat; 1%nat] s
  = (s, inl (Exn NameError [VStr "name 'ArgumentError' is not defined"])).
Proof.
  intros s.
  apply (cutout_prepare_already_prepared (Sample.E None) None true [0%nat; 1%nat] s).
  reflexivity.
Defined.




Lemma pair_eta_inr {A B C} (x : A * (B + C)) (c : C) : x.2 = inr c → x = (x.1, inr c).
Proof. destruct x as [a r]. simpl. by intros ->. Qed.

Lemma pair_eta_inl {A B C} (x : A * (B + C)) (b : B) : x.2 = inl b → x = (x.1, inl b).
Proof. destruct x as [a r]. simpl. by intros ->. Qed.

Lemma cutout_prepare_abort_witness :
  let s := Sample.s Sample.failing_cutout "prepare_wind" in
  ∃ s', cutout_prepare (Sample.E None) true None false [0%nat; 1%nat] s
        = (s', inl (Exn ValueError [VStr "no data"])) ∧
        st_pool s' = PoolTerminated ∧
        exists_path "out" s' = false ∧
        prepared (st_cutout s') = false.
Proof.
  intros s.
  set (r1 := prepare_setup (Sample.E None) true None false s).
  set (r2 := pool_map (Sample.E None) [0%nat; 1%nat] [2%nat; 3%nat] r1.1).
  destruct (cutout_prepare_abort (Sample.E None) true None false [0%nat; 1%nat] s
              r1.1 [2%nat; 3%nat] r2.1 (Exn ValueError [VStr "no data"]))
    as (s' & Hrun & _ & Hpool & Hgone & _ & Hprep).
  - apply pair_eta_inr. vm_compute. reflexivity.
  - apply pair_eta_inl. vm_compute. reflexivity.
  - exists s'. by split_and!.
Defined.

Lemma output_names_counterexample :
  ¬ output_names_claim (Sample.E None) true None false (Sample.s Sample.aliased_cutout "prepare_wind").
Proof.
  intros H.
  set (s := Sample.s Sample.aliased_cutout "prepare_wind") in *.
  set (r := prepare_setup (Sample.E None) true None false s).
  specialize (H r.1 [2%nat; 2%nat] 0%nat 2%nat).
  assert (r = (r.1, inr [2%nat; 2%nat])) as Hr by (apply pair_eta_inr; vm_compute; reflexivity).
  specialize (H Hr eq_refl). vm_compute in H. discriminate H.
Qed.

Lemma prepare_setup_output_names_witness :
  let s := Sample.s Sample.failing_cutout "prepare_wind" in
  ∃ s1, prepare_setup (Sample.E None) true None false s = (s1, inr [2%nat; 3%nat]) ∧
        dict_at 3%nat s1 !! "datasetfns" = Some (VFns {[ (2011, 1) := "out/201101-1.nc" ]}).
Proof.
  intros s.
  set (r := prepare_setup (Sample.E None) true None false s).
  assert (r = (r.1, inr [2%nat; 3%nat])) as Hr by (apply pair_eta_inr; vm_compute; reflexivity).
  exists r.1. split; [exact Hr|].
  destruct (prepare_setup_output_names (Sample.E None) true None false s r.1 [2%nat; 3%nat] Hr)
    as (Hnames & _ & _).
  - apply NoDup_cons. split; [|apply NoDup_singleton]. by intros ?%list_elem_of_singleton.
  - rewrite (Hnames 1%nat 3%nat eq_refl). vm_compute. reflexivity.
Defined.

(** * The single-series preview *)

Section Preview.
Context (E : env).

Lemma try_finally_inr_inv {A} (body : M A) fin s s' x :
  try_finally body fin s = (s', inr x) → ∃ s1, body s = (s1, inr x).
Proof.
  unfold try_finally. destruct (body s) as [s1 r]. destruct (fin s1) as [s2 [e|[]]]; [done|].
  intros [= <- ->]. by exists s1.
Qed.

Lemma try_except_inr_inv {A} (body : M A) handler s s' x :
  try_except body handler s = (s', inr x) →
  body s = (s', inr x) ∨ ∃ s1 e, body s = (s1, inl e) ∧ handler e s1 = (s', inr x).
Proof.
  unfold try_except. destruct (body s) as [s1 [e|y]]; [|by left].
  intros H. right. by exists s1, e.
Qed.

Lemma do_task_handler_raises {A} f e s s' (x : A) : do_task_handler f e s ≠ (s', inr x).
Proof.
  unfold do_task_handler. intros H.
  apply bind_inr_inv in H as (? & ? & _ & H).
  apply bind_inr_inv in H as (? & ? & _ & H).
  apply bind_inr_inv in H as (? & ? & _ & H). discriminate H.
Qed.

(** Without [write_to_file], what [cutout_do_task] returns is a list of
    datasets that are all in memory. *)
Lemma cutout_do_task_returns_loaded task s s' x :
  cutout_do_task E task false s = (s', inr x) →
  ∃ data, x = Some data ∧ Forall (λ p, backing p.2 = None) data.
Proof.
  rewrite cutout_do_task_run. unfold after_copy. intros H.
  apply bind_inr_inv in H as (? & f & _ & H).
  apply bind_inr_inv in H as (s1 & fns & Hfns & H). injection Hfns as <- <-.
  apply try_finally_inr_inv in H as (s2 & H).
  apply try_except_inr_inv in H as [H|(? & ? & _ & H)];
    [|by apply do_task_handler_raises in H].
  unfold do_task_body in H.
  do 4 (apply bind_inr_inv in H as (? & ? & _ & H)).
  apply bind_inr_inv in H as (? & data & _ & H).
  destruct (data.2); [done|]. injection H as <- <-.
  eexists. split; [done|]. apply Forall_fmap, Forall_forall. by intros [ym ds] _.
Qed.

Lemma preserves_ret_bind {A B} R (x : A) (f : A → M B) :
  preserves R (f x) → preserves R (mret x ≫= f).
Proof. intros H s. apply H. Qed.

Lemma cutout_do_task_same_fs task : preserves same_fs (cutout_do_task E task false).
Proof.
  unfold cutout_do_task.
  apply preserves_bind; [apply _ | solve_prim | intros t].
  apply preserves_bind; [apply _ | solve_prim | intros f].
  apply preserves_ret_bind.
  unfold do_task_body, do_task_handler, do_task_finally. preserves_tac.
Qed.

Local Hint Resolve cutout_do_task_same_fs : frame.

Local Hint Resolve series_tasks_same_fs : frame.

Lemma cutout_produce_specific_dataseries_same_fs ym series_name :
  preserves same_fs (cutout_produce_specific_dataseries E ym series_name).
Proof. unfold cutout_produce_specific_dataseries. preserves_tac. Qed.

(** The task-generating function is called once, for the year-months
    given. *)
Lemma series_tasks_call series yms s s1 tasks :
  series_tasks E series yms s = (s1, inr tasks) →
  ∃ n kwargs, st_trace s1 = st_trace s ++ [EvCall n kwargs] ∧
              kwargs !! "yearmonths" = Some (VYearmonths yms).
Proof.
  unfold series_tasks. intros H.
  apply bind_inr_inv in H as (? & c & Hc & H). injection Hc as <- <-.
  apply bind_inr_inv in H as (? & [f series'] & Hpop & H).
  unfold pop_local in Hpop. rewrite lookup_insert_ne in Hpop by done.
  destruct (series !! "tasks_func") as [f'|] eqn:Hf; [|done]. injection Hpop as <- -> <-.
  apply bind_inr_inv in H as (? & kwargs & Hkw & H).
  unfold kwargs_with in Hkw. case_bool_decide as Hdup; [done|]. injection Hkw as <- <-.
  destruct f; try done. unfold call_tasks in H.
  apply bind_inr_inv in H as (? & [] & Hev & H). injection Hev as <-.
  unfold run_tasks_func in H. simpl in H.
  destruct (tasks_sem E _ _ _) as [e|[h ts]]; [done|]. injection H as <- <-.
  eexists _, _. split; [reflexivity|].
  apply lookup_union_Some_l.
  rewrite lookup_insert_ne by done. rewrite lookup_insert_ne by done.
  by rewrite lookup_insert_eq.
Qed.

(** C7: the preview of one series for one year-month.  The task-generating
    function is called for that year-month alone; unless it returns exactly
    one task, and that task exactly one result labelled with the year-month,
    the call fails with an [AssertionError] (an exception of the task is
    passed on); otherwise the result is that dataset, in memory.  Whatever
    the outcome, the file system is left as it is. *)
Theorem cutout_produce_specific_dataseries_spec yearmonth series_name series s s' r :
  (list_to_map (weather_data_config (st_cutout s)) : gmap string pydict) !! series_name
  = Some series →
  cutout_produce_specific_dataseries E yearmonth series_name s = (s', r) →
  same_fs s s' ∧
  ∀ s1 tasks,
    series_tasks E series [yearmonth] s = (s1, inr tasks) →
    (∃ n kwargs, st_trace s1 = st_trace s ++ [EvCall n kwargs] ∧
                 kwargs !! "yearmonths" = Some (VYearmonths [yearmonth])) ∧
    match tasks with
    | [t] =>
        ∀ s2 r2, cutout_do_task E t false s1 = (s2, r2) →
          s' = s2 ∧
          match r2 with
          | inl e => r = inl e
          | inr (Some [(ym, ds)]) =>
              if decide (ym = yearmonth) then r = inr ds ∧ backing ds = None
              else r = inl (Exn AssertionError [])
          | inr (Some _) => r = inl (Exn AssertionError [])
          | inr None => False
          end
    | _ => s' = s1 ∧ r = inl (Exn AssertionError [])
    end.
Proof.
  intros Hseries Hrun. split.
  { eapply preserves_run, Hrun. apply cutout_produce_specific_dataseries_same_fs. }
  intros s1 tasks Htasks. split; [by eapply series_tasks_call|].
  unfold cutout_produce_specific_dataseries in Hrun.
  rewrite bind_run in Hrun. unfold get_cutout in Hrun. rewrite bind_run in Hrun.
  rewrite Hseries in Hrun. simpl in Hrun. rewrite bind_run, Htasks in Hrun.
  rewrite bind_run in Hrun. unfold assert in Hrun.
  destruct tasks as [|t [|t' tasks]].
  - simpl in Hrun. by injection Hrun as <- <-.
  - simpl in Hrun. intros s2 r2 Hdo. rewrite bind_run in Hrun. simpl in Hrun.
    rewrite bind_run, Hdo in Hrun.
    destruct r2 as [e|[data|]].
    + by injection Hrun as <- <-.
    + destruct (cutout_do_task_returns_loaded _ _ _ _ Hdo) as (data' & [= <-] & Hloaded).
      destruct data as [|[ym ds] [|? ?]].
      * by injection Hrun as <- <-.
      * rewrite bind_run in Hrun. unfold assert in Hrun.
        destruct (decide (ym = yearmonth)) as [->|Hne].
        -- rewrite bool_decide_true in Hrun by done. cbv [mret M_ret] in Hrun.
           injection Hrun as <- <-. split_and!; [done..|].
           apply Forall_inv in Hloaded. exact Hloaded.
        -- rewrite bool_decide_false in Hrun by done. cbv [raise] in Hrun.
           by injection Hrun as <- <-.
      * by injection Hrun as <- <-.
    + by destruct (cutout_do_task_returns_loaded _ _ _ _ Hdo) as (? & ? & _).
  - simpl in Hrun. by injection Hrun as <- <-.
Qed.
End Preview.

Lemma cutout_produce_specific_dataseries_spec_witness :
  let s := Sample.s Sample.failing_cutout "prepare_wind" in
  let r := cutout_produce_specific_dataseries (Sample.E None) (2011, 1) "wind" s in
  same_fs s r.1 ∧ r.2 = inr Sample.wind.
Proof.
  intros s r.
  destruct (cutout_produce_specific_dataseries_spec (Sample.E None) (2011, 1) "wind"
              {[ "tasks_func" := VFunc "tasks_wind" ]} s r.1 r.2) as [Hfs _].
  - vm_compute. reflexivity.
  - apply surjective_pairing.
  - split; [exact Hfs|]. vm_compute. reflexivity.
Defined.

(** * Height from the GEBCO raster *)

Section Height.
Context (E : env).

Definition warning_template : string :=
  "gdalwarp was not found for resampling gebco. "
  +:+ "Next-neighbour interpolation will be used instead!".

(** The command line of the resampling tool. *)
Definition gdalwarp_argv (xs ys : list Z) (s : state) : list string :=
  ["gdalwarp"; "-of"; "NETCDF"] ++ warp_args E xs ys
  ++ ["-r"; "average"; gebco_path E; mkdtemp_name s +:+ "/" +:+ "resampled.nc"].

(** C8: when the resampling tool cannot be started, one warning is logged
    and the height is the nearest-neighbour reindexing of the original
    raster, without an exception; when the tool runs and exits with a code
    other than 0, the assertion fails and the error is not handled. *)
Theorem _prepare_gebco_height_tool_outcomes xs ys s :
  xs ≠ [] → ys ≠ [] →
  let tmpdir := mkdtemp_name s in
  let argv := gdalwarp_argv xs ys s in
  (gdalwarp E argv = None →
   ∀ raster lon lat band,
     st_files s !! gebco_path E = Some raster →
     coords raster !! "lon" = Some lon → coords raster !! "lat" = Some lat →
     data_vars raster !! "Band1" = Some band →
     ∃ s', _prepare_gebco_height E xs ys s = (s', inr (reindex_nearest E band xs ys)) ∧
           st_trace s' = st_trace s ++
             [EvMkdir tmpdir; EvSubprocess argv; EvLog WARNING warning_template [];
              EvOpen (fresh_handle s) (gebco_path E); EvClose (fresh_handle s);
              EvRmtree tmpdir]) ∧
  (∀ ret, gdalwarp E argv = Some ret → ret ≠ 0 →
     ∃ s', _prepare_gebco_height E xs ys s
           = (s', inl (Exn AssertionError [VStr "gdalwarp was not able to resample gebco"])) ∧
           st_trace s' = st_trace s ++ [EvMkdir tmpdir; EvSubprocess argv]).
Proof.
  intros Hxs Hys tmpdir argv.
  assert (bool_decide (xs = [] ∨ ys = []) = false) as Hne
    by (apply bool_decide_eq_false; by intros [?|?]).
  split.
  - intros Htool raster lon lat band Hfile Hlon Hlat Hband.
    unfold _prepare_gebco_height.
    cbv [mbind M_bind mkdtemp]. rewrite Hne.
    cbv [mret M_ret try_except_class subprocess_call].
    match goal with |- context [gdalwarp E ?a] => change a with argv end. rewrite Htool.
    simpl. cbv [open_file log modify try_finally mbind M_bind get_state mret M_ret].
    simpl. rewrite Hfile. simpl.
    unfold handle_content. simpl. rewrite lookup_insert_eq.
    unfold rename_gebco. rewrite Hlon, Hlat, Hband.
    cbv [mret M_ret mbind M_bind ds_get_var]. simpl.
    rewrite lookup_fmap, lookup_insert_eq. simpl.
    unfold rmtree. simpl. rewrite bool_decide_true by set_solver.
    eexists. split; [reflexivity|]. simpl.
    by rewrite <- !app_assoc.
  - intros ret Htool Hret.
    unfold _prepare_gebco_height.
    cbv [mbind M_bind mkdtemp]. rewrite Hne.
    cbv [mret M_ret try_except_class subprocess_call].
    match goal with |- context [gdalwarp E ?a] => change a with argv end. rewrite Htool.
    rewrite decide_False by done. unfold assert.
    rewrite bool_decide_false by done. simpl.
    eexists. split; [reflexivity|]. simpl.
    by rewrite <- !app_assoc.
Qed.
End Height.

Lemma _prepare_gebco_height_tool_outcomes_witness :
  let s := Sample.s Sample.c "prepare_wind" in
  (_prepare_gebco_height (Sample.E None) [1; 2] [3; 4] s).2 = inr 107 ∧
  (_prepare_gebco_height (Sample.E (Some 1)) [1; 2] [3; 4] s).2
  = inl (Exn AssertionError [VStr "gdalwarp was not able to resample gebco"]).
Proof.
  intros s. split.
  - destruct (_prepare_gebco_height_tool_outcomes (Sample.E None) [1; 2] [3; 4] s)
      as [Habsent _]; [done..|].
    destruct (Habsent eq_refl Sample.raster [1] [2] 7) as (s' & -> & _);
      [reflexivity..|]. reflexivity.
  - destruct (_prepare_gebco_height_tool_outcomes (Sample.E (Some 1)) [1; 2] [3; 4] s)
      as [_ Hfail]; [done..|].
    destruct (Hfail 1 eq_refl) as (s' & -> & _); [lia|]. reflexivity.
Defined.

(** * The metadata materializer *)

Section Meta.
Context (E : env).

(** The instants [first + k * step], [k = 0, 1, ...], up to [final]. *)
Definition regular_axis (first final step : Z) : list Z :=
  (λ i : nat, first + Z.of_nat i * step) <$> seq 0 (Z.to_nat ((final - first) `div` step + 1)).

Lemma regular_axis_elem first final step t :
  0 < step →
  t ∈ regular_axis first final step ↔ ∃ k, 0 ≤ k ∧ t = first + k * step ∧ t ≤ final.
Proof.
  intros Hstep. unfold regular_axis. rewrite list_elem_of_fmap. split.
  - intros (i & -> & Hi). apply elem_of_seq in Hi. exists (Z.of_nat i).
    split_and!; [lia | done |].
    assert (Z.of_nat i < (final - first) `div` step + 1) as Hlt by lia.
    assert (Z.of_nat i ≤ (final - first) `div` step) as Hle by lia.
    pose proof (Z.mul_div_le (final - first) step Hstep). nia.
  - intros (k & Hk & -> & Hle). exists (Z.to_nat k). split; [by rewrite Z2Nat.id|].
    apply elem_of_seq. split; [lia|].
    assert (k ≤ (final - first) `div` step) by (apply Z.div_le_lower_bound; lia).
    lia.
Qed.

(** C9: the metadata function is called once, for the last year and the last
    month of the ranges; the new time axis runs from the start of the first
    month, shifted by the offset of the first observed instant, to the end
    of the last month, shifted by the offset of the last observed instant,
    in steps of the hours between the first two observed instants; years
    and months are stacked into one [year-month] index. *)
Theorem cutout_get_meta_spec xs ys years months params s n ds0 t0 t1 rest :
  let months' := default (Slice 1 12) months in
  let kwds := params ∪ meta_data_config (st_cutout s) in
  let kwargs : pydict :=
    list_to_map [("xs", VAxis xs); ("ys", VAxis ys);
                 ("year", VInt (stop years)); ("month", VInt (stop months'))]
    ∪ delete "prepare_func" kwds in
  kwds !! "prepare_func" = Some (VFunc n) →
  kwds !! "xs" = None → kwds !! "ys" = None →
  kwds !! "year" = None → kwds !! "month" = None →
  meta_sem E n kwargs = inr ds0 →
  coords ds0 !! "time" = Some (t0 :: t1 :: rest) →
  1678 ≤ start years ≤ 2261 → 1678 ≤ stop years ≤ 2261 →
  1 ≤ start months' ≤ 12 → 1 ≤ stop months' ≤ 12 →
  0 < components_hours (t1 - t0) →
  let t_last := default t1 (last (t0 :: t1 :: rest)) in
  let month_end := add_MonthBegin (stop years) (stop months') in
  let first := month_start_ns (start years) (start months')
               + (t0 - month_start_ns (stop years) (stop months')) in
  let final := month_end + (t_last - month_end) in
  let step := components_hours (t1 - t0) * ns_per_hour in
  ∃ s' ds,
    cutout_get_meta E xs ys years months params s = (s', inr ds) ∧
    st_trace s' = st_trace s ++ [EvCall n kwargs] ∧
    kwargs !! "year" = Some (VInt (stop years)) ∧
    kwargs !! "month" = Some (VInt (stop months')) ∧
    coords ds !! "time" = Some (regular_axis first final step) ∧
    (∀ t, t ∈ regular_axis first final step ↔ ∃ k, 0 ≤ k ∧ t = first + k * step ∧ t ≤ final) ∧
    stacked ds !! "year-month"
    = Some (y ← range_incl (start years) (stop years);
            m ← range_incl (start months') (stop months'); [(y, m)]).
Proof.
  intros months' kwds kwargs Hf Hxs Hys Hyear Hmonth Hmeta Htime Hy0 Hy1 Hm0 Hm1 Hstep
    t_last month_end first final step.
  unfold cutout_get_meta. fold months'.
  cbv [mbind M_bind get_cutout pop_local]. fold kwds. rewrite Hf.
  cbv [mret M_ret kwargs_with].
  rewrite bool_decide_false.
  2:{ rewrite !Exists_cons, Exists_nil. simpl.
      rewrite !lookup_delete_ne by done. rewrite Hxs, Hys, Hyear, Hmonth.
      intros [[? ?]|[[? ?]|[[? ?]|[[? ?]|[]]]]]; done. }
  cbv [call_meta mbind M_bind modify lift_result]. fold kwargs. rewrite Hmeta.
  cbv [ds_get_coord ds_update_attrs]. simpl. rewrite Htime.
  cbv [mret M_ret first_second_last Timestamp_ym].
  rewrite !bool_decide_true by done.
  cbv [date_range]. rewrite decide_False by lia.
  cbv [ds_stack_yearmonth ds_set_coord]. simpl.
  rewrite lookup_insert_ne by done. rewrite lookup_insert_eq. rewrite lookup_insert_eq.
  eexists _, _. split; [reflexivity|]. simpl. split_and!.
  - done.
  - unfold kwargs. apply lookup_union_Some_l.
    rewrite !list_to_map_cons. by rewrite !lookup_insert_ne, lookup_insert_eq by done.
  - unfold kwargs. apply lookup_union_Some_l.
    rewrite !list_to_map_cons. by rewrite !lookup_insert_ne, lookup_insert_eq by done.
  - rewrite !lookup_delete_ne by done. rewrite lookup_insert_ne by done.
    rewrite lookup_insert_ne by done. by rewrite lookup_insert_eq.
  - intros t. apply regular_axis_elem. unfold step, ns_per_hour. lia.
  - by rewrite lookup_insert_eq.
Qed.
End Meta.

Lemma cutout_get_meta_spec_witness :
  let s := Sample.s Sample.c "prepare_wind" in
  ∃ s' ds,
    cutout_get_meta (Sample.E None) [1; 2] [3; 4] (Slice 2011 2011) (Some (Slice 1 2)) ∅ s
    = (s', inr ds) ∧
    length <$> coords ds !! "time" = Some 472%nat ∧
    stacked ds !! "year-month" = Some [(2011, 1); (2011, 2)].
Proof.
  intros s.
  destruct (cutout_get_meta_spec (Sample.E None) [1; 2] [3; 4] (Slice 2011 2011)
              (Some (Slice 1 2)) ∅ s "prepare_meta"
              (Dataset ∅ {[ "time" := Sample.three_hourly 2011 2 ]} ∅ ∅ None)
              (month_start_ns 2011 2) (month_start_ns 2011 2 + 3 * ns_per_hour)
              (drop 2 (Sample.three_hourly 2011 2)))
    as (s' & ds & Hrun & _ & _ & _ & Htime & _ & Hstack);
    try (vm_compute; reflexivity); try (simpl; lia).
  exists s', ds. split; [exact Hrun|]. split.
  - rewrite Htime. vm_compute. reflexivity.
  - rewrite Hstack. vm_compute. reflexivity.
Defined.

(** * The merge stage *)

Section Merge.
Context (E : env).

(** Opening the files of a list one after the other. *)
Lemma map_M_open_file fns : ∀ contents s,
  Forall2 (λ p d, st_files s !! p = Some d) fns contents →
  ∃ s1 hs, map_M open_file fns s = (s1, inr hs) ∧
           st_files s1 = st_files s ∧ st_dirs s1 = st_dirs s ∧
           st_cutout s1 = st_cutout s ∧
           st_trace s1 = st_trace s ++ zip_with EvOpen hs fns ∧
           length hs = length fns ∧
           (λ h, handle_content h s1) <$> hs = contents ∧
           (∀ h, is_Some (st_handles s !! h) → st_handles s1 !! h = st_handles s !! h).
Proof.
  induction fns as [|p fns IH]; intros contents s Hall.
  - apply Forall2_nil_inv_l in Hall as ->. exists s, []. split_and!; try done.
    simpl. by rewrite app_nil_r.
  - apply Forall2_cons_inv_l in Hall as (d & contents' & Hp & Hall & ->).
    simpl. rewrite bind_run. unfold open_file at 1. rewrite Hp.
    set (h := fresh_handle s).
    set (s0 := emit (EvOpen h p) (with_handles (<[h := (d, true)]> (st_handles s)) s)).
    destruct (IH contents' s0 Hall) as (s1 & hs & Hrun & Hf & Hd & Hc & Htr & Hlen & Hcont & Hkeep).
    rewrite bind_run, Hrun. exists s1, (h :: hs). split_and!; try done.
    + simpl. rewrite Htr. simpl. by rewrite <- app_assoc.
    + simpl. by rewrite Hlen.
    + simpl. f_equal; [|done]. unfold handle_content. rewrite Hkeep.
      * simpl. by rewrite lookup_insert_eq.
      * simpl. rewrite lookup_insert_eq. eauto.
    + intros h' Hh'. rewrite Hkeep.
      * simpl. rewrite lookup_insert_ne; [done|]. intros <-.
        assert (st_handles s !! h = None) as Hfresh
          by (unfold h, fresh_handle; apply (not_elem_of_dom (D := gset handle)), is_fresh).
        rewrite Hfresh in Hh'. by destruct Hh'.
      * simpl. destruct (decide (h = h')) as [<-|?].
        -- rewrite lookup_insert_eq. eauto.
        -- by rewrite lookup_insert_ne.
Qed.

Lemma for_each_ds_close hs : ∀ s,
  ∃ s1, for_each hs ds_close s = (s1, inr tt) ∧
        st_files s1 = st_files s ∧ st_dirs s1 = st_dirs s ∧ st_cutout s1 = st_cutout s ∧
        st_trace s1 = st_trace s ++ (EvClose <$> hs).
Proof.
  induction hs as [|h hs IH]; intros s; simpl.
  - exists s. split_and!; try done. by rewrite app_nil_r.
  - rewrite bind_run. simpl.
    destruct (IH (emit (EvClose h)
                    (with_handles (alter (λ x, (x.1, false)) h (st_handles s)) s)))
      as (s1 & -> & Hf & Hd & Hc & Htr).
    exists s1. split_and!; try done. rewrite Htr. simpl. by rewrite <- app_assoc.
Qed.

Lemma for_each_unlink fns : ∀ s,
  NoDup fns → (∀ p, p ∈ fns → is_Some (st_files s !! p)) →
  ∃ s1, for_each fns unlink s = (s1, inr tt) ∧
        st_trace s1 = st_trace s ++ (EvUnlink <$> fns) ∧
        (∀ p, p ∈ fns → st_files s1 !! p = None) ∧
        (∀ p, p ∉ fns → st_files s1 !! p = st_files s !! p).
Proof.
  induction fns as [|q fns IH]; intros s Hnd Hall; simpl.
  - exists s. split_and!; try done.
    + by rewrite app_nil_r.
    + by intros p ?%elem_of_nil.
  - apply NoDup_cons in Hnd as [Hq Hnd].
    rewrite bind_run. unfold unlink at 1.
    destruct (Hall q) as [d Hd]; [by left|]. rewrite Hd.
    destruct (IH (emit (EvUnlink q) (with_files (delete q (st_files s)) s)) Hnd)
      as (s1 & -> & Htr & Hgone & Hother).
    { intros p Hp. simpl. rewrite lookup_delete_ne; [apply Hall; by right|].
      intros <-. done. }
    exists s1. split_and!; try done.
    + rewrite Htr. simpl. by rewrite <- app_assoc.
    + intros p [->|Hp]%elem_of_cons; [|by apply Hgone].
      rewrite Hother by done. simpl. by rewrite lookup_delete_eq.
    + intros p Hp. apply not_elem_of_cons in Hp as [Hpq Hp].
      rewrite Hother by done. simpl. by rewrite lookup_delete_ne.
Qed.

(** The variables of a merged dataset are those of its parts. *)
Lemma ds_merge_all_dom l : ∀ acc merged,
  ds_merge_all acc l = inr merged →
  dom (data_vars merged) = dom (data_vars acc) ∪ ⋃ ((dom ∘ data_vars) <$> l).
Proof.
  induction l as [|d l IHl]; intros acc merged Hmerge; simpl in *.
  - injection Hmerge as <-. by rewrite (right_id_L ∅ (∪)).
  - destruct (ds_compatible acc d); [|done].
    rewrite (IHl _ _ Hmerge). simpl. rewrite dom_union_L.
    by rewrite (assoc_L (∪)).
Qed.

(** C6: the merge of one month.  The partial files that the glob pattern
    matches are opened together and merged, the height is laid over the
    result when it was asked for, the result is written to the canonical
    file, the partial files are closed and then deleted: the canonical file
    holds the union of the variables of the partial files (and the height),
    and no partial file is left. *)
Theorem merge_month_spec gebco_height fn base ext s contents merged height :
  splitext fn = (base, ext) →
  let fns := filter (λ p, glob_match (base +:+ "-*" +:+ ext) p = true) (paths s) in
  fns ≠ [] →
  Forall2 (λ p d, st_files s !! p = Some d) fns contents →
  ds_merge_all empty_dataset contents = inr merged →
  (gebco_height = true → data_vars (meta (st_cutout s)) !! "height" = Some height) →
  isdir (dirname fn) s = true → isdir fn s = false → fn ∉ fns →
  let out := if gebco_height then ds_set_var "height" height merged else merged in
  ∃ s' hs,
    merge_month gebco_height fn s = (s', inr tt) ∧
    st_trace s' = st_trace s ++ zip_with EvOpen hs fns ++ [EvWrite fn]
                  ++ (EvClose <$> hs) ++ (EvUnlink <$> fns)
                  ++ [EvLog DEBUG "Completed file %s"
                        [VStr (basename (default fn (last fns)))]] ∧
    length hs = length fns ∧
    st_files s' !! fn = Some (ds_load out) ∧
    (∀ p, p ∈ fns → st_files s' !! p = None) ∧
    (∀ p, p ≠ fn → p ∉ fns → st_files s' !! p = st_files s !! p) ∧
    dom (data_vars out)
    = ⋃ ((dom ∘ data_vars) <$> contents) ∪ (if gebco_height then {["height"]} else ∅).
Proof.
  intros Hsplit fns Hne Hfiles Hmerge Hheight Hparent Hnodir Hfn out.
  destruct (map_M_open_file fns contents s Hfiles)
    as (s1 & hs & Hopen & Hf1 & Hd1 & Hc1 & Htr1 & Hlen & Hcont & _).
  unfold merge_month. rewrite Hsplit. rewrite bind_run.
  unfold glob at 1. fold (paths s). fold fns. rewrite bind_run.
  assert (open_mfdataset fns s = (s1, inr (hs, merged))) as ->.
  { unfold open_mfdataset. destruct fns as [|p fns'] eqn:Hfns; [done|].
    rewrite bind_run, Hopen. rewrite bind_run. simpl get_state.
    cbv [get_state]. rewrite bind_run. unfold lift_result.
    by rewrite Hcont, Hmerge. }
  assert (isdir (dirname fn) s1 && negb (isdir fn s1) = true) as Hok.
  { unfold isdir in *. rewrite Hd1. by rewrite Hparent, Hnodir. }
  set (s2 := emit (EvWrite fn) (with_files (<[fn := ds_load out]> (st_files s1)) s1)).
  assert (((if gebco_height
           then c ← get_cutout; h ← ds_get_var "height" (meta c);
                mret (ds_set_var "height" h merged)
           else mret merged) ≫= (λ ds, to_netcdf ds fn)) s1 = (s2, inr tt)) as Hwrite.
  { rewrite bind_run. unfold out, s2. destruct gebco_height.
    - rewrite bind_run. unfold get_cutout. rewrite bind_run. unfold ds_get_var.
      rewrite Hc1, (Hheight eq_refl). simpl. unfold to_netcdf. by rewrite Hok.
    - simpl. unfold to_netcdf. by rewrite Hok. }
  rewrite bind_run. unfold try_finally. rewrite Hwrite.
  destruct (for_each_ds_close hs s2) as (s3 & -> & Hf3 & Hd3 & Hc3 & Htr3).
  assert (NoDup fns) as Hnd
    by (apply NoDup_filter; unfold paths; apply (NoDup_elements (C := gset string))).
  destruct (for_each_unlink fns s3 Hnd) as (s4 & Hunlink & Htr4 & Hgone & Hother).
  { intros p Hp. rewrite Hf3. simpl. rewrite lookup_insert_ne by (by intros ->).
    rewrite Hf1. destruct (list_elem_of_lookup_1 _ _ Hp) as [i Hi].
    destruct (Forall2_lookup_l _ _ _ _ _ Hfiles Hi) as (d & _ & Hd). eauto. }
  rewrite bind_run, Hunlink. simpl.
  eexists _, hs. split; [reflexivity|]. simpl. split_and!.
  - rewrite Htr4, Htr3. simpl. rewrite Htr1. by rewrite <- !app_assoc.
  - done.
  - rewrite Hother by done. rewrite Hf3. simpl. by rewrite lookup_insert_eq.
  - done.
  - intros p Hp1 Hp2. rewrite Hother by done. rewrite Hf3. simpl.
    by rewrite lookup_insert_ne, Hf1.
  - pose proof (ds_merge_all_dom _ _ _ Hmerge) as Hdom. simpl in Hdom.
    rewrite dom_empty_L, (left_id_L ∅ (∪)) in Hdom.
    unfold out. destruct gebco_height; simpl.
    + rewrite dom_insert_L, Hdom. apply (comm_L (∪)).
    + rewrite Hdom. by rewrite (right_id_L ∅ (∪)).
Qed.
End Merge.

Lemma merge_fns :
  filter (λ p, glob_match ("out/201101" +:+ "-*" +:+ ".nc") p = true) (paths Sample.merge_state)
  = ["out/201101-1.nc"; "out/201101-0.nc"].
Proof. vm_compute. reflexivity. Qed.

Lemma merge_month_spec_witness :
  ∃ s', merge_month true "out/201101.nc" Sample.merge_state = (s', inr tt) ∧
        data_vars <$> st_files s' !! "out/201101.nc"
        = Some {[ "wnd" := 1; "influx" := 2; "height" := 107 ]} ∧
        st_files s' !! "out/201101-0.nc" = None ∧
        st_files s' !! "out/201101-1.nc" = None.
Proof.
  destruct (merge_month_spec true "out/201101.nc" "out/201101" ".nc" Sample.merge_state
              [Sample.influx; Sample.wind]
              (Dataset {[ "wnd" := 1; "influx" := 2 ]} ∅ ∅ ∅ None) 107)
    as (s' & hs & Hrun & _ & _ & Hfile & Hgone & _).
  - vm_compute. reflexivity.
  - rewrite merge_fns. discriminate.
  - rewrite merge_fns. repeat constructor.
  - vm_compute. reflexivity.
  - intros _. reflexivity.
  - vm_compute. reflexivity.
  - vm_compute. reflexivity.
  - rewrite merge_fns. intros H.
    apply elem_of_cons in H as [H|H]; [discriminate H|].
    apply elem_of_cons in H as [H|H]; [discriminate H|]. by apply elem_of_nil in H.
  - rewrite merge_fns in Hgone.
    exists s'. split; [exact Hrun|]. split_and!.
    + rewrite Hfile. vm_compute. reflexivity.
    + apply Hgone. right. left.
    + apply Hgone. left.
Defined.

(** * The task executor: edge cases *)

Section ExecutorEdges.
Context (E : env).

(** The keyword arguments that remain once [prepare_func] (and
    [datasetfns], when writing) have been popped. *)
Definition remaining (write_to_file : bool) (d : pydict) : pydict :=
  if write_to_file then delete "datasetfns" (delete "prepare_func" d)
  else delete "prepare_func" d.

(** The state in which the [try] block starts: the store holds the copy,
    stripped of the popped entries. *)
Definition block_state (task : loc) (write_to_file : bool) (s : state) : state :=
  with_heap (<[fresh_loc s := remaining write_to_file (dict_at task s)]> (st_heap s)) s.

Lemma cutout_do_task_block task w s f fns :
  dict_at task s !! "prepare_func" = Some f →
  (w = true → dict_at task s !! "datasetfns" = Some fns) →
  cutout_do_task E task w s
  = try_finally
      (try_except (do_task_body E (fresh_loc s) f (if w then Some fns else None))
                  (do_task_handler f))
      (do_task_finally (fresh_loc s)) (block_state task w s).
Proof.
  intros Hf Hfns. rewrite cutout_do_task_run. unfold after_copy.
  rewrite bind_run. unfold dict_pop at 1. rewrite dict_at_insert, Hf.
  rewrite bind_run. unfold block_state, remaining. destruct w.
  - unfold fmap, M_fmap, dict_pop. rewrite dict_at_insert.
    rewrite lookup_delete_ne, (Hfns eq_refl) by done. simpl.
    by rewrite !insert_insert_eq.
  - simpl. by rewrite !insert_insert_eq.
Qed.

Lemma dict_at_block task w s :
  dict_at (fresh_loc s) (block_state task w s) = remaining w (dict_at task s).
Proof. apply dict_at_insert. Qed.

Lemma remaining_lookup w d k :
  k ≠ "prepare_func" → k ≠ "datasetfns" → remaining w d !! k = d !! k.
Proof. intros ? ?. unfold remaining. destruct w; by rewrite !lookup_delete_ne. Qed.

Lemma do_task_finally_skip t s :
  dict_at t s !! "ds" = None → do_task_finally t s = (s, inr tt).
Proof.
  intros H. unfold do_task_finally. rewrite bind_run. unfold dict_contains.
  by rewrite H, bool_decide_false by (by intros [? ?]).
Qed.

Lemma do_task_body_no_input t f fns s :
  dict_at t s !! "fn" = None → do_task_body E t f fns s = body_rest E t f fns s.
Proof.
  intros H. unfold do_task_body. rewrite bind_run. unfold dict_contains at 1.
  by rewrite H, bool_decide_false by (by intros [? ?]).
Qed.


(** X2: a descriptor without ['prepare_func'], or without ['datasetfns']
    when writing, raises [KeyError] before the [try] block is entered: the
    error is not logged, no dataset is opened, no file is touched. *)
Theorem cutout_do_task_missing_key task write_to_file s :
  dict_at task s !! "prepare_func" = None ∨
  (write_to_file = true ∧ dict_at task s !! "datasetfns" = None) →
  ∃ s' k, cutout_do_task E task write_to_file s = (s', inl (Exn KeyError [VStr k])) ∧
          (k = "prepare_func" ∨ k = "datasetfns") ∧
          st_trace s' = st_trace s ∧ st_files s' = st_files s ∧
          st_handles s' = st_handles s.
Proof.
  intros H. rewrite cutout_do_task_run. unfold after_copy.
  rewrite bind_run. unfold dict_pop at 1. rewrite dict_at_insert.
  destruct (dict_at task s !! "prepare_func") as [f|] eqn:Hf.
  - destruct H as [?|[-> Hfns]]; [done|].
    rewrite bind_run. unfold fmap, M_fmap, dict_pop. rewrite dict_at_insert.
    rewrite lookup_delete_ne, Hfns by done.
    eexists _, "datasetfns". split; [reflexivity|]. split_and!; [by right|done..].
  - eexists _, "prepare_func". split; [reflexivity|]. split_and!; [by left|done..].
Qed.

(** The events of writing the results [items] under the names [m]. *)
Definition write_events (m : gmap yearmonth string) (n : string)
    (items : list (yearmonth * dataset)) : list event :=
  '(ym, ds) ← items;
  match m !! ym with
  | Some p => [EvWrite p;
               EvLog DEBUG "Write variable(s) %s to %s generated by %s"
                 [VStr (var_names ds); VStr (basename p); VStr n]]
  | None => []
  end.

(** The files after writing the results [items] under the names [m]: a
    later result for the same name replaces an earlier one. *)
Definition write_files (m : gmap yearmonth string) (items : list (yearmonth * dataset))
    (files : gmap string dataset) : gmap string dataset :=
  foldl (λ f '(ym, ds), match m !! ym with
                        | Some p => <[p := ds_load ds]> f
                        | None => f
                        end) files items.

(** A name that can be written: its directory exists and it is not itself
    a directory. *)
Definition writable (p : string) (s : state) : Prop :=
  isdir (dirname p) s = true ∧ isdir p s = false.

(** The body of the writing loop of [cutout_do_task]. *)
Definition write_body (fns prepare_func : value) : yearmonth * dataset → M unit :=
  λ '(yearmonth, ds),
    fn ← fns_lookup fns yearmonth;
    to_netcdf ds fn ;;
    nm ← func_name prepare_func;
    log DEBUG "Write variable(s) %s to %s generated by %s"
        [VStr (var_names ds); VStr (basename fn); VStr nm].

Lemma write_body_run m n ym ds p s :
  m !! ym = Some p → writable p s →
  write_body (VFns m) (VFunc n) (ym, ds) s
  = (emit (EvLog DEBUG "Write variable(s) %s to %s generated by %s"
             [VStr (var_names ds); VStr (basename p); VStr n])
       (emit (EvWrite p) (with_files (<[p := ds_load ds]> (st_files s)) s)), inr tt).
Proof.
  intros Hp [Hdir Hnodir]. unfold write_body.
  cbv [mbind M_bind fns_lookup]. rewrite Hp.
  cbv [mret M_ret to_netcdf]. by rewrite Hdir, Hnodir.
Qed.

Lemma for_each_cons {A} (x : A) l (body : A → M unit) :
  for_each (x :: l) body = body x ≫= λ _, for_each l body.
Proof. reflexivity. Qed.

Lemma write_loop m n items : ∀ s,
  (∀ ym ds, (ym, ds) ∈ items → ∃ p, m !! ym = Some p ∧ writable p s) →
  ∃ s', for_each items (write_body (VFns m) (VFunc n)) s = (s', inr tt) ∧
        st_files s' = write_files m items (st_files s) ∧
        st_trace s' = st_trace s ++ write_events m n items ∧
        st_dirs s' = st_dirs s ∧ st_heap s' = st_heap s ∧ st_handles s' = st_handles s.
Proof.
  induction items as [|[ym ds] items IH]; intros s Hall.
  - exists s. split_and!; try done. simpl. by rewrite app_nil_r.
  - destruct (Hall ym ds) as (p & Hp & Hw); [by left|].
    rewrite for_each_cons, bind_run, (write_body_run m n ym ds p s Hp Hw).
    destruct (IH (emit (EvLog DEBUG "Write variable(s) %s to %s generated by %s"
                          [VStr (var_names ds); VStr (basename p); VStr n])
                    (emit (EvWrite p) (with_files (<[p := ds_load ds]> (st_files s)) s))))
      as (s' & -> & Hfiles & Htrace & Hdirs & Hheap & Hhandles).
    { intros ym' ds' Hin. destruct (Hall ym' ds') as (p' & ? & ? & ?); [by right|].
      by exists p'. }
    exists s'. split_and!; try done.
    + rewrite Hfiles. unfold write_files. simpl. by rewrite Hp.
    + rewrite Htrace. unfold write_events. simpl. rewrite Hp. simpl.
      by rewrite <- !app_assoc.
Qed.

(** X3: when writing, every result of the extraction function is stored
    under the name that the descriptor gives for its year-month, in the
    order of the results, with one trace record per file; the call returns
    [None]. *)
Theorem cutout_do_task_writes task s n m items :
  dict_at task s !! "prepare_func" = Some (VFunc n) →
  dict_at task s !! "datasetfns" = Some (VFns m) →
  dict_at task s !! "fn" = None →
  dict_at task s !! "ds" = None →
  (∀ s', prepare_sem E n (remaining true (dict_at task s)) s' = PIter items None) →
  (∀ ym ds, (ym, ds) ∈ items → ∃ p, m !! ym = Some p ∧ writable p s) →
  ∃ s', cutout_do_task E task true s = (s', inr None) ∧
        st_files s' = write_files m items (st_files s) ∧
        st_trace s' = st_trace s ++ EvCall n (remaining true (dict_at task s))
                                  :: write_events m n items.
Proof.
  intros Hf Hfns Hfn Hds Hiter Hall.
  rewrite (cutout_do_task_block task true s (VFunc n) (VFns m) Hf) by done.
  unfold try_finally, try_except.
  rewrite do_task_body_no_input
    by (rewrite dict_at_block, remaining_lookup by done; exact Hfn).
  unfold body_rest. cbv [mbind M_bind dict_items call_prepare modify get_state mret M_ret].
  rewrite dict_at_block, Hiter. unfold after_call.
  cbv [mbind M_bind mret M_ret]. cbn [fst snd].
  destruct (write_loop m n items
              (emit (EvCall n (remaining true (dict_at task s))) (block_state task true s)))
    as (s' & Hloop & Hfiles & Htrace & _ & Hheap & _); [exact Hall|].
  change (for_each items _) with (for_each items (write_body (VFns m) (VFunc n))).
  rewrite Hloop.
  rewrite do_task_finally_skip.
  - exists s'. split_and!; [done..|]. rewrite Htrace. simpl. by rewrite <- app_assoc.
  - unfold dict_at. rewrite Hheap. 
    change (dict_at (fresh_loc s) (block_state task true s) !! "ds" = None).
    by rewrite dict_at_block, remaining_lookup.
Qed.

Lemma for_each_app {A} (l1 l2 : list A) (body : A → M unit) s s1 :
  for_each l1 body s = (s1, inr tt) →
  for_each (l1 ++ l2) body s = for_each l2 body s1.
Proof.
  revert s. induction l1 as [|x l1 IH]; intros s Hrun.
  - by injection Hrun as ->.
  - simpl in *. rewrite bind_run in Hrun |- *.
    destruct (body x s) as [s0 [e|[]]]; [done|]. by apply IH.
Qed.

(** X4: a result labelled with a year-month for which the descriptor has no
    name stops the writing with a [KeyError], which is logged and raised;
    the results before it have been written and stay written, the results
    after it are not written. *)
Theorem cutout_do_task_unknown_yearmonth task s n m items1 ym ds items2 tail :
  dict_at task s !! "prepare_func" = Some (VFunc n) →
  dict_at task s !! "datasetfns" = Some (VFns m) →
  dict_at task s !! "fn" = None →
  dict_at task s !! "ds" = None →
  (∀ s', prepare_sem E n (remaining true (dict_at task s)) s'
         = PIter (items1 ++ (ym, ds) :: items2) tail) →
  (∀ ym' ds', (ym', ds') ∈ items1 → ∃ p, m !! ym' = Some p ∧ writable p s) →
  m !! ym = None →
  ∃ s', cutout_do_task E task true s = (s', inl (Exn KeyError [VYearmonths [ym]])) ∧
        st_files s' = write_files m items1 (st_files s) ∧
        st_trace s' = st_trace s ++ EvCall n (remaining true (dict_at task s))
                                  :: write_events m n items1
                                  ++ [EvLog ERROR handler_template
                                        [VStr n; VYearmonths [ym]]].
Proof.
  intros Hf Hfns Hfn Hds Hiter Hall Hym.
  rewrite (cutout_do_task_block task true s (VFunc n) (VFns m) Hf) by done.
  unfold try_finally, try_except.
  rewrite do_task_body_no_input
    by (rewrite dict_at_block, remaining_lookup by done; exact Hfn).
  unfold body_rest. cbv [mbind M_bind dict_items call_prepare modify get_state mret M_ret].
  rewrite dict_at_block, Hiter. unfold after_call.
  cbv [mbind M_bind mret M_ret]. cbn [fst snd].
  destruct (write_loop m n items1
              (emit (EvCall n (remaining true (dict_at task s))) (block_state task true s)))
    as (s1 & Hloop & Hfiles & Htrace & _ & Hheap & _); [exact Hall|].
  change (for_each (items1 ++ _) _)
    with (for_each (items1 ++ (ym, ds) :: items2) (write_body (VFns m) (VFunc n))).
  rewrite (for_each_app _ _ _ _ _ Hloop), for_each_cons, bind_run.
  assert (write_body (VFns m) (VFunc n) (ym, ds) s1
          = (s1, inl (Exn KeyError [VYearmonths [ym]]))) as ->.
  { unfold write_body. cbv [mbind M_bind fns_lookup]. by rewrite Hym. }
  unfold do_task_handler. cbv [mbind M_bind func_name exn_arg0 mret M_ret log modify raise].
  simpl. rewrite do_task_finally_skip.
  - eexists. split_and!; [reflexivity|done|]. simpl. rewrite Htrace. simpl.
    by rewrite <- !app_assoc.
  - unfold dict_at. simpl. rewrite Hheap.
    change (dict_at (fresh_loc s) (block_state task true s) !! "ds" = None).
    by rewrite dict_at_block, remaining_lookup.
Qed.

(** X5: a descriptor that carries a dataset under ['ds'] and no input file
    has that dataset closed when the call ends, whatever the outcome, though
    the call did not open it. *)
Theorem cutout_do_task_closes_given_dataset task write_to_file s f fns h :
  dict_at task s !! "prepare_func" = Some f →
  (write_to_file = true → dict_at task s !! "datasetfns" = Some fns) →
  dict_at task s !! "fn" = None →
  dict_at task s !! "ds" = Some (VDs h) →
  let s' := (cutout_do_task E task write_to_file s).1 in
  (∃ tr, st_trace s' = st_trace s ++ tr ++ [EvClose h]) ∧
  st_handles s' = alter (λ x, (x.1, false)) h (st_handles s) ∧
  is_open h s' = false.
Proof.
  intros Hf Hfns Hfn Hds.
  rewrite (cutout_do_task_block task write_to_file s f fns Hf Hfns).
  set (t := fresh_loc s). set (s2 := block_state task write_to_file s).
  assert (dict_at t s2 !! "ds" = Some (VDs h)) as Hds2
    by (unfold t, s2; by rewrite dict_at_block, remaining_lookup).
  unfold try_finally, try_except.
  rewrite do_task_body_no_input
    by (unfold t, s2; by rewrite dict_at_block, remaining_lookup).
  pose proof (body_rest_quiet E t f (if write_to_file then Some fns else None) s2) as Hq.
  destruct (body_rest E t f _ s2) as [s3 r3]. simpl in Hq.
  assert (∃ s4 r4, match r3 with
                   | inl e => do_task_handler f e s3
                   | inr a => (s3, inr a)
                   end = (s4, r4) ∧ quiet s3 s4) as (s4 & r4 & -> & Hq4).
  { destruct r3 as [e|a].
    - pose proof (do_task_handler_quiet (A := option (list (yearmonth * dataset))) f e s3).
      destruct (do_task_handler f e s3) as [s4 r4]. by exists s4, r4.
    - exists s3, (inr a). split; [done | reflexivity]. }
  assert (quiet s2 s4) as (Hheap & Hhandles & tr & Htr) by (by etrans).
  assert (do_task_finally t s4
          = (emit (EvClose h) (with_handles (alter (λ x, (x.1, false)) h (st_handles s4)) s4),
             inr tt)) as ->.
  { assert (dict_at t s4 !! "ds" = Some (VDs h)) as Hds4
      by (unfold dict_at; rewrite Hheap; exact Hds2).
    unfold do_task_finally. rewrite bind_run. unfold dict_contains.
    rewrite Hds4, bool_decide_true by done. rewrite bind_run.
    unfold dict_get. by rewrite Hds4. }
  simpl. split_and!.
  - exists tr. rewrite Htr. simpl. by rewrite <- app_assoc.
  - by rewrite Hhandles.
  - unfold is_open. simpl. rewrite lookup_alter, decide_True by done.
    by destruct (st_handles s4 !! h) as [[? ?]|].
Qed.

(** How the [try] block gets to the call of the extraction function: with
    the handles as they were, or not at all, or with one new handle that
    the copy holds under ['ds']. *)
Lemma do_task_body_cases t f fns s :
  (∃ s1, do_task_body E t f fns s = body_rest E t f fns s1 ∧
         st_handles s1 = st_handles s ∧ same_fs s s1) ∨
  (∃ s1 e, do_task_body E t f fns s = (s1, inl e) ∧
           st_handles s1 = st_handles s ∧ st_trace s1 = st_trace s ∧ same_fs s s1) ∨
  (∃ s1 h d, do_task_body E t f fns s = body_rest E t f fns s1 ∧
             st_handles s1 = <[h := (d, true)]> (st_handles s) ∧
             st_handles s !! h = None ∧
             dict_at t s1 !! "ds" = Some (VDs h) ∧ same_fs s s1).
Proof.
  destruct (dict_at t s !! "fn") as [fn|] eqn:Hfn.
  2:{ left. exists s. by rewrite do_task_body_no_input. }
  remember (do_task_body E t f fns s) as R eqn:HR.
  unfold do_task_body in HR. rewrite bind_run in HR. unfold dict_contains at 1 in HR.
  rewrite Hfn, bool_decide_true in HR by done.
  rewrite bind_run in HR. rewrite bind_run in HR. unfold dict_pop at 1 in HR. rewrite Hfn in HR.
  rewrite bind_run in HR. unfold dict_pop at 1 in HR. rewrite dict_at_insert in HR.
  destruct (delete "fn" (dict_at t s) !! "engine") as [g|].
  2:{ right. left. subst R. by eexists _, _. }
  rewrite bind_run in HR.
  destruct fn as [| |p| | | | | |]; try (right; left; subst R; by eexists _, _).
  unfold open_dataset, open_file in HR. simpl in HR.
  destruct (st_files s !! p) as [d|]; [|right; left; subst R; by eexists _, _].
  right. right. subst R. eexists _, (fresh_handle s), d. split; [reflexivity|]. simpl.
  split_and!; try done.
  - unfold fresh_handle. apply (not_elem_of_dom (D := gset handle)), is_fresh.
  - unfold dict_at. simpl. rewrite lookup_insert_eq. simpl. by rewrite lookup_insert_eq.
Qed.

Lemma do_task_finally_handles t s :
  let s' := (do_task_finally t s).1 in
  st_handles s' = st_handles s ∨
  ∃ h, dict_at t s !! "ds" = Some (VDs h) ∧
       st_handles s' = alter (λ x, (x.1, false)) h (st_handles s).
Proof.
  unfold do_task_finally. rewrite bind_run. unfold dict_contains.
  destruct (dict_at t s !! "ds") as [v|] eqn:Hds.
  - rewrite bool_decide_true by done. rewrite bind_run. unfold dict_get. rewrite Hds.
    destruct v; simpl; try by left. right. by eexists.
  - rewrite bool_decide_false by (by intros [? ?]). by left.
Qed.

Lemma is_open_alter_close h h' (hs : gmap handle (dataset * bool)) s s' :
  st_handles s' = alter (λ x, (x.1, false)) h' hs →
  st_handles s = hs →
  is_open h s' = true → is_open h s = true.
Proof.
  intros Hs' Hs. unfold is_open. rewrite Hs', Hs, lookup_alter.
  destruct (decide (h' = h)) as [->|?]; [|done].
  by destruct (hs !! h) as [[? ?]|].
Qed.

(** The rest of a call, from the call of the extraction function on, keeps
    store and handles. *)
Lemma rest_and_handler_quiet t f fns s1 :
  let r := body_rest E t f fns s1 in
  let r' := match r.2 with
            | inl e => @do_task_handler (option (list (yearmonth * dataset))) f e r.1
            | inr a => (r.1, inr a)
            end in
  quiet s1 r'.1.
Proof.
  intros r r'. pose proof (body_rest_quiet E t f fns s1) as Hq. fold r in Hq.
  subst r'. destruct (r.2) as [e|a]; [|exact Hq].
  etrans; [exact Hq|]. apply do_task_handler_quiet.
Qed.

(** X6: the call leaves no dataset open that was not open before, for
    every descriptor and on every exit path. *)
Theorem cutout_do_task_no_open_handle_left task write_to_file s h :
  is_open h (cutout_do_task E task write_to_file s).1 = true → is_open h s = true.
Proof.
  rewrite cutout_do_task_run. unfold after_copy.
  rewrite bind_run. unfold dict_pop at 1. rewrite dict_at_insert.
  destruct (dict_at task s !! "prepare_func") as [f|]; [|done].
  rewrite bind_run.
  set (s1 := with_heap _ (with_heap _ s)).
  assert (∀ s2 fns,
    st_handles s2 = st_handles s →
    is_open h (try_finally (try_except (do_task_body E (fresh_loc s) f fns)
                                       (do_task_handler f))
                           (do_task_finally (fresh_loc s)) s2).1 = true →
    is_open h s = true) as Hblock.
  { clear s1. intros s2 fns Hs2. set (t := fresh_loc s).
    unfold try_finally, try_except.
    destruct (do_task_body_cases t f fns s2)
      as [(s3 & -> & Hh3 & _)|[(s3 & e & -> & Hh3 & _)|(s3 & h0 & d & -> & Hh3 & Hfresh & Hds & _)]].
    - pose proof (rest_and_handler_quiet t f fns s3) as Hq. simpl in Hq.
      destruct (body_rest E t f fns s3) as [s4 r4]. simpl in Hq.
      destruct (match r4 with inl e => _ | inr a => _ end) as [s5 r5]. simpl in Hq.
      destruct Hq as (_ & Hh5 & _).
      pose proof (do_task_finally_handles t s5) as Hfin.
      destruct (do_task_finally t s5) as [s6 [e|[]]]; simpl in *;
        (destruct Hfin as [Hfin|(h' & _ & Hfin)];
         [unfold is_open; by rewrite Hfin, Hh5, Hh3, Hs2
         |intros Hopen; eapply (is_open_alter_close h h' _ s s6) in Hopen; [done|exact Hfin|];
          by rewrite Hh5, Hh3, Hs2]).
    - pose proof (do_task_handler_quiet (A := option (list (yearmonth * dataset))) f e s3)
        as Hq.
      destruct (do_task_handler f e s3) as [s5 r5]. simpl in Hq.
      destruct Hq as (_ & Hh5 & _).
      pose proof (do_task_finally_handles t s5) as Hfin.
      destruct (do_task_finally t s5) as [s6 [e'|[]]]; simpl in *;
        (destruct Hfin as [Hfin|(h' & _ & Hfin)];
         [unfold is_open; by rewrite Hfin, Hh5, Hh3, Hs2
         |intros Hopen; eapply (is_open_alter_close h h' _ s s6) in Hopen; [done|exact Hfin|];
          by rewrite Hh5, Hh3, Hs2]).
    - pose proof (rest_and_handler_quiet t f fns s3) as Hq. simpl in Hq.
      destruct (body_rest E t f fns s3) as [s4 r4]. simpl in Hq.
      destruct (match r4 with inl e => _ | inr a => _ end) as [s5 r5]. simpl in Hq.
      destruct Hq as (Hheap5 & Hh5 & _).
      assert (dict_at t s5 !! "ds" = Some (VDs h0)) as Hds5
        by (unfold dict_at; rewrite Hheap5; exact Hds).
      pose proof (do_task_finally_handles t s5) as Hfin.
      assert (st_handles (do_task_finally t s5).1
              = alter (λ x, (x.1, false)) h0 (st_handles s5)) as Hclosed.
      { unfold do_task_finally. rewrite bind_run. unfold dict_contains.
        rewrite Hds5, bool_decide_true by done. rewrite bind_run.
        unfold dict_get. by rewrite Hds5. }
      clear Hfin.
      destruct (do_task_finally t s5) as [s6 [e'|[]]]; simpl in *;
        (unfold is_open; rewrite Hclosed, Hh5, Hh3, Hs2, lookup_alter;
         destruct (decide (h0 = h)) as [->|?];
         [by rewrite lookup_insert_eq | by rewrite lookup_insert_ne]). }
  destruct write_to_file.
  - unfold fmap, M_fmap, dict_pop. 
    destruct (dict_at (fresh_loc s) s1 !! "datasetfns") as [fns|]; [|done].
    by apply Hblock.
  - by apply Hblock.
Qed.

(** X7: when the input file of the descriptor does not exist, the error of
    opening it is logged and raised like an error of the extraction
    function; the extraction function is not called and nothing is
    written. *)
Theorem cutout_do_task_input_missing task write_to_file s n fns p engine :
  dict_at task s !! "prepare_func" = Some (VFunc n) →
  (write_to_file = true → dict_at task s !! "datasetfns" = Some fns) →
  dict_at task s !! "fn" = Some (VStr p) →
  dict_at task s !! "engine" = Some engine →
  dict_at task s !! "ds" = None →
  st_files s !! p = None →
  ∃ s', cutout_do_task E task write_to_file s
        = (s', inl (Exn OSError [VInt 2; VStr "No such file or directory"])) ∧
        st_trace s' = st_trace s ++ [EvLog ERROR handler_template [VStr n; VInt 2]] ∧
        st_files s' = st_files s ∧ st_handles s' = st_handles s.
Proof.
  intros Hf Hfns Hfn Heng Hds Hfile.
  rewrite (cutout_do_task_block task write_to_file s (VFunc n) fns Hf Hfns).
  set (t := fresh_loc s). set (s2 := block_state task write_to_file s).
  assert (dict_at t s2 !! "fn" = Some (VStr p)) as Hfn2
    by (unfold t, s2; by rewrite dict_at_block, remaining_lookup).
  assert (dict_at t s2 !! "engine" = Some engine) as Heng2
    by (unfold t, s2; by rewrite dict_at_block, remaining_lookup).
  assert (dict_at t s2 !! "ds" = None) as Hds2
    by (unfold t, s2; by rewrite dict_at_block, remaining_lookup).
  unfold try_finally, try_except.
  assert (∃ s3, do_task_body E t (VFunc n) (if write_to_file then Some fns else None) s2
                = (s3, inl (Exn OSError [VInt 2; VStr "No such file or directory"])) ∧
                st_trace s3 = st_trace s ∧ st_files s3 = st_files s ∧
                st_handles s3 = st_handles s ∧ dict_at t s3 !! "ds" = None)
    as (s3 & -> & Htr3 & Hf3 & Hh3 & Hds3).
  { unfold do_task_body. rewrite bind_run. unfold dict_contains at 1.
    rewrite Hfn2, bool_decide_true by done.
    rewrite bind_run. rewrite bind_run. unfold dict_pop at 1. rewrite Hfn2.
    rewrite bind_run. unfold dict_pop at 1. rewrite dict_at_insert.
    rewrite lookup_delete_ne, Heng2 by done.
    rewrite bind_run. unfold open_dataset, open_file. simpl. rewrite Hfile.
    eexists. split; [reflexivity|]. simpl. split_and!; try done.
    unfold dict_at. simpl. rewrite lookup_insert_eq. simpl.
    by rewrite !lookup_delete_ne. }
  unfold do_task_handler. cbv [mbind M_bind func_name exn_arg0 mret M_ret log modify raise].
  simpl. rewrite do_task_finally_skip by exact Hds3.
  eexists. split; [reflexivity|]. simpl. by rewrite Htr3.
Qed.
End ExecutorEdges.


Lemma cutout_do_task_missing_key_witness :
  ∃ s' k, cutout_do_task (Sample.E None) 1%nat true Sample.keyless_state
          = (s', inl (Exn KeyError [VStr k])) ∧ st_trace s' = [].
Proof.
  destruct (cutout_do_task_missing_key (Sample.E None) 1%nat true Sample.keyless_state)
    as (s' & k & Hrun & _ & Htr & _).
  - left. reflexivity.
  - by exists s', k.
Defined.

Lemma cutout_do_task_writes_witness :
  ∃ s', cutout_do_task (Sample.E None) 1%nat true (Sample.no_input_state "prepare_wind")
        = (s', inr None) ∧
        st_files s' = {[ "out/201101-0.nc" := Sample.wind ]}.
Proof.
  destruct (cutout_do_task_writes (Sample.E None) 1%nat (Sample.no_input_state "prepare_wind")
              "prepare_wind" {[ (2011, 1) := "out/201101-0.nc" ]} [((2011, 1), Sample.wind)])
    as (s' & Hrun & Hfiles & _); try reflexivity.
  - intros ym ds Hin. apply list_elem_of_singleton in Hin. injection Hin as -> ->.
    exists "out/201101-0.nc". split; [reflexivity|]. split; vm_compute; reflexivity.
  - exists s'. split; [exact Hrun|]. rewrite Hfiles. vm_compute. reflexivity.
Defined.

Lemma cutout_do_task_unknown_yearmonth_witness :
  ∃ s', cutout_do_task (Sample.E None) 1%nat true Sample.other_month_state
        = (s', inl (Exn KeyError [VYearmonths [(2011, 1)]])) ∧ st_files s' = ∅.
Proof.
  destruct (cutout_do_task_unknown_yearmonth (Sample.E None) 1%nat Sample.other_month_state
              "prepare_wind" {[ (2011, 2) := "out/201102-0.nc" ]} [] (2011, 1) Sample.wind
              [] None)
    as (s' & Hrun & Hfiles & _); try reflexivity.
  - intros ym ds Hin. by apply elem_of_nil in Hin.
  - exists s'. by split.
Defined.

Lemma cutout_do_task_closes_given_dataset_witness :
  is_open 5%nat Sample.given_ds_state = true ∧
  is_open 5%nat (cutout_do_task (Sample.E None) 1%nat false Sample.given_ds_state).1 = false.
Proof.
  split; [reflexivity|].
  apply (cutout_do_task_closes_given_dataset (Sample.E None) 1%nat false Sample.given_ds_state
           (VFunc "prepare_wind") VNone 5%nat); try reflexivity.
  intros H. discriminate H.
Defined.

Lemma cutout_do_task_input_missing_witness :
  ∃ s', cutout_do_task (Sample.E None) 1%nat true Sample.missing_input_state
        = (s', inl (Exn OSError [VInt 2; VStr "No such file or directory"])) ∧
        st_trace s' = [EvLog ERROR handler_template [VStr "prepare_wind"; VInt 2]].
Proof.
  destruct (cutout_do_task_input_missing (Sample.E None) 1%nat true Sample.missing_input_state
              "prepare_wind" (VFns {[ (2011, 1) := "out/201101-0.nc" ]}) "in.nc"
              (VStr "netcdf4"))
    as (s' & Hrun & Htr & _); try reflexivity.
  exists s'. by split.
Defined.

Lemma cutout_do_task_no_open_handle_left_witness :
  is_open 5%nat (cutout_do_task (Sample.E None) 1%nat true Sample.open_handle_state).1 = true ∧
  is_open 5%nat Sample.open_handle_state = true.
Proof.
  assert (is_open 5%nat
            (cutout_do_task (Sample.E None) 1%nat true Sample.open_handle_state).1 = true)
    as Hopen by (vm_compute; reflexivity).
  split; [exact Hopen|].
  exact (cutout_do_task_no_open_handle_left (Sample.E None) 1%nat true
           Sample.open_handle_state 5%nat Hopen).
Defined.
(** * The scheduler: outcomes of a run *)

Section SchedulerEdges.
Context (E : env).

(** The pool is left as it is. *)
Definition same_pool : relation state := λ s s', st_pool s' = st_pool s.

Global Instance same_pool_preorder : PreOrder same_pool.
Proof. split; [done|]. intros s1 s2 s3 H12 H23. unfold same_pool in *. congruence. Qed.

Lemma unlink_dir_kept d p : preserves (dir_kept d) (unlink p).
Proof.
  intros s [Hd Hf]. unfold unlink. destruct (st_files s !! p); simpl; [|done].
  split; [done|]. destruct (decide (p = d)) as [->|?].
  - by rewrite lookup_delete_eq.
  - by rewrite lookup_delete_ne.
Qed.

Lemma preserves_map_M {A B} R `{!PreOrder R} (f : A → M B) l :
  (∀ x, preserves R (f x)) → preserves R (map_M f l).
Proof.
  intros Hf. induction l as [|x l IH]; simpl.
  - by apply preserves_ret.
  - apply preserves_bind; [done | apply Hf | intros y].
    apply preserves_bind; [done | apply IH | intros ys]. by apply preserves_ret.
Qed.

Local Hint Resolve to_netcdf_dir_kept unlink_dir_kept : frame.

Lemma open_mfdataset_same_fs fns : preserves same_fs (open_mfdataset fns).
Proof.
  unfold open_mfdataset. destruct fns; [solve_prim|].
  apply preserves_bind; [apply _ | | intros hs]; [apply preserves_map_M; [apply _|]|];
    preserves_tac.
Qed.

Lemma open_mfdataset_same_cutout fns : preserves same_cutout (open_mfdataset fns).
Proof.
  unfold open_mfdataset. destruct fns; [solve_prim|].
  apply preserves_bind; [apply _ | | intros hs]; [apply preserves_map_M; [apply _|]|];
    preserves_tac.
Qed.

Local Hint Resolve open_mfdataset_same_fs open_mfdataset_same_cutout : frame.

Lemma merge_month_dir_kept d gh fn : preserves (dir_kept d) (merge_month gh fn).
Proof. unfold merge_month. preserves_tac. Qed.

Lemma merge_month_same_cutout gh fn : preserves same_cutout (merge_month gh fn).
Proof. unfold merge_month. preserves_tac. Qed.

Ltac pool_prim := solve [ prim_run; unfold same_pool; simpl; done ].

Local Hint Extern 1 (preserves same_pool (glob _)) => pool_prim : frame.
Local Hint Extern 1 (preserves same_pool (open_file _)) => pool_prim : frame.
Local Hint Extern 1 (preserves same_pool (ds_close _)) => pool_prim : frame.
Local Hint Extern 1 (preserves same_pool (to_netcdf _ _)) => pool_prim : frame.
Local Hint Extern 1 (preserves same_pool (unlink _)) => pool_prim : frame.
Local Hint Extern 1 (preserves same_pool (log _ _ _)) => pool_prim : frame.
Local Hint Extern 1 (preserves same_pool get_cutout) => pool_prim : frame.
Local Hint Extern 1 (preserves same_pool (ds_get_var _ _)) => pool_prim : frame.
Local Hint Extern 1 (preserves same_pool (lift_result _)) => pool_prim : frame.

Lemma open_mfdataset_same_pool fns : preserves same_pool (open_mfdataset fns).
Proof.
  unfold open_mfdataset. destruct fns; [pool_prim|].
  apply preserves_bind; [apply _ | | intros hs]; [apply preserves_map_M; [apply _|]|];
    preserves_tac.
Qed.

Local Hint Resolve open_mfdataset_same_pool : frame.

Lemma merge_month_same_pool gh fn : preserves same_pool (merge_month gh fn).
Proof. unfold merge_month. preserves_tac. Qed.

Local Hint Resolve merge_month_dir_kept merge_month_same_cutout merge_month_same_pool : frame.

Lemma abort_handler_cutout_kept {A} c e : preserves cutout_kept (@abort_handler A c e).
Proof. unfold abort_handler. preserves_tac. Qed.

(** An exception leaves [R] in place when every statement but the last
    preserves [R] and the last one cannot raise. *)
Definition raises_within {A} (R : relation state) (m : M A) : Prop :=
  ∀ s s' e, m s = (s', inl e) → R s s'.

Lemma raises_within_bind {A B} R `{!PreOrder R} (m : M A) (f : A → M B) :
  preserves R m → (∀ x, raises_within R (f x)) → raises_within R (m ≫= f).
Proof.
  intros Hm Hf s s' e. rewrite bind_run. specialize (Hm s).
  destruct (m s) as [s1 [e1|x]]; simpl in *.
  - by intros [= <- <-].
  - intros H. etrans; [exact Hm | by eapply Hf].
Qed.

Lemma cutout_prepare_raises_within ow np gh order :
  raises_within cutout_kept (cutout_prepare E ow np gh order).
Proof.
  unfold cutout_prepare.
  apply raises_within_bind; [apply _ | apply prepare_setup_cutout_kept | intros tasks].
  apply raises_within_bind; [apply _ | preserves_tac | intros c].
  apply raises_within_bind; [apply _ | | intros _].
  { apply preserves_try_except; [apply _ | | intros e; apply abort_handler_cutout_kept].
    apply pool_map_preserves; [apply _|]. intros t.
    eapply preserves_weaken; [apply _ | apply cutout_do_task_same_cutout]. }
  apply raises_within_bind; [apply _ | preserves_tac | intros _].
  apply raises_within_bind; [apply _ | preserves_tac | intros _].
  apply raises_within_bind; [apply _ | preserves_tac | intros _].
  apply raises_within_bind; [apply _ | preserves_tac | intros _].
  intros s s' e H. discriminate H.
Qed.

Definition done_template : string := "Cutout '%s' has been successfully prepared".

(** X8: [cutout_prepare] marks the cutout prepared exactly when it returns
    normally: then the pool has been closed, the output directory exists
    and the last log line announces the success; when it raises, at any
    stage, the [prepared] flag is what it was before the call. *)
Theorem cutout_prepare_marks_prepared overwrite nprocesses gebco_height order s s' r :
  cutout_prepare E overwrite nprocesses gebco_height order s = (s', r) →
  match r with
  | inr _ =>
      prepared (st_cutout s') = true ∧ st_pool s' = PoolClosed ∧
      cutout_dir (st_cutout s) ∈ st_dirs s' ∧
      last (st_trace s') = Some (EvLog INFO done_template [VStr (name (st_cutout s))])
  | inl _ => prepared (st_cutout s') = prepared (st_cutout s)
  end.
Proof.
  intros Hrun. destruct r as [e|[]].
  { by destruct (cutout_prepare_raises_within _ _ _ _ _ _ _ Hrun) as [? _]. }
  unfold cutout_prepare in Hrun.
  apply bind_inr_inv in Hrun as (s1 & tasks & Hsetup & Hrun).
  destruct (prepare_setup_post _ _ _ _ _ _ _ Hsetup) as [Hfresh Hkept].
  set (d := cutout_dir (st_cutout s)) in *.
  apply bind_inr_inv in Hrun as (? & c & [= <- <-] & Hrun).
  apply bind_inr_inv in Hrun as (s2 & [] & Htry & Hrun).
  assert (dir_kept d s1 s2 ∧ same_cutout s1 s2) as [Hd2 Hc2].
  { unfold try_except in Htry. destruct (pool_map E order tasks s1) as [s2' [e|[]]] eqn:Hmap.
    - unfold abort_handler in Htry. do 3 (apply bind_inr_inv in Htry as (? & ? & _ & Htry)).
      discriminate Htry.
    - injection Htry as ->. split.
      + eapply preserves_run, Hmap. apply pool_map_preserves; [apply _|].
        intros t. apply cutout_do_task_dir_kept.
      + eapply preserves_run, Hmap. apply pool_map_preserves; [apply _|].
        intros t. apply cutout_do_task_same_cutout. }
  apply bind_inr_inv in Hrun as (? & [] & [= <-] & Hrun).
  apply bind_inr_inv in Hrun as (? & [] & [= <-] & Hrun).
  apply bind_inr_inv in Hrun as (s3 & [] & Hmerge & Hrun).
  apply bind_inr_inv in Hrun as (? & [] & [= <-] & Hrun).
  injection Hrun as <-.
  match type of Hmerge with for_each _ _ ?s0 = _ => set (s2' := s0) in * end.
  assert (dir_kept d s2' s3) as Hd3.
  { eapply (preserves_run _ (for_each _ _)), Hmerge. preserves_tac. }
  assert (same_pool s2' s3) as Hp3.
  { eapply (preserves_run _ (for_each _ _)), Hmerge. preserves_tac. }
  destruct Hfresh as (_ & _ & Hin & Hnf).
  destruct (Hd3 (Hd2 (conj Hin Hnf))) as [Hin3 _].
  destruct Hkept as (_ & Hname & _).
  simpl. split_and!; [done | by rewrite Hp3 | done |].
  rewrite last_snoc. unfold done_template. by rewrite Hname.
Qed.

Definition merging_template : string := "Merging variables into monthly compound files".

(** X9: an exception in the merge stage is not handled: it reaches the
    caller, the pool stays closed (it is not terminated), the output
    directory is not purged, and the cutout is not marked prepared. *)
Theorem cutout_prepare_merge_failure overwrite nprocesses gebco_height order
    s s1 tasks s2 s3 e :
  prepare_setup E overwrite nprocesses gebco_height s = (s1, inr tasks) →
  pool_map E order tasks s1 = (s2, inr ()) →
  let c := st_cutout s in
  for_each ((λ ym, datasetfn c (Some ym)) <$> coords_yearmonth c) (merge_month gebco_height)
    (emit (EvLog INFO merging_template []) (emit EvPoolClose (with_pool PoolClosed s2)))
  = (s3, inl e) →
  cutout_prepare E overwrite nprocesses gebco_height order s = (s3, inl e) ∧
  st_pool s3 = PoolClosed ∧
  cutout_dir c ∈ st_dirs s3 ∧
  prepared (st_cutout s3) = prepared c.
Proof.
  intros Hsetup Hmap c Hmerge.
  destruct (prepare_setup_post _ _ _ _ _ _ _ Hsetup) as [Hfresh Hkept].
  assert (cutout_prepare E overwrite nprocesses gebco_height order s = (s3, inl e)) as Hrun.
  { unfold cutout_prepare. rewrite bind_run, Hsetup. rewrite bind_run. simpl.
    rewrite bind_run. unfold try_except. rewrite Hmap.
    rewrite bind_run. simpl. rewrite bind_run. simpl.
    destruct Hkept as (_ & _ & _ & _ & _ & Hym & _ & Hfn).
    rewrite bind_run, Hfn, Hym. fold c. unfold merging_template in Hmerge.
    by rewrite Hmerge. }
  split; [done|].
  match type of Hmerge with for_each _ _ ?s0 = _ => set (s2' := s0) in * end.
  assert (dir_kept (cutout_dir c) s1 s2) as Hd2.
  { eapply preserves_run, Hmap. apply pool_map_preserves; [apply _|].
    intros t. apply cutout_do_task_dir_kept. }
  assert (dir_kept (cutout_dir c) s2' s3) as Hd3.
  { eapply (preserves_run _ (for_each _ _)), Hmerge. preserves_tac. }
  assert (same_pool s2' s3) as Hp3.
  { eapply (preserves_run _ (for_each _ _)), Hmerge. preserves_tac. }
  destruct Hfresh as (_ & _ & Hin & Hnf).
  destruct (Hd3 (Hd2 (conj Hin Hnf))) as [Hin3 _].
  split_and!; [by rewrite Hp3 | done |].
  by destruct (cutout_prepare_raises_within _ _ _ _ _ _ _ Hrun) as [? _].
Qed.

Lemma filter_none {A} (P : A → Prop) `{!∀ x, Decision (P x)} (l : list A) :
  (∀ x, x ∈ l → ¬ P x) → filter P l = [].
Proof.
  induction l as [|x l IH]; intros Hl; [done|].
  rewrite filter_cons_False by (apply Hl; left). apply IH. intros y Hy. apply Hl. by right.
Qed.

(** X10: a month for which no partial file is found cannot be merged:
    [open_mfdataset] is given an empty list and raises [OSError]; nothing is
    written, deleted or logged. *)
Theorem merge_month_nothing_to_merge gebco_height fn s :
  (∀ p, p ∈ dom (st_files s) ∪ st_dirs s →
        glob_match ((splitext fn).1 +:+ "-*" +:+ (splitext fn).2) p = false) →
  merge_month gebco_height fn s = (s, inl (Exn OSError [VStr "no files to open"])).
Proof.
  intros Hnone. unfold merge_month. destruct (splitext fn) as [base ext]. simpl in Hnone.
  rewrite bind_run. unfold glob.
  assert (filter (λ p, glob_match (base +:+ "-*" +:+ ext) p = true)
            (elements (dom (st_files s) ∪ st_dirs s)) = []) as ->; [|done].
  apply filter_none. intros p Hp%elem_of_elements. by rewrite (Hnone p Hp).
Qed.
End SchedulerEdges.

(** * The scheduler: the output directory is reset *)

Section Reset.
Context (E : env).

Lemma prefix_trans a : ∀ b c, String.prefix a b = true → String.prefix b c = true →
  String.prefix a c = true.
Proof.
  induction a as [|x a IH]; intros b c Hab Hbc; [by destruct c|].
  destruct b as [|y b]; [done|]. destruct c as [|z c]; [done|]. simpl in *.
  destruct (Ascii.ascii_dec x y) as [->|]; [|done].
  destruct (Ascii.ascii_dec y z) as [->|]; [|done]. by eapply IH.
Qed.

Lemma prefix_app_l a b : ∀ c, String.prefix (a +:+ b) c = true → String.prefix a c = true.
Proof.
  induction a as [|x a IH]; intros c H; [by destruct c|].
  destruct c as [|z c]; [done|]. simpl in *.
  destruct (Ascii.ascii_dec x z) as [->|]; [|done]. by apply IH.
Qed.

Lemma prefix_app_self a b : String.prefix (a +:+ b) a = true → b = "".
Proof.
  induction a as [|x a IH]; simpl.
  - by destruct b.
  - destruct (Ascii.ascii_dec x x); [exact IH | done].
Qed.

Lemma below_trans a b c : below a b = true → below b c = true → below a c = true.
Proof.
  unfold below. intros Hab Hbc. eapply prefix_trans; [exact Hab|].
  by eapply prefix_app_l.
Qed.

Lemma below_irrefl d : below d d = false.
Proof.
  unfold below. destruct (String.prefix (d +:+ "/") d) eqn:H; [|done].
  by apply prefix_app_self in H.
Qed.

(** A directory stays a directory. *)
Definition dir_in (d : string) : relation state :=
  λ s s', d ∈ st_dirs s → d ∈ st_dirs s'.

Global Instance dir_in_preorder d : PreOrder (dir_in d).
Proof. split; [by intros s H|]. intros s1 s2 s3 H12 H23 H. by apply H23, H12. Qed.

Global Instance same_fs_dir_in d : subrelation same_fs (dir_in d).
Proof. intros s s' [Hf Hd] H. by rewrite Hd. Qed.

Lemma mkdtemp_dir_in d : preserves (dir_in d) mkdtemp.
Proof. intros s H. unfold mkdtemp. simpl. set_solver. Qed.

Lemma subprocess_call_dir_in d argv : preserves (dir_in d) (subprocess_call E argv).
Proof.
  intros s H. unfold subprocess_call. destruct (gdalwarp E argv); [|done].
  by destruct (decide _).
Qed.

Local Hint Resolve mkdtemp_dir_in subprocess_call_dir_in
  collect_tasks_same_fs inject_datasetfns_same_fs : frame.
Local Hint Extern 8 (preserves (dir_in _) _) =>
  eapply (preserves_weaken same_fs); [apply _ |] : frame.

(** Nothing lies below [d]. *)
Definition empty_below (d : string) (s : state) : Prop :=
  ∀ p, below d p = true → st_files s !! p = None ∧ p ∉ st_dirs s.

Lemma rmtree_empty_below d s s' :
  rmtree d s = (s', inr ()) → empty_below d s'.
Proof.
  unfold rmtree. destruct (bool_decide _); [|done]. intros [= <-] p Hp. simpl.
  by apply rmtree_below.
Qed.

Lemma rmtree_other_empty_below t d s s' :
  d ∈ st_dirs s → rmtree t s = (s', inr ()) → d ∈ st_dirs s' ∨ empty_below d s'.
Proof.
  unfold rmtree. destruct (bool_decide _); [|done]. intros Hd [= <-]. simpl.
  destruct (decide (d ≠ t ∧ ¬ below t d)) as [Hk|Hk].
  - left. by apply elem_of_filter.
  - right. intros p Hp. apply rmtree_below.
    apply not_and_l in Hk as [Hk|Hk].
    + apply dec_stable in Hk as <-. done.
    + apply dec_stable in Hk. apply Is_true_true in Hk. by eapply below_trans.
Qed.

Lemma _prepare_gebco_height_reset d xs ys s s' h :
  d ∈ st_dirs s →
  _prepare_gebco_height E xs ys s = (s', inr h) →
  d ∈ st_dirs s' ∨ empty_below d s'.
Proof.
  intros Hd H. unfold _prepare_gebco_height in H.
  apply bind_inr_inv in H as (s1 & tmpdir & H1 & H).
  apply bind_inr_inv in H as (s2 & [] & H2 & H).
  apply bind_inr_inv in H as (s3 & tmpfn & H3 & H).
  apply bind_inr_inv in H as (s4 & hd & H4 & H).
  apply bind_inr_inv in H as (s5 & hh & H5 & H).
  apply bind_inr_inv in H as (s6 & [] & H6 & H). injection H as <- <-.
  eapply rmtree_other_empty_below, H6.
  eapply (preserves_run (dir_in d)) in H1; [|preserves_tac].
  eapply (preserves_run (dir_in d)) in H2; [|preserves_tac].
  eapply (preserves_run (dir_in d)) in H3; [|preserves_tac].
  eapply (preserves_run (dir_in d)) in H4; [|preserves_tac].
  eapply (preserves_run (dir_in d)) in H5; [|preserves_tac].
  by apply H5, H4, H3, H2, H1.
Qed.

(** X11: an output directory that exists is emptied: when the set-up of
    [cutout_prepare] returns, the primary metadata file has been written, no
    directory lies below the output directory, and no file does, except the
    metadata file if that is where the cutout keeps it. *)
Theorem prepare_setup_resets_directory overwrite nprocesses gebco_height s s1 tasks :
  let c := st_cutout s in
  cutout_dir c ∈ st_dirs s →
  prepare_setup E overwrite nprocesses gebco_height s = (s1, inr tasks) →
  is_Some (st_files s1 !! datasetfn c None) ∧
  ∀ p, below (cutout_dir c) p = true →
       (is_Some (st_files s1 !! p) → p = datasetfn c None) ∧ p ∉ st_dirs s1.
Proof.
  intros c Hd H. unfold prepare_setup in H.
  apply bind_inr_inv in H as (? & ? & [= <- <-] & H). fold c in H.
  apply bind_inr_inv in H as (s2 & [] & H2 & H).
  apply bind_inr_inv in H as (s3 & [] & H3 & H).
  apply bind_inr_inv in H as (s4 & [] & H4 & H).
  apply bind_inr_inv in H as (? & ? & [= <- <-] & H).
  apply bind_inr_inv in H as (s5 & [] & H5 & H).
  apply bind_inr_inv in H as (s6 & [] & H6 & H).
  apply bind_inr_inv in H as (? & c' & [= <- <-] & H).
  apply bind_inr_inv in H as (s7 & m & H7 & H).
  apply bind_inr_inv in H as (s8 & [] & H8 & H).
  set (d := cutout_dir c) in *.
  assert (d ∈ st_dirs s4 ∨ empty_below d s4) as Hs4.
  { eapply (preserves_run (dir_in d)) in H2; [|preserves_tac].
    eapply (preserves_run (dir_in d)) in H3; [|preserves_tac].
    destruct gebco_height.
    - apply bind_inr_inv in H4 as (s3' & [] & H3' & H4).
      eapply (preserves_run (dir_in d)) in H3'; [|preserves_tac].
      apply bind_inr_inv in H4 as (s3'' & h & Hg & H4).
      injection H4 as <-.
      eapply _prepare_gebco_height_reset in Hg; [exact Hg|]. by apply H3', H3, H2.
    - injection H4 as <-. left. by apply H3, H2. }
  assert (empty_below d s5) as Hs5.
  { destruct (isdir d s4) eqn:Hisdir.
    - apply bind_inr_inv in H5 as (? & [] & [= <-] & H5).
      by eapply rmtree_empty_below.
    - injection H5 as <-. destruct Hs4 as [Hin|]; [|done].
      apply bool_decide_eq_false in Hisdir. destruct Hisdir. by right; right. }
  assert (same_fs s8 s1) as [Hf1 Hd1].
  { eapply preserves_run, H. preserves_tac. }
  assert (same_fs s6 s7) as [Hf7 Hd7].
  { eapply preserves_run, H7. preserves_tac. }
  unfold mkdir in H6. destruct (exists_path d s5); [done|].
  destruct (isdir (dirname d) s5); [|done]. injection H6 as <-.
  unfold to_netcdf in H8.
  match type of H8 with (if ?b then _ else _) = _ => destruct b end; [|done].
  injection H8 as <-.
  rewrite Hf1, Hd1. simpl. rewrite Hf7, Hd7. simpl. split.
  - by rewrite lookup_insert_eq.
  - intros p Hp. destruct (Hs5 p Hp) as [Hnf Hnd]. split.
    + intros Hsome. destruct (decide (p = datasetfn c None)) as [|Hne]; [done|].
      rewrite lookup_insert_ne, Hnf in Hsome by done. by destruct Hsome.
    + intros [->%elem_of_singleton|?]%elem_of_union; [|done].
      by rewrite below_irrefl in Hp.
Qed.
End Reset.

Lemma cutout_prepare_marks_prepared_witness :
  let s := Sample.s Sample.c "prepare_wind" in
  let r := cutout_prepare (Sample.E None) true None false [0%nat; 1%nat] s in
  prepared (st_cutout s) = false ∧ prepared (st_cutout r.1) = true ∧ st_pool r.1 = PoolClosed.
Proof.
  intros s r. split; [reflexivity|].
  assert (r = (r.1, inr tt)) as Hr by (apply pair_eta_inr; vm_compute; reflexivity).
  destruct (cutout_prepare_marks_prepared (Sample.E None) true None false [0%nat; 1%nat]
              s r.1 (inr tt) Hr) as (Hprep & Hpool & _).
  by split.
Defined.

Lemma cutout_prepare_merge_failure_witness :
  let s := Sample.s Sample.idle_cutout "prepare_wind" in
  ∃ s3, cutout_prepare (Sample.E None) true None false [] s
        = (s3, inl (Exn OSError [VStr "no files to open"])) ∧
        st_pool s3 = PoolClosed ∧ "out" ∈ st_dirs s3 ∧ prepared (st_cutout s3) = false.
Proof.
  intros s.
  set (r1 := prepare_setup (Sample.E None) true None false s).
  set (r2 := pool_map (Sample.E None) [] [] r1.1).
  set (r3 := for_each ((λ ym, Sample.fn (Some ym)) <$> [(2011, 1)]) (merge_month false)
               (emit (EvLog INFO merging_template [])
                  (emit EvPoolClose (with_pool PoolClosed r2.1)))).
  destruct (cutout_prepare_merge_failure (Sample.E None) true None false [] s
              r1.1 [] r2.1 r3.1 (Exn OSError [VStr "no files to open"]))
    as (Hrun & Hpool & Hdir & Hprep).
  - apply pair_eta_inr. vm_compute. reflexivity.
  - apply pair_eta_inr. vm_compute. reflexivity.
  - apply pair_eta_inl. vm_compute. reflexivity.
  - exists r3.1. by split_and!.
Defined.

Lemma merge_month_nothing_to_merge_witness :
  let s := Sample.s Sample.c "prepare_wind" in
  merge_month false "out/201101.nc" s = (s, inl (Exn OSError [VStr "no files to open"])).
Proof.
  intros s.
  assert (elements (dom (st_files s) ∪ st_dirs s) = ["out"; "gebco.nc"; "in.nc"]) as Hel
    by (vm_compute; reflexivity).
  assert (Forall (λ p, glob_match ("out/201101" +:+ "-*" +:+ ".nc") p = false)
            (elements (dom (st_files s) ∪ st_dirs s))) as Hall.
  { rewrite Hel. repeat constructor. }
  apply (merge_month_nothing_to_merge false "out/201101.nc" s).
  intros p Hp. exact (proj1 (Forall_forall _ _) Hall p (proj2 (elem_of_elements _ p) Hp)).
Defined.

Lemma prepare_setup_resets_directory_witness :
  ∃ s1 tasks, prepare_setup (Sample.E None) true None true Sample.stale_state
              = (s1, inr tasks) ∧
              st_files s1 !! "out/201001.nc" = None ∧ ("out/old" ∉ st_dirs s1) ∧
              is_Some (st_files s1 !! "out/meta.nc").
Proof.
  set (r := prepare_setup (Sample.E None) true None true Sample.stale_state).
  assert (r = (r.1, inr [1%nat; 2%nat])) as Hr by (apply pair_eta_inr; vm_compute; reflexivity).
  destruct (prepare_setup_resets_directory (Sample.E None) true None true Sample.stale_state
              r.1 [1%nat; 2%nat]) as [Hmeta Hbelow].
  - apply elem_of_union. left. by apply elem_of_singleton.
  - exact Hr.
  - exists r.1, [1%nat; 2%nat]. split; [exact Hr|]. split_and!.
    + destruct (Hbelow "out/201001.nc" eq_refl) as [Hfile _].
      destruct (st_files r.1 !! "out/201001.nc") as [d|]; [|done].
      specialize (Hfile (mk_is_Some _ _ eq_refl)). discriminate Hfile.
    + by destruct (Hbelow "out/old" eq_refl) as [_ Hdir].
    + exact Hmeta.
Defined.
(** * The call of the task-generating functions *)

Section SeriesEdges.
Context (E : env).

Lemma series_tasks_no_tasks_func series yearmonths s :
  series !! "tasks_func" = None →
  series_tasks E series yearmonths s = (s, inl (Exn KeyError [VStr "tasks_func"])).
Proof.
  intros Hf. unfold series_tasks. cbv [mbind M_bind get_cutout pop_local].
  rewrite lookup_insert_ne by done. by rewrite Hf.
Qed.

(** X12: what a task-generating function is called with: the two axes of
    the cutout, the year-months, the attribute dict of the cutout's
    metadata itself (not a copy; an entry ['meta_attrs'] of the series is
    replaced by it), and every other entry of the series but ['tasks_func'].
    This is the call made by [cutout_prepare] for each series and by
    [cutout_produce_specific_dataseries] for the one it previews. *)
Theorem series_tasks_kwargs series yearmonths s n :
  series !! "tasks_func" = Some (VFunc n) →
  series !! "xs" = None → series !! "ys" = None → series !! "yearmonths" = None →
  let c := st_cutout s in
  ∃ kwargs : pydict,
    series_tasks E series yearmonths s
    = run_tasks_func E n kwargs (emit (EvCall n kwargs) s) ∧
    kwargs !! "xs" = Some (VAxis (coords_x c)) ∧
    kwargs !! "ys" = Some (VAxis (coords_y c)) ∧
    kwargs !! "yearmonths" = Some (VYearmonths yearmonths) ∧
    kwargs !! "meta_attrs" = Some (VRef (meta_attrs c)) ∧
    kwargs !! "tasks_func" = None ∧
    ∀ k, k ∉ ["xs"; "ys"; "yearmonths"; "meta_attrs"; "tasks_func"] →
         kwargs !! k = series !! k.
Proof.
  intros Hf Hxs Hys Hyms c. unfold series_tasks.
  cbv [mbind M_bind get_cutout pop_local]. fold c.
  rewrite lookup_insert_ne by done. rewrite Hf.
  cbv [mret M_ret kwargs_with].
  rewrite bool_decide_false.
  2:{ rewrite !Exists_cons, Exists_nil. simpl.
      rewrite !lookup_delete_ne by done. rewrite !lookup_insert_ne by done.
      rewrite Hxs, Hys, Hyms.
      intros [[? ?]|[[? ?]|[[? ?]|[]]]]; done. }
  eexists. split; [reflexivity|].
  rewrite !list_to_map_cons, list_to_map_nil.
  split_and!.
  - apply lookup_union_Some_l. by rewrite lookup_insert_eq.
  - apply lookup_union_Some_l. by rewrite lookup_insert_ne, lookup_insert_eq by done.
  - apply lookup_union_Some_l. by rewrite !lookup_insert_ne, lookup_insert_eq by done.
  - rewrite lookup_union_r by (by rewrite !lookup_insert_ne by done).
    by rewrite lookup_delete_ne, lookup_insert_eq by done.
  - apply lookup_union_None_2.
    + by rewrite !lookup_insert_ne by done.
    + by rewrite lookup_delete_eq.
  - intros k Hk. rewrite !not_elem_of_cons in Hk.
    destruct Hk as (? & ? & ? & ? & ? & _).
    rewrite lookup_union_r by (by rewrite !lookup_insert_ne by done).
    by rewrite lookup_delete_ne, lookup_insert_ne by done.
Qed.

(** X13: a series that cannot be turned into a call is rejected before
    anything is called: without ['tasks_func'] the pop raises [KeyError];
    with an entry named like one of the explicit keywords ([xs], [ys],
    [yearmonths]) the call raises [TypeError].  The state is left as it
    is. *)
Theorem series_tasks_bad_series series yearmonths s :
  (series !! "tasks_func" = None →
   series_tasks E series yearmonths s = (s, inl (Exn KeyError [VStr "tasks_func"]))) ∧
  (is_Some (series !! "tasks_func") →
   is_Some (series !! "xs") ∨ is_Some (series !! "ys") ∨ is_Some (series !! "yearmonths") →
   ∃ e, series_tasks E series yearmonths s = (s, inl e) ∧ exc_class e = TypeError).
Proof.
  split; [apply series_tasks_no_tasks_func|].
  intros [f Hf] Hdup. unfold series_tasks. cbv [mbind M_bind get_cutout pop_local].
  rewrite lookup_insert_ne by done. rewrite Hf.
  cbv [mret M_ret kwargs_with]. rewrite bool_decide_true.
  - by eexists.
  - rewrite !Exists_cons. simpl. rewrite !lookup_delete_ne by done.
    rewrite !lookup_insert_ne by done. tauto.
Qed.

(** X14: the preview of a series that the cutout does not have raises
    [KeyError] with the name asked for, and the preview of a series without
    ['tasks_func'] raises [KeyError] for that key; in both cases nothing has
    been called, logged or opened. *)
Theorem cutout_produce_specific_dataseries_bad_config yearmonth series_name s :
  let config : gmap string pydict := list_to_map (weather_data_config (st_cutout s)) in
  (config !! series_name = None →
   cutout_produce_specific_dataseries E yearmonth series_name s
   = (s, inl (Exn KeyError [VStr series_name]))) ∧
  (∀ series, config !! series_name = Some series → series !! "tasks_func" = None →
   cutout_produce_specific_dataseries E yearmonth series_name s
   = (s, inl (Exn KeyError [VStr "tasks_func"]))).
Proof.
  intros config. split.
  - intros Hnone. unfold cutout_produce_specific_dataseries.
    rewrite bind_run. unfold get_cutout. rewrite bind_run. fold config. by rewrite Hnone.
  - intros series Hsome Hf. unfold cutout_produce_specific_dataseries.
    rewrite bind_run. unfold get_cutout at 1. rewrite bind_run. fold config. rewrite Hsome.
    simpl. rewrite bind_run. by rewrite series_tasks_no_tasks_func.
Qed.
End SeriesEdges.

Lemma series_tasks_kwargs_witness :
  let s := Sample.s Sample.c "prepare_wind" in
  ∃ kwargs : pydict,
    (series_tasks (Sample.E None) Sample.described_series [(2011, 1)] s).2 = inr [2%nat] ∧
    series_tasks (Sample.E None) Sample.described_series [(2011, 1)] s
    = run_tasks_func (Sample.E None) "tasks_wind" kwargs (emit (EvCall "tasks_wind" kwargs) s) ∧
    kwargs !! "meta_attrs" = Some (VRef 0%nat) ∧
    kwargs !! "module" = Some (VStr "era5").
Proof.
  intros s.
  destruct (series_tasks_kwargs (Sample.E None) Sample.described_series [(2011, 1)] s
              "tasks_wind") as (kwargs & Hrun & _ & _ & _ & Hattrs & _ & Hrest);
    try reflexivity.
  exists kwargs. split_and!.
  - vm_compute. reflexivity.
  - exact Hrun.
  - exact Hattrs.
  - rewrite Hrest; [reflexivity|].
    rewrite !not_elem_of_cons. split_and!; try discriminate. apply not_elem_of_nil.
Defined.

Lemma series_tasks_bad_series_witness :
  let s := Sample.s Sample.c "prepare_wind" in
  series_tasks (Sample.E None) {[ "module" := VStr "era5" ]} [(2011, 1)] s
  = (s, inl (Exn KeyError [VStr "tasks_func"])) ∧
  ∃ e, series_tasks (Sample.E None)
         {[ "tasks_func" := VFunc "tasks_wind"; "xs" := VAxis [7] ]} [(2011, 1)] s
       = (s, inl e) ∧ exc_class e = TypeError.
Proof.
  intros s. split.
  - apply (series_tasks_bad_series (Sample.E None) {[ "module" := VStr "era5" ]}
             [(2011, 1)] s). reflexivity.
  - apply (series_tasks_bad_series (Sample.E None)
             {[ "tasks_func" := VFunc "tasks_wind"; "xs" := VAxis [7] ]} [(2011, 1)] s).
    + by eexists.
    + left. by eexists.
Defined.

Lemma cutout_produce_specific_dataseries_bad_config_witness :
  let s := Sample.s Sample.c "prepare_wind" in
  cutout_produce_specific_dataseries (Sample.E None) (2011, 1) "runoff" s
  = (s, inl (Exn KeyError [VStr "runoff"])).
Proof.
  intros s.
  apply (cutout_produce_specific_dataseries_bad_config (Sample.E None) (2011, 1) "runoff" s).
  reflexivity.
Defined.
(** * The metadata materializer: attributes, failures, one month *)

Section MetaEdges.
Context (E : env).

(** The keyword arguments of the call of the metadata function. *)
Definition meta_kwargs (xs ys : list Z) (years months : pyslice) (kwds : pydict) : pydict :=
  list_to_map [("xs", VAxis xs); ("ys", VAxis ys);
               ("year", VInt (stop years)); ("month", VInt (stop months))]
  ∪ delete "prepare_func" kwds.

(** The run of [cutout_get_meta] up to the return of the metadata
    function. *)
Definition after_meta_call (years months : pyslice) (params : pydict) (ds : dataset)
    : M dataset :=
  let ds := ds_update_attrs params ds in
  time ← ds_get_coord "time" ds;
  '(start_, second, end_) ← first_second_last time;
  month_start ← Timestamp_ym (stop years) (stop months);
  let offset_start := start_ - month_start in
  let offset_end := end_ - add_MonthBegin (stop years) (stop months) in
  let step := components_hours (second - start_) in
  first_month ← Timestamp_ym (start years) (start months);
  time' ← date_range (first_month + offset_start)
                     (add_MonthBegin (stop years) (stop months) + offset_end) step;
  let ds := ds_set_coord "time" time' ds in
  let ds := ds_set_coord "year" (range_incl (start years) (stop years)) ds in
  let ds := ds_set_coord "month" (range_incl (start months) (stop months)) ds in
  ds_stack_yearmonth ds.

Lemma cutout_get_meta_call xs ys years months params s n :
  let months' := default (Slice 1 12) months in
  let kwds := params ∪ meta_data_config (st_cutout s) in
  let kwargs := meta_kwargs xs ys years months' kwds in
  kwds !! "prepare_func" = Some (VFunc n) →
  kwds !! "xs" = None → kwds !! "ys" = None →
  kwds !! "year" = None → kwds !! "month" = None →
  cutout_get_meta E xs ys years months params s
  = match meta_sem E n kwargs with
    | inl e => (emit (EvCall n kwargs) s, inl e)
    | inr ds0 => after_meta_call years months' params ds0 (emit (EvCall n kwargs) s)
    end.
Proof.
  intros months' kwds kwargs Hf Hxs Hys Hyear Hmonth.
  unfold cutout_get_meta, after_meta_call. fold months'.
  cbv [mbind M_bind get_cutout pop_local]. fold kwds. rewrite Hf.
  cbv [mret M_ret kwargs_with].
  rewrite bool_decide_false.
  2:{ rewrite !Exists_cons, Exists_nil. simpl.
      rewrite !lookup_delete_ne by done. rewrite Hxs, Hys, Hyear, Hmonth.
      intros [[? ?]|[[? ?]|[[? ?]|[[? ?]|[]]]]]; done. }
  cbv [call_meta mbind M_bind modify lift_result].
  fold (meta_kwargs xs ys years months' kwds). fold kwargs.
  by destruct (meta_sem E n kwargs).
Qed.

Lemma after_meta_call_inv years months params ds0 s s' ds :
  after_meta_call years months params ds0 s = (s', inr ds) →
  s' = s ∧ attrs ds = params ∪ attrs ds0 ∧ data_vars ds = data_vars ds0 ∧
  backing ds = backing ds0 ∧
  stacked ds = <["year-month" := y ← range_incl (start years) (stop years);
                                  m ← range_incl (start months) (stop months); [(y, m)]]>
                 (stacked ds0) ∧
  coords ds !! "year" = None ∧ coords ds !! "month" = None ∧
  ∀ k, k ≠ "time" → k ≠ "year" → k ≠ "month" → coords ds !! k = coords ds0 !! k.
Proof.
  unfold after_meta_call. intros H.
  apply bind_inr_inv in H as (? & time & Ht & H).
  unfold ds_get_coord in Ht. simpl in Ht.
  destruct (coords ds0 !! "time") as [l|]; [|done]. injection Ht as <- <-.
  apply bind_inr_inv in H as (? & [[t0 t1] tl] & Hfsl & H).
  unfold first_second_last in Hfsl. destruct l as [|? [|? ?]]; try done.
  injection Hfsl as <- <- <- <-.
  apply bind_inr_inv in H as (? & ms & Hms & H).
  unfold Timestamp_ym in Hms. case_bool_decide; [|done]. injection Hms as <- <-.
  apply bind_inr_inv in H as (? & fm & Hfm & H).
  unfold Timestamp_ym in Hfm. case_bool_decide; [|done]. injection Hfm as <- <-.
  apply bind_inr_inv in H as (? & time' & Hdr & H).
  unfold date_range in Hdr. destruct (decide _); [done|]. injection Hdr as <- <-.
  unfold ds_stack_yearmonth, ds_set_coord in H. simpl in H.
  rewrite lookup_insert_ne in H by done. rewrite !lookup_insert_eq in H.
  injection H as <- <-. simpl. split_and!; try done.
  - by rewrite lookup_delete_ne, lookup_delete_eq by done.
  - by rewrite lookup_delete_eq.
  - intros k ? ? ?. by rewrite !lookup_delete_ne, !lookup_insert_ne by done.
Qed.

(** X15: what [cutout_get_meta] returns, whenever it returns: the dataset
    of the metadata function (called once, and nothing else happens to the
    state: the cutout, the store and the files are left as they are), with
    [dataset_params] laid over its attributes, its variables and its other
    coordinates as they were, and [year] and [month] absorbed into the
    stacked index. *)
Theorem cutout_get_meta_result xs ys years months params s s' ds :
  cutout_get_meta E xs ys years months params s = (s', inr ds) →
  let months' := default (Slice 1 12) months in
  let kwds := params ∪ meta_data_config (st_cutout s) in
  let kwargs := meta_kwargs xs ys years months' kwds in
  ∃ n ds0,
    kwds !! "prepare_func" = Some (VFunc n) ∧
    meta_sem E n kwargs = inr ds0 ∧
    s' = emit (EvCall n kwargs) s ∧
    attrs ds = params ∪ attrs ds0 ∧
    data_vars ds = data_vars ds0 ∧
    coords ds !! "year" = None ∧ coords ds !! "month" = None ∧
    (∀ k, k ≠ "time" → k ≠ "year" → k ≠ "month" → coords ds !! k = coords ds0 !! k).
Proof.
  intros H months' kwds kwargs. unfold cutout_get_meta in H. fold months' in H.
  apply bind_inr_inv in H as (? & c & [= <- <-] & H). fold kwds in H.
  apply bind_inr_inv in H as (? & [f kw] & Hpop & H).
  unfold pop_local in Hpop. destruct (kwds !! "prepare_func") as [f'|] eqn:Hf; [|done].
  injection Hpop as <- <- <-.
  apply bind_inr_inv in H as (? & kwargs' & Hkw & H).
  unfold kwargs_with in Hkw. case_bool_decide; [done|]. injection Hkw as <- <-.
  fold (meta_kwargs xs ys years months' kwds) in H. fold kwargs in H.
  apply bind_inr_inv in H as (s1 & ds0 & Hcall & H).
  destruct f' as [| | |n| | | | |]; try done. unfold call_meta in Hcall.
  apply bind_inr_inv in Hcall as (? & [] & [= <-] & Hcall).
  unfold lift_result in Hcall. injection Hcall as <- Hsem.
  apply (after_meta_call_inv years months' params ds0) in H
    as (-> & Hattrs & Hvars & _ & _ & Hy & Hm & Hco).
  exists n, ds0. by split_and!.
Qed.

(** X16: failures of [cutout_get_meta].  Without a ['prepare_func'] in the
    merged keywords the pop raises [KeyError] before anything is called;
    a time coordinate with fewer than two values makes the indexing
    [[0, 1, -1]] raise [IndexError], after the metadata function has been
    called. *)
Theorem cutout_get_meta_errors xs ys years months params s :
  let months' := default (Slice 1 12) months in
  let kwds := params ∪ meta_data_config (st_cutout s) in
  let kwargs := meta_kwargs xs ys years months' kwds in
  (kwds !! "prepare_func" = None →
   cutout_get_meta E xs ys years months params s
   = (s, inl (Exn KeyError [VStr "prepare_func"]))) ∧
  (∀ n ds0 l,
     kwds !! "prepare_func" = Some (VFunc n) →
     kwds !! "xs" = None → kwds !! "ys" = None →
     kwds !! "year" = None → kwds !! "month" = None →
     meta_sem E n kwargs = inr ds0 →
     coords ds0 !! "time" = Some l → (length l < 2)%nat →
     ∃ e, cutout_get_meta E xs ys years months params s
          = (emit (EvCall n kwargs) s, inl e) ∧
          exc_class e = IndexError).
Proof.
  intros months' kwds kwargs. split.
  - intros Hf. unfold cutout_get_meta. cbv [mbind M_bind get_cutout pop_local].
    fold kwds. by rewrite Hf.
  - intros n ds0 l Hf Hxs Hys Hyear Hmonth Hmeta Htime Hlen.
    rewrite (cutout_get_meta_call xs ys years months params s n) by done.
    fold months' kwds kwargs. rewrite Hmeta.
    unfold after_meta_call. cbv [mbind M_bind ds_get_coord]. simpl. rewrite Htime.
    cbv [mret M_ret first_second_last].
    destruct l as [|? [|? ?]]; [by eexists..|simpl in Hlen; lia].
Qed.

(** The instants [t0 + i * step] for [i < cnt]. *)
Definition regular_times (t0 step : Z) (cnt : nat) : list Z :=
  (λ i : nat, t0 + Z.of_nat i * step) <$> seq 0 cnt.

Lemma first_second_last_regular t0 step cnt s :
  first_second_last (regular_times t0 step (S (S cnt))) s
  = (s, inr (t0, t0 + step, t0 + Z.of_nat (S cnt) * step)).
Proof.
  unfold first_second_last.
  assert (last (regular_times t0 step (S (S cnt))) = Some (t0 + Z.of_nat (S cnt) * step))
    as Hlast.
  { unfold regular_times. rewrite seq_S, fmap_app, last_app. done. }
  rewrite Hlast. unfold regular_times. cbn [seq fmap list_fmap]. cbv [mret M_ret]. simpl.
  do 3 f_equal. f_equal; [f_equal|]; lia.
Qed.

Lemma components_hours_small k : 0 ≤ k < 24 → components_hours (k * ns_per_hour) = k.
Proof.
  intros Hk. unfold components_hours, ns_per_day.
  rewrite Z.mod_small by (unfold ns_per_hour; lia).
  apply Z.div_mul. unfold ns_per_hour. lia.
Qed.

(** X17: for a single month, a regular axis is rebuilt as it was: when
    the metadata function returns [cnt >= 2] instants that are [k] hours
    apart, [0 < k < 24], the new time coordinate holds exactly these
    instants, and the stacked index holds the one year-month. *)
Theorem cutout_get_meta_single_month xs ys y m params s n ds0 t0 k cnt :
  let kwds := params ∪ meta_data_config (st_cutout s) in
  let kwargs := meta_kwargs xs ys (Slice y y) (Slice m m) kwds in
  kwds !! "prepare_func" = Some (VFunc n) →
  kwds !! "xs" = None → kwds !! "ys" = None →
  kwds !! "year" = None → kwds !! "month" = None →
  meta_sem E n kwargs = inr ds0 →
  coords ds0 !! "time" = Some (regular_times t0 (k * ns_per_hour) cnt) →
  (2 ≤ cnt)%nat → 0 < k < 24 →
  1678 ≤ y ≤ 2261 → 1 ≤ m ≤ 12 →
  ∃ ds, cutout_get_meta E xs ys (Slice y y) (Some (Slice m m)) params s
        = (emit (EvCall n kwargs) s, inr ds) ∧
        coords ds !! "time" = Some (regular_times t0 (k * ns_per_hour) cnt) ∧
        stacked ds !! "year-month" = Some [(y, m)].
Proof.
  intros kwds kwargs Hf Hxs Hys Hyear Hmonth Hmeta Htime Hcnt Hk Hy Hm.
  rewrite (cutout_get_meta_call xs ys (Slice y y) (Some (Slice m m)) params s n) by done.
  simpl default. fold kwds kwargs. rewrite Hmeta.
  destruct cnt as [|[|cnt]]; [lia..|].
  unfold after_meta_call. cbv [mbind M_bind ds_get_coord ds_update_attrs].
  cbn [coords]. rewrite Htime. cbv [mret M_ret]. rewrite first_second_last_regular.
  cbv [Timestamp_ym]. cbn [start stop]. rewrite !bool_decide_true by done.
  cbv [mret M_ret date_range].
  replace (t0 + k * ns_per_hour - t0) with (k * ns_per_hour) by lia.
  rewrite components_hours_small by lia.
  rewrite decide_False by lia. cbv [mret M_ret].
  unfold ds_stack_yearmonth, ds_set_coord. simpl.
  rewrite lookup_insert_ne by done. rewrite !lookup_insert_eq.
  eexists. split; [reflexivity|]. simpl. split.
  - rewrite !lookup_delete_ne by done. rewrite !lookup_insert_ne by done.
    rewrite lookup_insert_eq. f_equal. unfold regular_times.
    set (step := k * ns_per_hour).
    assert (0 < step) by (unfold step, ns_per_hour; lia).
    replace (add_MonthBegin y m + (t0 + Z.of_nat (S cnt) * step - add_MonthBegin y m)
             - (month_start_ns y m + (t0 - month_start_ns y m)))
      with (Z.of_nat (S cnt) * step) by lia.
    rewrite Z.div_mul by lia.
    replace (Z.to_nat (Z.of_nat (S cnt) + 1)) with (S (S cnt)) by lia.
    apply list_fmap_ext. intros _ i _. lia.
  - rewrite lookup_insert_eq. f_equal. unfold range_incl.
    replace (y + 1 - y) with 1 by lia. replace (m + 1 - m) with 1 by lia.
    simpl. do 2 f_equal; lia.
Qed.
End MetaEdges.

Lemma cutout_get_meta_result_witness :
  let s := Sample.s Sample.c "prepare_wind" in
  ∃ s' ds,
    cutout_get_meta (Sample.E None) [1; 2] [3; 4] (Slice 2011 2011) (Some (Slice 1 2))
      {[ "module" := VStr "era5" ]} s = (s', inr ds) ∧
    attrs ds !! "module" = Some (VStr "era5") ∧ st_files s' = st_files s.
Proof.
  intros s.
  destruct (cutout_get_meta (Sample.E None) [1; 2] [3; 4] (Slice 2011 2011)
              (Some (Slice 1 2)) {[ "module" := VStr "era5" ]} s) as [s' [e|ds]] eqn:Hr.
  - exfalso. vm_compute in Hr. discriminate Hr.
  - destruct (cutout_get_meta_result (Sample.E None) _ _ _ _ _ _ _ _ Hr)
      as (n & ds0 & _ & _ & -> & Hattrs & _).
    eexists _, ds. split; [reflexivity|]. split; [|reflexivity].
    rewrite Hattrs. apply lookup_union_Some_l. reflexivity.
Defined.

Lemma cutout_get_meta_errors_witness :
  let s := Sample.s Sample.failing_cutout "prepare_wind" in
  cutout_get_meta (Sample.E None) [1; 2] [3; 4] (Slice 2011 2011) None ∅ s
  = (s, inl (Exn KeyError [VStr "prepare_func"])) ∧
  ∃ s' e, cutout_get_meta Sample.E_short [1; 2] [3; 4] (Slice 2011 2011) None ∅
            (Sample.s Sample.c "prepare_wind") = (s', inl e) ∧
          exc_class e = IndexError.
Proof.
  intros s. split.
  - apply (cutout_get_meta_errors (Sample.E None) [1; 2] [3; 4] (Slice 2011 2011) None ∅ s).
    reflexivity.
  - destruct (cutout_get_meta_errors Sample.E_short [1; 2] [3; 4] (Slice 2011 2011) None ∅
                (Sample.s Sample.c "prepare_wind")) as [_ Hshort].
    destruct (Hshort "prepare_meta" (Dataset ∅ {[ "time" := [0] ]} ∅ ∅ None) [0])
      as (e & Hrun & Hcls); try reflexivity.
    + simpl. lia.
    + by eexists _, e.
Defined.

Lemma cutout_get_meta_single_month_witness :
  let s := Sample.s Sample.c "prepare_wind" in
  ∃ s' ds,
    cutout_get_meta (Sample.E None) [1; 2] [3; 4] (Slice 2011 2011) (Some (Slice 1 1)) ∅ s
    = (s', inr ds) ∧
    coords ds !! "time" = Some (Sample.three_hourly 2011 1).
Proof.
  intros s.
  destruct (cutout_get_meta_single_month (Sample.E None) [1; 2] [3; 4] 2011 1 ∅ s
              "prepare_meta" (Dataset ∅ {[ "time" := Sample.three_hourly 2011 1 ]} ∅ ∅ None)
              (month_start_ns 2011 1) 3 248%nat)
    as (ds & Hrun & Htime & _); try reflexivity; try lia.
  eexists _, ds. split; [exact Hrun|]. rewrite Htime. vm_compute. reflexivity.
Defined.
(** * Height from the GEBCO raster: temporary files and handles *)

Section HeightEdges.
Context (E : env).

Lemma bind_inv {A B} (m : M A) (f : A → M B) s s' r :
  (m ≫= f) s = (s', r) →
  (∃ e, m s = (s', inl e) ∧ r = inl e) ∨ (∃ s1 x, m s = (s1, inr x) ∧ f x s1 = (s', r)).
Proof.
  rewrite bind_run. destruct (m s) as [s1 [e|x]]; intros H.
  - left. injection H as <- <-. by exists e.
  - right. by exists s1, x.
Qed.

Lemma prefix_app a b c : String.prefix (a +:+ b) (a +:+ (b +:+ c)) = true.
Proof.
  induction a as [|x a IH]; simpl.
  - induction b as [|y b IHb]; simpl; [by destruct c|].
    by destruct (Ascii.ascii_dec y y).
  - by destruct (Ascii.ascii_dec x x).
Qed.

Lemma below_join d f : below d (d +:+ "/" +:+ f) = true.
Proof. apply prefix_app. Qed.

Local Hint Resolve mkdtemp_dir_in subprocess_call_dir_in : frame.
Local Hint Extern 8 (preserves (dir_in _) _) =>
  eapply (preserves_weaken same_fs); [apply _ |] : frame.

(** What [_prepare_gebco_height] does in its temporary directory. *)
Definition in_tmpdir (xs ys : list Z) (tmpdir : string) : M Z :=
  (if bool_decide (xs = [] ∨ ys = [])
   then raise (Exn IndexError [VStr "index 0 is out of bounds for axis 0 with size 0"])
   else mret tt) ;;
  let tmpfn := tmpdir +:+ "/" +:+ "resampled.nc" in
  tmpfn ← try_except_class OSError
    (ret ← subprocess_call E (["gdalwarp"; "-of"; "NETCDF"] ++ warp_args E xs ys
                             ++ ["-r"; "average"; gebco_path E; tmpfn])%list;
     assert (bool_decide (ret = 0)) [VStr "gdalwarp was not able to resample gebco"] ;;
     mret tmpfn)
    (log WARNING ("gdalwarp was not found for resampling gebco. "
                  +:+ "Next-neighbour interpolation will be used instead!") [] ;;
     mret (gebco_path E));
  ds_gebco ← open_file tmpfn;
  try_finally
    (s ← get_state;
     renamed ← rename_gebco (handle_content ds_gebco s);
     ds_get_var "height" (ds_load (reindex E xs ys renamed)))
    (ds_close ds_gebco).

Lemma _prepare_gebco_height_eq xs ys s :
  _prepare_gebco_height E xs ys s
  = (tmpdir ← mkdtemp; height ← in_tmpdir xs ys tmpdir; rmtree tmpdir ;; mret height) s.
Proof.
  unfold _prepare_gebco_height, in_tmpdir. cbv [mbind M_bind mkdtemp].
  repeat (case_match; simplify_eq; try done).
Qed.

Lemma in_tmpdir_dir_in d xs ys tmpdir : preserves (dir_in d) (in_tmpdir xs ys tmpdir).
Proof. unfold in_tmpdir. preserves_tac. Qed.

(** X19: the temporary directory is removed only at the very end: it is
    gone when [_prepare_gebco_height] returns, and it is left behind
    whenever the function raises. *)
Theorem _prepare_gebco_height_tmpdir xs ys s s' r :
  _prepare_gebco_height E xs ys s = (s', r) →
  match r with
  | inr _ => mkdtemp_name s ∉ st_dirs s'
  | inl _ => mkdtemp_name s ∈ st_dirs s'
  end.
Proof.
  rewrite _prepare_gebco_height_eq. rewrite bind_run. unfold mkdtemp at 1.
  set (tmpdir := mkdtemp_name s).
  set (s1 := emit (EvMkdir tmpdir) (with_dirs ({[tmpdir]} ∪ st_dirs s) s)).
  assert (tmpdir ∈ st_dirs s1) as Hin by (simpl; set_solver).
  intros H. apply bind_inv in H as [(e & H & ->)|(s2 & h & H & Hrest)].
  - eapply (preserves_run (dir_in tmpdir)) in H; [by apply H | apply in_tmpdir_dir_in].
  - eapply (preserves_run (dir_in tmpdir)) in H; [| apply in_tmpdir_dir_in].
    apply H in Hin. rewrite bind_run in Hrest. unfold rmtree in Hrest.
    rewrite bool_decide_true in Hrest by done. injection Hrest as <- <-. simpl.
    intros [[? _] _]%elem_of_filter. done.
Qed.

Lemma is_open_closed h h' (hs : gmap handle (dataset * bool)) s :
  st_handles s = alter (λ x, (x.1, false)) h' hs →
  is_open h s = true → h ≠ h' ∧ match hs !! h with Some (_, true) => True | _ => False end.
Proof.
  unfold is_open. intros ->. destruct (decide (h = h')) as [->|Hne].
  - rewrite lookup_alter_eq. by destruct (hs !! h') as [[? ?]|].
  - rewrite lookup_alter_ne by done. destruct (hs !! h) as [[? []]|]; done.
Qed.

(** X20: the raster is opened in a [with] block: whether
    [_prepare_gebco_height] returns or raises, no dataset handle is open
    afterwards that was not open before. *)
Theorem _prepare_gebco_height_no_open_handle_left xs ys s s' r h :
  _prepare_gebco_height E xs ys s = (s', r) →
  is_open h s' = true → is_open h s = true.
Proof.
  rewrite _prepare_gebco_height_eq. rewrite bind_run. unfold mkdtemp at 1.
  set (tmpdir := mkdtemp_name s).
  set (s1 := emit (EvMkdir tmpdir) (with_dirs ({[tmpdir]} ∪ st_dirs s) s)).
  assert (∀ s2 r2, in_tmpdir xs ys tmpdir s1 = (s2, r2) →
                   is_open h s2 = true → is_open h s = true) as Hin.
  { intros s2 r2 H. unfold in_tmpdir in H.
    apply bind_inv in H as [(e & H & ->)|(s1' & [] & H1 & H)].
    { eapply (preserves_run quiet) in H; [|preserves_tac].
      destruct H as (_ & Hh & _). unfold is_open. by rewrite Hh. }
    eapply (preserves_run quiet) in H1; [|preserves_tac].
    apply bind_inv in H as [(e & H & ->)|(s3 & tmpfn & H3 & H)].
    { eapply (preserves_run quiet) in H; [|preserves_tac].
      destruct H1 as (_ & Hh1 & _), H as (_ & Hh & _). unfold is_open.
      by rewrite Hh, Hh1. }
    eapply (preserves_run quiet) in H3; [|preserves_tac].
    assert (st_handles s3 = st_handles s) as Hh3.
    { destruct H1 as (_ & Hh1 & _), H3 as (_ & Hh3 & _). by rewrite Hh3, Hh1. }
    apply bind_inv in H as [(e & H & ->)|(s4 & hd & H4 & H)].
    { unfold open_file in H. destruct (st_files s3 !! tmpfn); [done|].
      injection H as <-. unfold is_open. by rewrite Hh3. }
    unfold open_file in H4. destruct (st_files s3 !! tmpfn) as [ds|]; [|done].
    injection H4 as <- <-. unfold try_finally in H.
    match type of H with (let '(_, _) := ?body ?s0 in _) = _ =>
      destruct (body s0) as [s5 r5] eqn:Hbody end.
    assert (s5 = emit (EvOpen (fresh_handle s3) tmpfn)
                   (with_handles (<[fresh_handle s3 := (ds, true)]> (st_handles s3)) s3))
      as ->.
    { revert Hbody. cbv [mbind M_bind get_state mret M_ret raise rename_gebco ds_get_var].
      repeat case_match; simplify_eq; by intros [= <- _]. }
    unfold ds_close, modify in H. injection H as <- _. intros Hopen.
    apply is_open_closed with (h' := fresh_handle s3)
      (hs := <[fresh_handle s3 := (ds, true)]> (st_handles s3)) in Hopen as [Hne Hopen];
      [|done]. rewrite lookup_insert_ne in Hopen by done.
    unfold is_open. rewrite <- Hh3. by destruct (st_handles s3 !! h) as [[? []]|]. }
  intros H. apply bind_inv in H as [(e & H & ->)|(s2 & hh & H & Hrest)].
  - by eapply Hin.
  - intros Hopen. eapply Hin; [exact H|].
    rewrite bind_run in Hrest. unfold rmtree in Hrest.
    destruct (bool_decide _); by injection Hrest as <- _.
Qed.

(** X18: when the resampling tool runs and exits with code 0, the height
    is read from the resampled raster that the tool left in the temporary
    directory, reindexed on the axes of the cutout; no warning is logged,
    and the temporary file is gone afterwards while every file outside the
    temporary directory is as before. *)
Theorem _prepare_gebco_height_resampled xs ys s lon lat band :
  xs ≠ [] → ys ≠ [] →
  let tmpdir := mkdtemp_name s in
  let tmpfn := tmpdir +:+ "/" +:+ "resampled.nc" in
  let argv := (["gdalwarp"; "-of"; "NETCDF"] ++ warp_args E xs ys
               ++ ["-r"; "average"; gebco_path E; tmpfn])%list in
  gdalwarp E argv = Some 0 →
  coords (resampled E) !! "lon" = Some lon → coords (resampled E) !! "lat" = Some lat →
  data_vars (resampled E) !! "Band1" = Some band →
  ∃ s', _prepare_gebco_height E xs ys s = (s', inr (reindex_nearest E band xs ys)) ∧
        st_trace s' = st_trace s ++
          [EvMkdir tmpdir; EvSubprocess argv; EvOpen (fresh_handle s) tmpfn;
           EvClose (fresh_handle s); EvRmtree tmpdir] ∧
        st_files s' !! tmpfn = None ∧
        (∀ p, below tmpdir p = false → st_files s' !! p = st_files s !! p).
Proof.
  intros Hxs Hys tmpdir tmpfn argv Htool Hlon Hlat Hband.
  assert (bool_decide (xs = [] ∨ ys = []) = false) as Hne
    by (apply bool_decide_eq_false; by intros [?|?]).
  assert (last argv = Some tmpfn) as Hlast.
  { unfold argv. rewrite !last_app. done. }
  unfold _prepare_gebco_height.
  cbv [mbind M_bind mkdtemp]. rewrite Hne.
  cbv [mret M_ret try_except_class subprocess_call].
  fold tmpdir. fold tmpfn. fold argv. rewrite Htool, Hlast.
  rewrite decide_True by done. unfold assert. rewrite bool_decide_true by done.
  cbv [mret M_ret open_file]. simpl default. cbn [st_files with_files emit].
  rewrite lookup_insert_eq.
  cbv [try_finally mbind M_bind get_state]. unfold handle_content at 1.
  cbn [st_handles with_handles emit]. rewrite lookup_insert_eq.
  unfold rename_gebco. rewrite Hlon, Hlat, Hband.
  cbv [mret M_ret mbind M_bind ds_get_var]. simpl.
  rewrite lookup_fmap, lookup_insert_eq. simpl.
  unfold rmtree. simpl. rewrite bool_decide_true by set_solver.
  eexists. split; [reflexivity|]. simpl. split_and!.
  - by rewrite <- !app_assoc.
  - apply map_lookup_filter_None. right. intros x _ Hn. simpl in Hn.
    apply Hn. apply Is_true_true. apply below_join.
  - intros p Hp.
    assert (tmpfn ≠ p) as Hpne.
    { intros <-. unfold tmpfn in Hp. by rewrite below_join in Hp. }
    destruct (st_files s !! p) as [d|] eqn:Hp0.
    + apply map_lookup_filter_Some. split; [by rewrite lookup_insert_ne|].
      simpl. rewrite Hp. by intros [].
    + apply map_lookup_filter_None. left. by rewrite lookup_insert_ne.
Qed.
End HeightEdges.

Lemma _prepare_gebco_height_resampled_witness :
  let s := Sample.s Sample.c "prepare_wind" in
  ∃ s', _prepare_gebco_height (Sample.E (Some 0)) [1; 2] [3; 4] s = (s', inr 107) ∧
        st_files s' !! (mkdtemp_name s +:+ "/" +:+ "resampled.nc") = None ∧
        st_files s' !! "in.nc" = Some Sample.wind.
Proof.
  intros s.
  destruct (_prepare_gebco_height_resampled (Sample.E (Some 0)) [1; 2] [3; 4] s [1] [2] 7)
    as (s' & Hrun & _ & Hgone & Hkept).
  - discriminate.
  - discriminate.
  - reflexivity.
  - reflexivity.
  - reflexivity.
  - reflexivity.
  - exists s'. split; [exact Hrun|]. split; [exact Hgone|].
    rewrite Hkept; [reflexivity|]. vm_compute. reflexivity.
Defined.

Lemma _prepare_gebco_height_tmpdir_witness :
  let s := Sample.s Sample.c "prepare_wind" in
  mkdtemp_name s ∈ st_dirs (_prepare_gebco_height (Sample.E (Some 1)) [1; 2] [3; 4] s).1.
Proof.
  intros s.
  set (r := _prepare_gebco_height (Sample.E (Some 1)) [1; 2] [3; 4] s).
  assert (r = (r.1, inl (Exn AssertionError [VStr "gdalwarp was not able to resample gebco"])))
    as Hr by (apply pair_eta_inl; vm_compute; reflexivity).
  exact (_prepare_gebco_height_tmpdir (Sample.E (Some 1)) [1; 2] [3; 4] s r.1 _ Hr).
Defined.

Lemma _prepare_gebco_height_no_open_handle_left_witness :
  let r := _prepare_gebco_height (Sample.E None) [1; 2] [3; 4] Sample.open_handle_state in
  is_open 5%nat r.1 = true ∧ is_open 5%nat Sample.open_handle_state = true.
Proof.
  intros r.
  assert (is_open 5%nat r.1 = true) as Hopen by (vm_compute; reflexivity).
  split; [exact Hopen|].
  exact (_prepare_gebco_height_no_open_handle_left (Sample.E None) [1; 2] [3; 4]
           Sample.open_handle_state r.1 r.2 5%nat (surjective_pairing r) Hopen).
Defined.
(** * File names: partial files and the merge pattern *)

Section Naming.

Lemma chars_app a b : chars (a +:+ b) = chars a ++ chars b.
Proof. induction a as [|c a IH]; simpl; [done|]. unfold chars in *. simpl. by rewrite IH. Qed.

(** A character that [fnmatch] reads literally. *)
Definition plain (c : ascii) : Prop := c ≠ "*"%char ∧ c ≠ "?"%char ∧ c ≠ "["%char.

Lemma has_magic_false l : has_magic l = false ↔ Forall plain l.
Proof.
  unfold has_magic. induction l as [|c l IH]; simpl.
  - split; [constructor | done].
  - rewrite orb_false_iff, IH, Forall_cons, bool_decide_eq_false. unfold plain. tauto.
Qed.

Lemma has_magic_star l1 l2 : has_magic (l1 ++ "-"%char :: "*"%char :: l2) = true.
Proof.
  destruct (has_magic _) eqn:H; [done|]. apply has_magic_false in H.
  apply Forall_app in H as [_ H]. apply Forall_cons in H as [_ H].
  apply Forall_cons in H as [[H _] _]. done.
Qed.

Lemma translate_plain l : Forall plain l → ∀ fuel rest,
  translate (length l + fuel) (l ++ rest) = (TLit <$> l) ++ translate fuel rest.
Proof.
  induction 1 as [|c l (H1 & H2 & H3) _ IH]; intros fuel rest; simpl; [done|].
  rewrite !decide_False by done. by rewrite IH.
Qed.

Lemma translate_plain_all l : Forall plain l → translate (length l) l = TLit <$> l.
Proof.
  intros H. pose proof (translate_plain l H 0 []) as Ht.
  rewrite Nat.add_0_r, !app_nil_r in Ht. exact Ht.
Qed.

Lemma match_toks_lits l ts s : match_toks ((TLit <$> l) ++ ts) (l ++ s) = match_toks ts s.
Proof. induction l as [|c l IH]; simpl; [done|]. by rewrite bool_decide_true. Qed.

Lemma match_toks_star ts s1 s2 :
  match_toks ts s2 = true → match_toks (TStar :: ts) (s1 ++ s2) = true.
Proof.
  intros H. induction s1 as [|c s1 IH].
  - simpl. destruct s2; simpl in *; by rewrite H.
  - change (match_toks ts (c :: s1 ++ s2) || match_toks (TStar :: ts) (s1 ++ s2) = true).
    rewrite IH. apply orb_true_r.
Qed.

Definition slash : ascii := "/"%char.

Lemma split_slash_no_slash l : slash ∉ l → split_slash l = [l].
Proof.
  induction l as [|c l IH]; intros H; simpl; [done|].
  apply not_elem_of_cons in H as [Hc Hl]. rewrite decide_False by done.
  by rewrite (IH Hl).
Qed.

(** Appending text without slash extends the last component. *)
Lemma split_slash_app a b : slash ∉ b →
  ∃ init comp, split_slash a = init ++ [comp] ∧ split_slash (a ++ b) = init ++ [comp ++ b] ∧
               ∀ x, x ∈ comp → x ∈ a.
Proof.
  intros Hb. induction a as [|c a (init & comp & Ha & Hab & Hin)]; simpl.
  - exists [], []. split_and!; [done | by apply split_slash_no_slash |].
    by intros x ?%elem_of_nil.
  - destruct (decide (c = "/"%char)).
    + exists ([] :: init), comp. rewrite Ha, Hab. split_and!; [done..|].
      intros x Hx. right. by apply Hin.
    + rewrite Ha, Hab. destruct init as [|x init]; simpl.
      * exists [], (c :: comp). split_and!; [done..|].
        intros x [->|Hx]%elem_of_cons; [by left | right; by apply Hin].
      * exists ((c :: x) :: init), comp. split_and!; [done..|].
        intros y Hy. right. by apply Hin.
Qed.

Lemma split_slash_elem a comp x : comp ∈ split_slash a → x ∈ comp → x ∈ a.
Proof.
  revert comp. induction a as [|c a IH]; intros comp; simpl.
  - intros ->%list_elem_of_singleton. by intros ?%elem_of_nil.
  - destruct (decide (c = "/"%char)).
    + intros [->|Hc]%elem_of_cons; [by intros ?%elem_of_nil|].
      intros Hx. right. by eapply IH.
    + destruct (split_slash a) as [|comp' comps] eqn:Hs.
      * intros ->%list_elem_of_singleton. intros [->|?%elem_of_nil]%elem_of_cons; [by left|done].
      * intros [->|Hc]%elem_of_cons.
        -- intros [->|Hx]%elem_of_cons; [by left|]. right. eapply IH; [by left | done].
        -- intros Hx. right. eapply IH; [by right | done].
Qed.

Lemma comps_match_same init ps ns :
  Forall (Forall plain) init →
  comps_match (init ++ ps) (init ++ ns) = comps_match ps ns.
Proof.
  induction 1 as [|p init Hp _ IH]; simpl; [done|].
  rewrite IH. unfold comp_match. apply has_magic_false in Hp. rewrite Hp.
  by rewrite bool_decide_true.
Qed.

Lemma hidden_same comp rest1 rest2 c :
  ishidden (comp ++ c :: rest1) || negb (ishidden (comp ++ c :: rest2)) = true.
Proof. destruct comp; simpl; by destruct (bool_decide _). Qed.

Lemma translate_tail ext : Forall plain ext →
  translate (S (S (length ext))) ("-"%char :: "*"%char :: ext)
  = TLit "-"%char :: TStar :: (TLit <$> ext).
Proof.
  intros Hext. cbn [translate]. rewrite decide_False by done.
  rewrite decide_False by done. rewrite decide_False by done.
  rewrite decide_True by done. by rewrite translate_plain_all.
Qed.

(** The last component of a partial file against the last component of
    the pattern. *)
Lemma comp_match_partial comp mid ext :
  Forall plain comp → Forall plain ext →
  comp_match (comp ++ "-"%char :: "*"%char :: ext) (comp ++ "-"%char :: mid ++ ext) = true.
Proof.
  intros Hcomp Hext. unfold comp_match. rewrite has_magic_star, hidden_same. simpl andb.
  unfold fnmatch. rewrite length_app. rewrite (translate_plain comp Hcomp).
  cbn [length]. rewrite translate_tail by done. rewrite match_toks_lits.
  cbn [match_toks tok_ok]. rewrite bool_decide_true by done. simpl andb.
  apply match_toks_star. pose proof (match_toks_lits ext [] []) as Hm.
  by rewrite !app_nil_r in Hm.
Qed.

(** The last component of the canonical file against the last component
    of the pattern. *)
Lemma comp_match_canonical comp ext :
  Forall plain comp → head ext ≠ Some "-"%char →
  comp_match (comp ++ "-"%char :: "*"%char :: ext) (comp ++ ext) = false.
Proof.
  intros Hcomp Hhead. unfold comp_match. rewrite has_magic_star.
  apply andb_false_intro2.
  unfold fnmatch. rewrite length_app. rewrite (translate_plain comp Hcomp).
  cbn [length translate]. rewrite decide_False by done.
  rewrite decide_False by done. rewrite decide_False by done.
  rewrite match_toks_lits. destruct ext as [|c ext]; [done|].
  cbn [match_toks tok_ok]. rewrite bool_decide_false; [done|].
  intros ->. by apply Hhead.
Qed.

Lemma comps_match_split base b1 b2 :
  Forall plain base → slash ∉ b1 → slash ∉ b2 →
  ∃ comp, Forall plain comp ∧
          comps_match (split_slash (base ++ b1)) (split_slash (base ++ b2))
          = comp_match (comp ++ b1) (comp ++ b2).
Proof.
  intros Hbase H1 H2.
  destruct (split_slash_app base b1 H1) as (init & comp & Ha & Hab1 & Hin).
  destruct (split_slash_app base b2 H2) as (init' & comp' & Ha' & Hab2 & _).
  rewrite Ha in Ha'. apply app_inj_tail in Ha' as [<- <-].
  exists comp. split.
  - apply Forall_forall. intros x Hx. eapply Forall_forall; [exact Hbase | by apply Hin].
  - rewrite Hab1, Hab2, comps_match_same; [simpl; apply andb_true_r|].
    apply Forall_forall. intros p Hp. apply Forall_forall. intros x Hx.
    eapply Forall_forall; [exact Hbase|].
    eapply split_slash_elem; [|exact Hx]. rewrite Ha. apply elem_of_app. by left.
Qed.

Lemma glob_match_partial base mid ext :
  has_magic (chars base) = false → has_magic (chars ext) = false →
  slash ∉ chars ext → slash ∉ chars mid →
  glob_match (base +:+ "-*" +:+ ext) (base +:+ "-" +:+ mid +:+ ext) = true.
Proof.
  intros Hbase%has_magic_false Hext%has_magic_false Hse Hsm.
  unfold glob_match. rewrite !chars_app.
  change (chars "-*") with ["-"%char; "*"%char]. change (chars "-") with ["-"%char].
  cbn [app].
  destruct (comps_match_split (chars base) ("-"%char :: "*"%char :: chars ext)
              ("-"%char :: chars mid ++ chars ext)) as (comp & Hcomp & ->); [done|..].
  - rewrite !not_elem_of_cons. by split_and!.
  - rewrite not_elem_of_cons, not_elem_of_app. by split_and!.
  - by apply comp_match_partial.
Qed.

Lemma glob_match_canonical base ext :
  has_magic (chars base) = false → slash ∉ chars ext → head (chars ext) ≠ Some "-"%char →
  glob_match (base +:+ "-*" +:+ ext) (base +:+ ext) = false.
Proof.
  intros Hbase%has_magic_false Hse Hhead.
  unfold glob_match. rewrite !chars_app.
  change (chars "-*") with ["-"%char; "*"%char]. cbn [app].
  destruct (comps_match_split (chars base) ("-"%char :: "*"%char :: chars ext)
              (chars ext)) as (comp & Hcomp & ->); [done|..|done|].
  - rewrite !not_elem_of_cons. by split_and!.
  - by apply comp_match_canonical.
Qed.

(** [rfind]: the index found holds the character, and the character does
    not occur after it. *)
Lemma rfind_from_spec c l : ∀ i, 0 ≤ i →
  (rfind_from c l i = -1 ∧ c ∉ l) ∨
  (∃ k : nat, rfind_from c l i = i + Z.of_nat k ∧ l !! k = Some c ∧ c ∉ drop (S k) l).
Proof.
  induction l as [|x l IH]; intros i Hi; simpl.
  - left. split; [done | apply not_elem_of_nil].
  - destruct (IH (i + 1)) as [[-> Hnot]|(k & -> & Hk & Hafter)]; [lia|..].
    + rewrite decide_True by done. destruct (decide (x = c)) as [->|Hne].
      * right. exists 0%nat. split_and!; [lia | done | done].
      * left. split; [done|]. by apply not_elem_of_cons.
    + rewrite decide_False by lia. right. exists (S k). split_and!; [lia | done | done].
Qed.

Lemma str_app a b : str (a ++ b) = str a +:+ str b.
Proof. induction a as [|c a IH]; simpl; [done|]. unfold str in *. simpl. by rewrite IH. Qed.

Lemma string_app_nil_r (p : string) : p +:+ "" = p.
Proof.
  induction p as [|c p IH]; [done|].
  change (String c (p +:+ "") = String c p). by rewrite IH.
Qed.

Lemma elem_of_drop_inv {A} (x : A) n l : x ∈ drop n l → x ∈ l.
Proof. rewrite <- (take_drop n l) at 2. intros H. apply elem_of_app. by right. Qed.

Lemma splitext_spec p base ext :
  splitext p = (base, ext) →
  base +:+ ext = p ∧ (slash ∉ chars ext) ∧ head (chars ext) ≠ Some "-"%char.
Proof.
  unfold splitext. set (l := chars p).
  assert (∀ b, (p, "") = (b, ext) → b +:+ ext = p ∧ (slash ∉ chars ext)
                                     ∧ head (chars ext) ≠ Some "-"%char) as Hnone.
  { intros b [= <- <-]. split_and!; [apply string_app_nil_r | apply not_elem_of_nil | done]. }
  destruct (decide (rfind "."%char l > rfind "/"%char l)) as [Hgt|]; [|apply Hnone].
  destruct (existsb _ _); [|apply Hnone]. intros [= <- <-].
  unfold rfind in *.
  destruct (rfind_from_spec "."%char l 0) as [[Hd _]|(kd & Hd & Hkd & _)]; [lia|..].
  { destruct (rfind_from_spec "/"%char l 0) as [[Hs _]|(ks & Hs & _)]; lia. }
  rewrite Hd in *. rewrite Z.add_0_l, Nat2Z.id.
  unfold str at 1 2. rewrite <- str_app. fold (str (take kd l ++ drop kd l)).
  rewrite take_drop. unfold str, l, chars.
  rewrite String.string_of_list_ascii_of_string, String.list_ascii_of_string_of_list_ascii.
  fold (chars p). fold l. split_and!.
  - done.
  - destruct (rfind_from_spec "/"%char l 0) as [[_ Hs]|(ks & Hs & _ & Hafter)]; [lia|..].
    + intros H. by apply Hs, (elem_of_drop_inv _ kd).
    + rewrite Hs in Hgt. intros H. apply Hafter.
      replace kd with (S ks + (kd - S ks))%nat in H by lia.
      rewrite <- drop_drop in H. by eapply elem_of_drop_inv.
  - rewrite head_lookup, lookup_drop, Nat.add_0_r, Hkd. by intros [=].
Qed.
Lemma pretty_N_char_no_slash x : pretty_N_char x ≠ slash.
Proof. unfold pretty_N_char. by repeat case_match. Qed.

Lemma pretty_N_go_no_slash x : ∀ s, slash ∉ chars s → slash ∉ chars (pretty_N_go x s).
Proof.
  induction (N.lt_wf_0 x) as [x _ IH]. intros s Hs.
  destruct (decide (x = 0%N)) as [->|Hx]; [by rewrite pretty_N_go_0|].
  rewrite pretty_N_go_step by lia. apply IH.
  - apply N.div_lt; lia.
  - unfold chars. simpl. apply not_elem_of_cons. split; [|exact Hs].
    intros H. by eapply pretty_N_char_no_slash.
Qed.

Lemma format_nat_no_slash i : slash ∉ chars (format_nat i).
Proof.
  unfold format_nat, pretty, pretty_nat, pretty, pretty_N.
  destruct (decide _).
  - unfold chars. simpl. rewrite !not_elem_of_cons. split; [done | apply not_elem_of_nil].
  - apply pretty_N_go_no_slash, not_elem_of_nil.
Qed.

(** X21: the naming scheme of the partial files fits the pattern of the
    merge stage: when the canonical file name of a month holds none of the
    characters [*], [?] and [[], the name given to task [i] for that month
    matches the glob pattern that the merge loop builds from the canonical
    name, whatever [i] is, and the canonical name itself does not match
    it. *)
Theorem merge_pattern_selects_partial_files (c : cutout) (ym : yearmonth) (i : nat) :
  let fn := datasetfn c (Some ym) in
  let pattern := (splitext fn).1 +:+ "-*" +:+ (splitext fn).2 in
  has_magic (chars fn) = false →
  glob_match pattern (datasetfn_with_id c i ym) = true ∧
  glob_match pattern fn = false.
Proof.
  intros fn pattern Hplain. unfold pattern, datasetfn_with_id. fold fn.
  destruct (splitext fn) as [base ext] eqn:Hsplit. simpl.
  destruct (splitext_spec fn base ext Hsplit) as (Hfn & Hslash & Hhead).
  rewrite <- Hfn, chars_app in Hplain. apply has_magic_false, Forall_app in Hplain as [Hb He].
  apply has_magic_false in Hb, He. split.
  - apply glob_match_partial; [done..|apply format_nat_no_slash].
  - rewrite <- Hfn. by apply glob_match_canonical.
Qed.
End Naming.

Lemma merge_pattern_selects_partial_files_witness :
  glob_match "out/201101-*.nc" "out/201101-0.nc" = true ∧
  glob_match "out/201101-*.nc" "out/201101.nc" = false.
Proof.
  apply (merge_pattern_selects_partial_files Sample.c (2011, 1) 0%nat).
  vm_compute. reflexivity.
Defined.
(** * The merge stage: datasets closed, write failures *)

Section MergeEdges.

Lemma map_M_open_file_handles fns : ∀ s s1 hs h,
  map_M open_file fns s = (s1, inr hs) →
  is_open h s1 = true →
  is_open h s = true ∨ h ∈ hs.
Proof.
  induction fns as [|p fns IH]; intros s s1 hs h; simpl.
  - intros [= <- <-]. by left.
  - rewrite bind_run. unfold open_file at 1.
    destruct (st_files s !! p) as [d|]; [|done].
    set (h0 := fresh_handle s).
    set (s0 := emit (EvOpen h0 p) (with_handles (<[h0 := (d, true)]> (st_handles s)) s)).
    rewrite bind_run. destruct (map_M open_file fns s0) as [s2 [e|hs']] eqn:Hrest; [done|].
    intros [= <- <-] Hopen. destruct (IH _ _ _ _ Hrest Hopen) as [Hopen0|Hin].
    + destruct (decide (h = h0)) as [->|Hne]; [right; by left|].
      left. revert Hopen0. unfold is_open, s0. simpl. by rewrite lookup_insert_ne.
    + right. by right.
Qed.

Lemma for_each_ds_close_closed hs : ∀ s h,
  is_open h (for_each hs ds_close s).1 = true → (h ∉ hs) ∧ is_open h s = true.
Proof.
  induction hs as [|h0 hs IH]; intros s h; simpl.
  - intros H. split; [apply not_elem_of_nil | done].
  - rewrite bind_run. unfold ds_close at 1, modify.
    intros [Hnot Hopen]%IH. revert Hopen. unfold is_open. simpl.
    destruct (decide (h = h0)) as [->|Hne].
    + rewrite lookup_alter_eq. by destruct (st_handles s !! h0) as [[? ?]|].
    + rewrite lookup_alter_ne by done. intros Hopen. split; [|done].
      by apply not_elem_of_cons.
Qed.

Lemma for_each_ds_close_run hs s :
  ∃ s1, for_each hs ds_close s = (s1, inr tt) ∧ same_fs s s1 ∧
        st_trace s1 = st_trace s ++ (EvClose <$> hs).
Proof.
  revert s. induction hs as [|h hs IH]; intros s; simpl.
  - exists s. split_and!; try done. by rewrite app_nil_r.
  - rewrite bind_run. simpl.
    destruct (IH (emit (EvClose h)
                    (with_handles (alter (λ x, (x.1, false)) h (st_handles s)) s)))
      as (s1 & -> & Hfs & Htr).
    exists s1. split_and!; try done. rewrite Htr. simpl. by rewrite <- app_assoc.
Qed.

Lemma quiet_is_open h s s' : quiet s s' → is_open h s' = is_open h s.
Proof. intros (_ & Hh & _). unfold is_open. by rewrite Hh. Qed.

(** The statements of the [with] block of the merge loop. *)
Definition merge_body (gebco_height : bool) (fn : string) (ds : dataset) : M unit :=
  ds ← (if gebco_height
        then c ← get_cutout; h ← ds_get_var "height" (meta c); mret (ds_set_var "height" h ds)
        else mret ds);
  to_netcdf ds fn.

Lemma merge_body_quiet gh fn ds : preserves quiet (merge_body gh fn ds).
Proof. unfold merge_body. preserves_tac. Qed.

Lemma merge_month_run gh fn s :
  let fns := filter (λ p, glob_match ((splitext fn).1 +:+ "-*" +:+ (splitext fn).2) p = true)
               (paths s) in
  merge_month gh fn s
  = match open_mfdataset fns s with
    | (s1, inl e) => (s1, inl e)
    | (s1, inr (hs, ds)) =>
        (try_finally (merge_body gh fn ds) (for_each hs ds_close) ;;
         for_each fns unlink ;;
         log DEBUG "Completed file %s" [VStr (basename (default fn (last fns)))]) s1
    end.
Proof.
  intros fns. unfold merge_month. destruct (splitext fn) as [base ext]. simpl in fns.
  rewrite bind_run. unfold glob at 1. fold (paths s). fold fns. rewrite bind_run.
  by destruct (open_mfdataset fns s) as [s1 [e|[hs ds]]].
Qed.

(** X22: once [open_mfdataset] has opened the partial files of a month,
    the [with] block closes them all: whether the merge of the month
    returns or raises, no dataset is open afterwards that was not open
    before. *)
Theorem merge_month_closes_datasets gebco_height fn s s1 hs ds s' r h :
  let fns := filter (λ p, glob_match ((splitext fn).1 +:+ "-*" +:+ (splitext fn).2) p = true)
               (paths s) in
  open_mfdataset fns s = (s1, inr (hs, ds)) →
  merge_month gebco_height fn s = (s', r) →
  is_open h s' = true → is_open h s = true.
Proof.
  intros fns Hopen. rewrite merge_month_run. fold fns. rewrite Hopen.
  assert (∀ h, is_open h s1 = true → is_open h s = true ∨ h ∈ hs) as Hs1.
  { unfold open_mfdataset in Hopen. destruct fns as [|p fns']; [done|].
    apply bind_inr_inv in Hopen as (s0 & hs0 & Hmap & Hopen).
    apply bind_inr_inv in Hopen as (? & ? & [= <- <-] & Hopen).
    apply bind_inr_inv in Hopen as (? & ? & Hlift & Hopen).
    unfold lift_result in Hlift. injection Hlift as <- _. injection Hopen as <- <- _.
    intros h' Ho. by eapply map_M_open_file_handles. }
  rewrite bind_run. unfold try_finally.
  destruct (merge_body gebco_height fn ds s1) as [s2 r2] eqn:Hbody.
  assert (quiet s1 s2) as Hq2 by (eapply preserves_run, Hbody; apply merge_body_quiet).
  destruct (for_each_ds_close_run hs s2) as (s3 & Hclose & _ & _).
  pose proof (for_each_ds_close_closed hs s2 h) as Hclosed. rewrite Hclose in *.
  assert (is_open h s3 = true → is_open h s = true) as Hs3.
  { intros [Hnot Ho]%Hclosed. rewrite (quiet_is_open _ _ _ Hq2) in Ho.
    by destruct (Hs1 h Ho). }
  destruct r2 as [e|[]].
  - by intros [= <- <-].
  - intros Hrest Ho. apply Hs3.
    rewrite <- (quiet_is_open h s3 s'); [done|].
    eapply (preserves_run quiet), Hrest. preserves_tac.
Qed.

(** X23: when the merged dataset cannot be written (the directory of the
    canonical file does not exist, or the canonical name is a directory),
    the merge of the month raises [OSError] after closing the partial
    files; no partial file is deleted and no file is changed. *)
Theorem merge_month_write_failure gebco_height fn s s1 hs ds height :
  let fns := filter (λ p, glob_match ((splitext fn).1 +:+ "-*" +:+ (splitext fn).2) p = true)
               (paths s) in
  open_mfdataset fns s = (s1, inr (hs, ds)) →
  (gebco_height = true → data_vars (meta (st_cutout s)) !! "height" = Some height) →
  isdir (dirname fn) s && negb (isdir fn s) = false →
  ∃ s' e, merge_month gebco_height fn s = (s', inl e) ∧ exc_class e = OSError ∧
          st_files s' = st_files s ∧
          st_trace s' = st_trace s1 ++ (EvClose <$> hs).
Proof.
  intros fns Hopen Hheight Hbad. rewrite merge_month_run. fold fns. rewrite Hopen.
  assert (same_fs s s1) as [Hf1 Hd1]
    by (eapply preserves_run, Hopen; apply open_mfdataset_same_fs).
  assert (same_cutout s s1) as Hc1
    by (eapply preserves_run, Hopen; apply open_mfdataset_same_cutout).
  assert (isdir (dirname fn) s1 && negb (isdir fn s1) = false) as Hbad1.
  { unfold isdir in *. by rewrite Hd1. }
  assert (merge_body gebco_height fn ds s1
          = (s1, inl (Exn OSError [VInt 2; VStr "No such file or directory"]))) as Hbody.
  { unfold merge_body. rewrite bind_run. destruct gebco_height.
    - rewrite bind_run. unfold get_cutout. rewrite bind_run. unfold ds_get_var.
      rewrite Hc1, (Hheight eq_refl). simpl. unfold to_netcdf. by rewrite Hbad1.
    - simpl. unfold to_netcdf. by rewrite Hbad1. }
  rewrite bind_run. unfold try_finally. rewrite Hbody.
  destruct (for_each_ds_close_run hs s1) as (s3 & -> & [Hf3 _] & Htr3).
  eexists _, _. split; [reflexivity|]. split_and!; [done | congruence | done].
Qed.
End MergeEdges.

Lemma merge_month_closes_datasets_witness :
  let r := merge_month false "out/201101.nc" Sample.merge_open_state in
  is_open 5%nat r.1 = true ∧ is_open 5%nat Sample.merge_open_state = true ∧
  is_open 0%nat r.1 = false ∧ is_open 1%nat r.1 = false.
Proof.
  intros r.
  assert (is_open 5%nat r.1 = true) as Hopen by (vm_compute; reflexivity).
  split; [exact Hopen|]. split; [|split; vm_compute; reflexivity].
  destruct (open_mfdataset
              (filter (λ p, glob_match ((splitext "out/201101.nc").1 +:+ "-*"
                                        +:+ (splitext "out/201101.nc").2) p = true)
                 (paths Sample.merge_open_state)) Sample.merge_open_state)
    as [s1 [e|[hs ds]]] eqn:Hmf.
  - exfalso. vm_compute in Hmf. discriminate Hmf.
  - exact (merge_month_closes_datasets false "out/201101.nc" Sample.merge_open_state
             s1 hs ds r.1 r.2 5%nat Hmf (surjective_pairing r) Hopen).
Defined.

Lemma merge_month_write_failure_witness :
  ∃ s' e, merge_month false "out/201101.nc" Sample.blocked_state = (s', inl e) ∧
          exc_class e = OSError ∧
          st_files s' !! "out/201101-0.nc" = Some Sample.wind.
Proof.
  destruct (open_mfdataset
              (filter (λ p, glob_match ((splitext "out/201101.nc").1 +:+ "-*"
                                        +:+ (splitext "out/201101.nc").2) p = true)
                 (paths Sample.blocked_state)) Sample.blocked_state)
    as [s1 [e|[hs ds]]] eqn:Hmf.
  - exfalso. vm_compute in Hmf. discriminate Hmf.
  - destruct (merge_month_write_failure false "out/201101.nc" Sample.blocked_state
                s1 hs ds 0 Hmf) as (s' & e & Hrun & Hcls & Hfiles & _).
    + intros H. discriminate H.
    + vm_compute. reflexivity.
    + exists s', e. split; [exact Hrun|]. split; [exact Hcls|].
      rewrite Hfiles. reflexivity.
Defined.
(** * The task executor: results returned to the caller *)

Section ExecutorPreview.
Context (E : env).

End ExecutorPreview.

